(** * Qanda forum client: the nested comment renderer and its mutation protocol

    A shallow embedding of the comment subsystem of [frontend/src/main.js]:
    [displayCommentReply], [displayCommentDOM], [deleteChildrenComments],
    [displayCommentRecursive], [displayComments], [unhideComments] and the
    click listeners registered on [UI.threadComments] and
    [UI.threadMainReply]; and, around it, of the polling of the watched
    threads ([startPolling], [stopPolling], [pollWatchedThreads],
    [fetchAllThreads]), of the thread on display ([displayThread],
    [canUserChangeThread], the heart and watch buttons), of the list of
    threads ([displayThreads], [loadMoreThreadsIfNeeded], the scroll
    listener) and of the threads on a profile
    ([displayThreadsUserProfile]).

    Conventions.
    - JavaScript numbers that the code manipulates are integers (ids,
      millisecond timestamps, pixel counts); they are modelled by [Z], and
      [NaN] by [None] in [option Z].
    - The DOM container [UI.threadComments] is the list of its children in
      document order.  The container is emptied node by node before every
      render and only elements are appended afterwards, so [nextSibling] and
      [nextElementSibling] coincide on it.
    - A listener and a promise callback are state transformers of the
      page; a callback runs on the page as it is when its response arrives
      ([requestComments], then [commentsSettled]).  Calls to the backend
      are recorded in the trace of the page, without the token.
    - [displayCommentRecursive] and the loop of [deleteChildrenComments]
      take fuel.  Running out of it stands for a recursion that does not
      end; the loop is shown to end, and so is the recursion on lists
      whose ids are distinct. *)

From Stdlib Require Import ZArith List String Ascii Bool Lia Arith.
From Stdlib Require Import DecimalString DecimalZ.
From Stdlib Require Import Sorted Permutation.
From Stdlib Require QArith Qround.
Import ListNotations.

Local Open Scope string_scope.
Local Open Scope list_scope.
Local Open Scope Z_scope.

(** ** JavaScript primitives used by the comment code *)

Module Js.

Infix "^^" := String.append (at level 60, right associativity).

(** [Number.prototype.toString] on an integer. *)
Definition toString (n : Z) : string := NilZero.string_of_int (Z.to_int n).

(** [s.slice(0, -2)]: everything but the last two code units. *)
Definition slice_0_m2 (s : string) : string :=
  substring 0 (String.length s - 2) s.

(** White space skipped by [parseInt] (the ASCII part of it). *)
Definition isWhiteSpace (a : ascii) : bool :=
  let n := nat_of_ascii a in
  ((n =? 32) || (n =? 9) || (n =? 10) || (n =? 11) || (n =? 12) || (n =? 13))%nat.

Fixpoint trimStart (s : string) : string :=
  match s with
  | String a r => if isWhiteSpace a then trimStart r else s
  | EmptyString => EmptyString
  end.

(** The decimal digit a character stands for, as a constructor of
    [Decimal.uint]. *)
Definition digit (a : ascii) : option (Decimal.uint -> Decimal.uint) :=
  match a with
  | "0"%char => Some Decimal.D0 | "1"%char => Some Decimal.D1
  | "2"%char => Some Decimal.D2 | "3"%char => Some Decimal.D3
  | "4"%char => Some Decimal.D4 | "5"%char => Some Decimal.D5
  | "6"%char => Some Decimal.D6 | "7"%char => Some Decimal.D7
  | "8"%char => Some Decimal.D8 | "9"%char => Some Decimal.D9
  | _ => None
  end.

(** The longest prefix of decimal digits. *)
Fixpoint digits (s : string) : Decimal.uint :=
  match s with
  | String a r =>
      match digit a with
      | Some d => d (digits r)
      | None => Decimal.Nil
      end
  | EmptyString => Decimal.Nil
  end.

Definition digitsValue (s : string) : option Z :=
  match digits s with
  | Decimal.Nil => None
  | d => Some (Z.of_uint d)
  end.

(** [parseInt(s, 10)]: leading white space is skipped, an optional sign is
    read, then the longest run of digits; [NaN] ([None]) when that run is
    empty. *)
Definition parseInt (s : string) : option Z :=
  match trimStart s with
  | String "-"%char r => option_map Z.opp (digitsValue r)
  | String "+"%char r => digitsValue r
  | r => digitsValue r
  end.

(** A value that is [null], a number or [NaN]: what the id arguments of
    [displayCommentReply] range over. *)
Inductive Value : Type :=
| Null
| Num (n : Z)
| NaN.

(** [String(v)], which is what [setAttribute] stores. *)
Definition String_ (v : Value) : string :=
  match v with
  | Null => "null"
  | Num n => toString n
  | NaN => "NaN"
  end.

Definition ofParse (o : option Z) : Value :=
  match o with
  | Some n => Num n
  | None => NaN
  end.

(** [a < b] on numbers: false as soon as one side is [NaN]. *)
Definition lt (a b : option Z) : bool :=
  match a, b with
  | Some x, Some y => x <? y
  | _, _ => false
  end.

(** [${n}px] *)
Definition px (n : option Z) : string :=
  match n with
  | Some v => toString v ^^ "px"
  | None => "NaNpx"
  end.

(** [Array.prototype.sort(cmp)].  The sort is stable, and for a comparator
    that orders its arguments consistently the result is the one sorted
    permutation that keeps equal elements in their input order; it is
    computed here by insertion from the right. *)
Section Sort.
Context {A : Type} (cmp : A -> A -> Z).

Fixpoint insert (a : A) (l : list A) : list A :=
  match l with
  | [] => [a]
  | x :: r => if cmp a x <=? 0 then a :: l else x :: insert a r
  end.

Definition sort (l : list A) : list A := fold_right insert [] l.
End Sort.

(** [l.includes(v)] on numbers; [NaN] is in no list of integers. *)
Definition includes (l : list Z) (v : option Z) : bool :=
  match v with
  | Some n => existsb (Z.eqb n) l
  | None => false
  end.

(** [classList.contains(c)] *)
Definition contains (c : string) (l : list string) : bool :=
  existsb (String.eqb c) l.

(** [getAttribute(...) === v] *)
Definition attrIs (a : option string) (v : string) : bool :=
  match a with
  | Some s => String.eqb s v
  | None => false
  end.

(** [parseInt(getAttribute(...), 10)]; a missing attribute reads [null],
    which does not parse. *)
Definition parseIntAttr (a : option string) : option Z :=
  match a with
  | Some s => parseInt s
  | None => None
  end.

End Js.

Import Js.

(** ** Relative age of a comment ([displayCommentRecursive], first half) *)

(** [difference] is [dateObjectNow - dateObject] in milliseconds.
    [Math.floor(difference / k)] on integers is [difference / k] in [Z]. *)
Definition dateString (difference : Z) : string :=
  let minutes := difference / 60000 in
  let hours := difference / 3600000 in
  let days := difference / 86400000 in
  let weeks := difference / 604800000 in
  if minutes <? 1 then "Just now"
  else
    let '(denomination, time) :=
      if minutes <? 60 then ("minute", minutes)
      else if hours <? 24 then ("hour", hours)
      else if days <? 7 then ("day", days)
      else ("week", weeks) in
    let denomination :=
      if 1 <? time then denomination ^^ "s" else denomination in
    toString time ^^ " " ^^ denomination ^^ " ago".

(** ** Data model *)

(** A comment record as returned by [GET comments?threadId=].  [createdAt]
    is the time value of [new Date(createdAt)], in milliseconds. *)
Record Comment : Type := mkComment {
  id : Z;
  parentCommentId : option Z;
  creatorId : Z;
  content : string;
  createdAt : Z;
  likes : list Z
}.

(** The part of an element the comment code reads or writes.  A comment box
    built by [displayCommentDOM] carries the texts of its inner elements:
    the [.comment-likes] span, the date paragraph, the content paragraph and
    the like link. *)
Record Element : Type := mkElement {
  classList : list string;
  data_comment_id : option string;
  data_parent_comment_id : option string;
  data_user_id : option string;
  data_hidden : option string;
  data_editing : option string;
  style_marginLeft : string;
  style_paddingLeft : string;
  style_display : string;
  likesText : string;
  dateText : string;
  contentText : string;
  likeText : string
}.

(** The body handed to [authAPICall], before [JSON.stringify]. *)
Inductive Body : Type :=
| NoBody
| IdBody (id : option Z)
| LikeBody (id : option string) (turnon : bool)
| PostBody (content : string) (threadId : option Z) (parentCommentId : Value)
| EditBody (id : option Z) (content : string).

Record Request : Type := mkRequest {
  path : string;
  method : string;
  body : Body;
  queryString : option string
}.

(** What leaves a handler in order: nodes taken out of the container and
    calls to the backend. *)
Inductive Event : Type :=
| DomRemove (node : nat)
| ApiCall (r : Request).

(** The page.  Elements are objects: [nodes] is the store of the elements
    created so far, and the container, the handlers and [UI.replyBox] hold
    references into it. *)
Record Page : Type := mkPage {
  nodes : nat -> Element;
  fresh : nat;
  threadComments : list nat;
  replyBox : nat;
  threadCommentInput : string;
  threadMainReply : string;
  data_is_locked : option string;
  errorPopUp : option string;
  userId : option string;
  trace : list Event
}.

(** Outcome of a handler: it ran to its end, it was left by a [TypeError]
    (with the page as it was at that point), or it never returns. *)
Inductive Result : Type :=
| Done (p : Page)
| Threw (p : Page)
| Diverges.

Definition bind (r : Result) (k : Page -> Result) : Result :=
  match r with
  | Done p => k p
  | _ => r
  end.

Notation "r >>= k" := (bind r k) (at level 50, left associativity).

(** ** Field updates *)

Definition with_nodes (f : nat -> Element) (p : Page) : Page :=
  mkPage f (fresh p) (threadComments p) (replyBox p) (threadCommentInput p)
         (threadMainReply p) (data_is_locked p) (errorPopUp p) (userId p) (trace p).

Definition with_fresh (n : nat) (p : Page) : Page :=
  mkPage (nodes p) n (threadComments p) (replyBox p) (threadCommentInput p)
         (threadMainReply p) (data_is_locked p) (errorPopUp p) (userId p) (trace p).

Definition with_threadComments (l : list nat) (p : Page) : Page :=
  mkPage (nodes p) (fresh p) l (replyBox p) (threadCommentInput p)
         (threadMainReply p) (data_is_locked p) (errorPopUp p) (userId p) (trace p).

Definition with_threadCommentInput (v : string) (p : Page) : Page :=
  mkPage (nodes p) (fresh p) (threadComments p) (replyBox p) v
         (threadMainReply p) (data_is_locked p) (errorPopUp p) (userId p) (trace p).

Definition with_threadMainReply (d : string) (p : Page) : Page :=
  mkPage (nodes p) (fresh p) (threadComments p) (replyBox p) (threadCommentInput p)
         d (data_is_locked p) (errorPopUp p) (userId p) (trace p).

Definition with_data_is_locked (v : option string) (p : Page) : Page :=
  mkPage (nodes p) (fresh p) (threadComments p) (replyBox p) (threadCommentInput p)
         (threadMainReply p) v (errorPopUp p) (userId p) (trace p).

Definition with_errorPopUp (m : option string) (p : Page) : Page :=
  mkPage (nodes p) (fresh p) (threadComments p) (replyBox p) (threadCommentInput p)
         (threadMainReply p) (data_is_locked p) m (userId p) (trace p).

Definition with_trace (t : list Event) (p : Page) : Page :=
  mkPage (nodes p) (fresh p) (threadComments p) (replyBox p) (threadCommentInput p)
         (threadMainReply p) (data_is_locked p) (errorPopUp p) (userId p) t.

(** [node.<field> = ...] on the element behind reference [r]. *)
Definition update (r : nat) (f : Element -> Element) (p : Page) : Page :=
  with_nodes (fun x => if Nat.eqb x r then f (nodes p x) else nodes p x) p.

Definition emit (e : Event) (p : Page) : Page :=
  with_trace (trace p ++ [e]) p.

Definition set_data_comment_id (v : option string) (e : Element) : Element :=
  mkElement (classList e) v (data_parent_comment_id e) (data_user_id e)
            (data_hidden e) (data_editing e) (style_marginLeft e)
            (style_paddingLeft e) (style_display e) (likesText e) (dateText e)
            (contentText e) (likeText e).

Definition set_data_parent_comment_id (v : option string) (e : Element) : Element :=
  mkElement (classList e) (data_comment_id e) v (data_user_id e)
            (data_hidden e) (data_editing e) (style_marginLeft e)
            (style_paddingLeft e) (style_display e) (likesText e) (dateText e)
            (contentText e) (likeText e).

Definition set_data_hidden (v : option string) (e : Element) : Element :=
  mkElement (classList e) (data_comment_id e) (data_parent_comment_id e)
            (data_user_id e) v (data_editing e) (style_marginLeft e)
            (style_paddingLeft e) (style_display e) (likesText e) (dateText e)
            (contentText e) (likeText e).

Definition set_data_editing (v : option string) (e : Element) : Element :=
  mkElement (classList e) (data_comment_id e) (data_parent_comment_id e)
            (data_user_id e) (data_hidden e) v (style_marginLeft e)
            (style_paddingLeft e) (style_display e) (likesText e) (dateText e)
            (contentText e) (likeText e).

Definition set_style_paddingLeft (v : string) (e : Element) : Element :=
  mkElement (classList e) (data_comment_id e) (data_parent_comment_id e)
            (data_user_id e) (data_hidden e) (data_editing e)
            (style_marginLeft e) v (style_display e) (likesText e)
            (dateText e) (contentText e) (likeText e).

Definition set_style_display (v : string) (e : Element) : Element :=
  mkElement (classList e) (data_comment_id e) (data_parent_comment_id e)
            (data_user_id e) (data_hidden e) (data_editing e)
            (style_marginLeft e) (style_paddingLeft e) v (likesText e)
            (dateText e) (contentText e) (likeText e).

Definition set_likes (count label : string) (e : Element) : Element :=
  mkElement (classList e) (data_comment_id e) (data_parent_comment_id e)
            (data_user_id e) (data_hidden e) (data_editing e)
            (style_marginLeft e) (style_paddingLeft e) (style_display e)
            count (dateText e) (contentText e) label.

(** ** DOM primitives on a container's list of children *)

Module Dom.

(** [node.remove()] / [parent.removeChild(node)] *)
Definition remove (r : nat) (l : list nat) : list nat :=
  filter (fun x => negb (Nat.eqb x r)) l.

(** [parent.prepend(node)]: a node that is already in the document is
    moved. *)
Definition prepend (r : nat) (l : list nat) : list nat :=
  r :: remove r l.

(** [parent.appendChild(node)] *)
Definition appendChild (r : nat) (l : list nat) : list nat :=
  remove r l ++ [r].

Fixpoint insertAt (r child : nat) (l : list nat) : list nat :=
  match l with
  | [] => [r]
  | x :: t => if Nat.eqb x child then r :: l else x :: insertAt r child t
  end.

(** [node.nextSibling] inside [l] *)
Fixpoint nextSibling (r : nat) (l : list nat) : option nat :=
  match l with
  | [] => None
  | x :: t => if Nat.eqb x r then hd_error t else nextSibling r t
  end.

(** [parent.insertBefore(node, child)].  When [child] is [node] itself the
    reference child becomes [node]'s next sibling, so [node] stays where
    it is. *)
Definition insertBefore (r child : nat) (l : list nat) : list nat :=
  if Nat.eqb child r then
    match nextSibling r l with
    | Some c => insertAt r c (remove r l)
    | None => appendChild r l
    end
  else insertAt r child (remove r l).

End Dom.

(** ** The comment code of [main.js] *)

(** [showErrorPopUp]: the popup is displayed with the message (the blur of
    the screens is not part of the page modelled here). *)
Definition showErrorPopUp (errorMessage : string) (p : Page) : Page :=
  with_errorPopUp (Some errorMessage) p.

Definition isCommentBox (e : Element) : bool :=
  contains "thread-comment-box" (classList e).

(** [unhideComments]: the comment boxes of the container are its children of
    class [thread-comment-box]. *)
Definition unhideComments (p : Page) : Page :=
  fold_left
    (fun q comment =>
       if isCommentBox (nodes q comment)
          && attrIs (data_hidden (nodes q comment)) "true"
       then update comment (set_style_display "block") q
       else q)
    (threadComments p) p.

(** The search loops of [displayCommentReply]: every child is visited and
    the variable keeps the last match. *)
Fixpoint findComment (p : Page) (key : string) (children : list nat)
         (found : option nat) : option nat :=
  match children with
  | [] => found
  | child :: rest =>
      findComment p key rest
        (if attrIs (data_comment_id (nodes p child)) key
            && isCommentBox (nodes p child)
         then Some child else found)
  end.

Definition displayCommentReply (parentCommentId commentBeforeId : Value)
           (content : string) (editing : bool) (p : Page) : Result :=
  let rb := replyBox p in
  let p := update rb (set_data_editing (Some (if editing then "true" else "false"))) p in
  let p := update rb (set_data_comment_id (Some (String_ commentBeforeId))) p in
  let p := with_threadCommentInput content p in
  let p := update rb (set_data_parent_comment_id (Some (String_ parentCommentId))) p in
  (* now we find the parent so we can correctly apply indenting *)
  (match parentCommentId with
   | Null => Done (update rb (set_style_paddingLeft "0px") p)
   | _ =>
       match findComment p (String_ parentCommentId) (threadComments p) None with
       | None => Threw p
       | Some parentComment =>
           let indentStr := slice_0_m2 (style_marginLeft (nodes p parentComment)) in
           let indent := option_map (fun i => i + 10) (parseInt indentStr) in
           Done (update rb (set_style_paddingLeft (px indent)) p)
       end
   end) >>= fun p =>
  (* now insert into DOM *)
  match commentBeforeId with
  | Null => Done (with_threadComments (Dom.prepend rb (threadComments p)) p)
  | _ =>
      match findComment p (String_ commentBeforeId) (threadComments p) None with
      | None => Threw p
      | Some commentBefore =>
          match Dom.nextSibling commentBefore (threadComments p) with
          | Some next =>
              Done (with_threadComments
                      (Dom.insertBefore rb next (threadComments p)) p)
          | None =>
              Done (with_threadComments
                      (Dom.appendChild rb (threadComments p)) p)
          end
      end
  end.

Definition displayCommentDOM (commentId : Z) (parentCommentId : Value)
           (creatorId likes : Z) (userLiked : bool) (dateStr content : string)
           (indentLevel : Z) (p : Page) : Page :=
  let newCommentBox := fresh p in
  let box :=
    mkElement ["thread-comment-box"]
              (Some (toString commentId))
              (Some (String_ parentCommentId))
              (Some (toString creatorId))
              None None
              (px (Some (indentLevel * 10))) "" ""
              (toString likes) dateStr content
              (if userLiked then "unlike" else "like") in
  let p := with_fresh (S newCommentBox) (update newCommentBox (fun _ => box) p) in
  let p := with_threadComments (Dom.appendChild newCommentBox (threadComments p)) p in
  emit (ApiCall (mkRequest "user" "GET" NoBody
                           (Some ("userId=" ^^ toString creatorId)))) p.

Definition indentOf (p : Page) (r : nat) : option Z :=
  parseInt (slice_0_m2 (style_marginLeft (nodes p r))).

Definition deleteRequest (p : Page) (r : nat) : Request :=
  mkRequest "comment" "DELETE"
            (IdBody (parseIntAttr (data_comment_id (nodes p r)))) None.

(** The [while (comment.nextElementSibling)] loop.  Every turn either takes
    one node out of the container or leaves the loop, so it is run with one
    unit of fuel per child (see [deleteLoop_returns]). *)
Fixpoint deleteLoop (fuel : nat) (comment : nat) (indent : option Z)
         (p : Page) : Result :=
  match Dom.nextSibling comment (threadComments p) with
  | None => Done p
  | Some currentNode =>
      match fuel with
      | O => Diverges
      | S fuel' =>
          let currentNodeIndent := indentOf p currentNode in
          if lt indent currentNodeIndent then
            let request := deleteRequest p currentNode in
            let p := with_threadComments
                       (Dom.remove currentNode (threadComments p)) p in
            let p := emit (DomRemove currentNode) p in
            let p := emit (ApiCall request) p in
            deleteLoop fuel' comment indent p
          else Done p
      end
  end.

(** [deleteChildrenComments], in the two steps it is written in: the walk
    over the following siblings with the removal of the comment itself, and
    the closing choice of which reply control to show. *)
Definition removeWithChildren (comment : nat) (p : Page) : Result :=
  let indent := indentOf p comment in
  deleteLoop (List.length (threadComments p)) comment indent p >>= fun p =>
  (* delete parent comment *)
  let request := deleteRequest p comment in
  let p := with_threadComments (Dom.remove comment (threadComments p)) p in
  let p := emit (DomRemove comment) p in
  Done (emit (ApiCall request) p).

Definition showReplyControl (p : Page) : Result :=
  if (List.length (threadComments p) =? 0)%nat && attrIs (data_is_locked p) "false"
  then
    displayCommentReply Null Null "" false p >>= fun p =>
    Done (with_threadMainReply "none" p)
  else if (List.length (threadComments p) =? 0)%nat
          && attrIs (data_is_locked p) "true"
  then Done (with_threadMainReply "none" p)
  else Done (with_threadMainReply "inline-block" p).

Definition deleteChildrenComments (comment : nat) (p : Page) : Result :=
  removeWithChildren comment p >>= showReplyControl.

(** [l.forEach(x => { ...; index += 1 })] with the counter the callbacks of
    [displayComments] and [displayCommentRecursive] keep next to it. *)
Fixpoint forEach {A : Type} (f : A -> nat -> Page -> Result) (l : list A)
         (index : nat) (p : Page) : Result :=
  match l with
  | [] => Done p
  | x :: r => f x index p >>= forEach f r (S index)
  end.

(** [displayCommentRecursive].  [now] is the value of [new Date()], taken as
    fixed during one render; [fuel] bounds the depth of the recursion, which
    the code does not. *)
Fixpoint displayCommentRecursive (fuel : nat) (now : Z) (indentLevel : Z)
         (comments : list Comment) (index : nat) (parentId : Value)
         (p : Page) {struct fuel} : Result :=
  match fuel with
  | O => Diverges
  | S fuel' =>
      match nth_error comments index with
      | None => Threw p
      | Some c =>
          let difference := now - createdAt c in
          let dateStr := dateString difference in
          let creator := creatorId c in
          let likesCount := Z.of_nat (List.length (likes c)) in
          let userLiked := includes (likes c) (parseIntAttr (userId p)) in
          let content := content c in
          let commentId := id c in
          (* insert into dom *)
          let p := displayCommentDOM commentId parentId creator likesCount
                                     userLiked dateStr content indentLevel p in
          (* call recursive function on all children *)
          forEach
            (fun comment newIndex q =>
               match parentCommentId comment with
               | Some parent =>
                   if parent =? commentId
                   then displayCommentRecursive fuel' now (indentLevel + 1)
                                                comments newIndex (Num commentId) q
                   else Done q
               | None => Done q
               end)
            comments 0%nat p
      end
  end.

(** What [authAPICall(...)] settles to. *)
Inductive Response : Type :=
| Resolved (comments : list Comment)
| Rejected (error : string).

(** The comparator of [displayComments]: most recent first. *)
Definition byRecency (a b : Comment) : Z := createdAt b - createdAt a.

(** [while (firstChild) removeChild(firstChild)] *)
Definition clearComments (p : Page) : Page :=
  fold_left
    (fun q child =>
       emit (DomRemove child)
            (with_threadComments (Dom.remove child (threadComments q)) q))
    (threadComments p) p.

(** [displayComments(threadId)] up to its request: the container is emptied
    and the comments of the thread are asked for. *)
Definition requestComments (threadId : string) (p : Page) : Page :=
  let p := clearComments p in
  emit (ApiCall (mkRequest "comments" "GET" NoBody
                           (Some ("threadId=" ^^ threadId)))) p.

(** The [then] callback of [displayComments], on the page as it is when the
    comments arrive. *)
Definition commentsFetched (fuel : nat) (now : Z) (comments : list Comment)
           (p : Page) : Result :=
  (* first sort the comments based on most recent *)
  let comments := sort byRecency comments in
  forEach
    (fun comment index q =>
       match parentCommentId comment with
       | None => displayCommentRecursive fuel now 0 comments index Null q
       | Some _ => Done q
       end)
    comments 0%nat p >>= fun p =>
  if (List.length comments =? 0)%nat && attrIs (data_is_locked p) "false"
  then
    displayCommentReply Null Null "" false p >>= fun p =>
    Done (with_threadMainReply "none" p)
  else if (List.length comments =? 0)%nat
          && attrIs (data_is_locked p) "true"
  then Done (with_threadMainReply "none" p)
  else Done (with_threadMainReply "inline-block" p).

(** The request settles: the [then] callback runs, or the [catch] callback
    shows the error; a [TypeError] raised inside the [then] callback reaches
    the [catch] callback too. *)
Definition commentsSettled (fuel : nat) (now : Z) (response : Response)
           (p : Page) : Result :=
  match response with
  | Rejected error => Done (showErrorPopUp error p)
  | Resolved comments =>
      match commentsFetched fuel now comments p with
      | Threw q => Done (showErrorPopUp "TypeError" q)
      | r => r
      end
  end.

(** [displayComments(threadId)] when nothing happens between the request
    and its response. *)
Definition displayComments (fuel : nat) (now : Z) (threadId : string)
           (response : Response) (p : Page) : Result :=
  commentsSettled fuel now response (requestComments threadId p).

(** ** Click listeners *)

(** A click inside [UI.threadComments]: whether the target is an [a]
    element, the classes of the target, and the position among the
    container's children of the child the target lies in. *)
Record Click : Type := mkClick {
  isAnchor : bool;
  targetClasses : list string;
  within : nat
}.

(** [event.target.closest('.thread-comment-box')]: inside the container the
    only elements of that class are children of the container. *)
Definition closest (ev : Click) (p : Page) : option nat :=
  match nth_error (threadComments p) (within ev) with
  | Some r => if isCommentBox (nodes p r) then Some r else None
  | None => None
  end.

(** [attr === "null" ? null : parseInt(attr, 10)] *)
Definition idOfAttr (a : option string) : Value :=
  if attrIs a "null" then Null else ofParse (parseIntAttr a).

Definition onThreadCommentsClick (ev : Click) (p : Page) : Result :=
  if isAnchor ev then
    if attrIs (data_is_locked p) "true" then
      Done (showErrorPopUp "thread is locked" p)
    else if contains "reply" (targetClasses ev) then
      let p := unhideComments p in
      match closest ev p with
      | None => Threw p
      | Some parent =>
          let parentId := idOfAttr (data_comment_id (nodes p parent)) in
          displayCommentReply parentId parentId "" false p
      end
    else if contains "like" (targetClasses ev) then
      match closest ev p with
      | None => Threw p
      | Some comment =>
          let e := nodes p comment in
          let currentLikes := parseInt (likesText e) in
          let '(label, newLikes, like) :=
            if String.eqb (likeText e) "unlike"
            then ("like", option_map (fun n => n - 1) currentLikes, false)
            else ("unlike", option_map (fun n => n + 1) currentLikes, true) in
          let p := update comment (set_likes (String_ (ofParse newLikes)) label) p in
          Done (emit (ApiCall (mkRequest "comment/like" "PUT"
                                         (LikeBody (data_comment_id e) like)
                                         None)) p)
      end
    else if contains "edit" (targetClasses ev) then
      let p := unhideComments p in
      match closest ev p with
      | None => Threw p
      | Some comment =>
          let commentId := idOfAttr (data_comment_id (nodes p comment)) in
          let parentId := idOfAttr (data_parent_comment_id (nodes p comment)) in
          let commentContent := contentText (nodes p comment) in
          displayCommentReply parentId commentId commentContent true p
          >>= fun p =>
          let p := update comment (set_style_display "none") p in
          Done (update comment (set_data_hidden (Some "true")) p)
      end
    else if contains "delete" (targetClasses ev) then
      match closest ev p with
      | None => Threw p
      | Some comment => deleteChildrenComments comment p
      end
    else Done p
  else if contains "comment-header-button" (targetClasses ev) then
    (* showUserProfile: a change of screen that starts with a user lookup *)
    match closest ev p with
    | None => Threw p
    | Some comment =>
        let user := match data_user_id (nodes p comment) with
                    | Some u => u
                    | None => "null"
                    end in
        Done (emit (ApiCall (mkRequest "user" "GET" NoBody
                                       (Some ("userId=" ^^ user)))) p)
    end
  else Done p.

Definition onThreadMainReplyClick (p : Page) : Result :=
  if attrIs (data_is_locked p) "true" then
    Done (showErrorPopUp "thread is locked" p)
  else
    let p := unhideComments p in
    displayCommentReply Null Null "" false p.

(** The click listener of [UI.threadCommentButton]: the comment typed in
    the reply box is posted, or the comment under edit is updated.
    [threadId] is the [data-thread-id] attribute of [UI.threadText]; the
    dashboard is shown again when the request has succeeded. *)
Definition onThreadCommentButtonClick (threadId : option string) (p : Page)
  : Result :=
  let box := nodes p (replyBox p) in
  let parentCommentId := idOfAttr (data_parent_comment_id box) in
  if attrIs (data_editing box) "false" then
    Done (emit (ApiCall (mkRequest "comment" "POST"
                                   (PostBody (threadCommentInput p)
                                             (parseIntAttr threadId)
                                             parentCommentId)
                                   None)) p)
  else
    Done (emit (ApiCall (mkRequest "comment" "PUT"
                                   (EditBody
                                      (parseIntAttr (data_comment_id box))
                                      (threadCommentInput p))
                                   None)) p).

(** ** The relative-age rule as the specification words it *)



(** ** Well-formed containers and a sample thread *)

(** A node occurs once among the children of its parent. *)
Fixpoint distinct (l : list nat) : bool :=
  match l with
  | [] => true
  | x :: r => negb (existsb (Nat.eqb x) r) && distinct r
  end.

Definition blank : Element :=
  mkElement [] None None None None None "" "" "" "" "" "" "".

(** The page before any thread is shown: the reply box is the one element
    there is, and it is outside the container. *)
Definition initialPage (locked : string) : Page :=
  mkPage (fun _ => blank) 1 [] 0 "" "" (Some locked) None (Some "7") [].

Definition sampleComments : list Comment :=
  [ mkComment 1 None 5 "first" 100 [];
    mkComment 2 (Some 1) 5 "a reply" 200 [7];
    mkComment 3 None 6 "newest" 300 [];
    mkComment 4 (Some 2) 6 "nested" 50 [];
    mkComment 5 (Some 1) 6 "later reply" 250 [];
    mkComment 6 None 7 "oldest" 10 [] ].

Definition pageOf (r : Result) : Page :=
  match r with
  | Done p | Threw p => p
  | Diverges => initialPage "false"
  end.

(** The sample thread rendered: comments 3, 1, 5, 2, 4, 6 at margins
    0, 0, 10, 10, 20, 0, behind the references 1 to 6. *)
Definition samplePage : Page :=
  pageOf (displayComments 7 1000 "1" (Resolved sampleComments)
                          (initialPage "false")).

Definition clickOn (class : string) (position : nat) : Click :=
  mkClick true [class] position.

(** The nodes the walk takes out, each with its [DELETE] request. *)
Definition removals (p : Page) (run : list nat) : list Event :=
  flat_map (fun r => [DomRemove r; ApiCall (deleteRequest p r)]) run.

(** The walk touches the container and the trace only. *)
Definition sameSession (p q : Page) : Prop :=
  nodes q = nodes p /\ fresh q = fresh p /\ replyBox q = replyBox p
  /\ threadCommentInput q = threadCommentInput p
  /\ threadMainReply q = threadMainReply p
  /\ data_is_locked q = data_is_locked p
  /\ errorPopUp q = errorPopUp p /\ userId q = userId p.

(** What [unhideComments] leaves behind reference [r]. *)
Definition unhidden (p : Page) (l : list nat) (r : nat) : Element :=
  if existsb (Nat.eqb r) l
     && isCommentBox (nodes p r)
     && attrIs (data_hidden (nodes p r)) "true"
  then set_style_display "block" (nodes p r)
  else nodes p r.



(** The page a handler leaves behind, whether it returned or threw. *)
Definition leaves (r : Result) (q : Page) : Prop :=
  r = Done q \/ r = Threw q.

(** [q] differs from [p] in the reply box at most -- and there neither in
    the classes nor in what decides visibility and indentation -- and in
    where the reply box stands among the children. *)
Definition slotOnly (p q : Page) : Prop :=
  (forall r, r <> replyBox p -> nodes q r = nodes p r)
  /\ (forall r, classList (nodes q r) = classList (nodes p r)
                /\ style_display (nodes q r) = style_display (nodes p r)
                /\ data_hidden (nodes q r) = data_hidden (nodes p r)
                /\ style_marginLeft (nodes q r) = style_marginLeft (nodes p r))
  /\ Dom.remove (replyBox p) (threadComments q)
     = Dom.remove (replyBox p) (threadComments p)
  /\ (NoDup (threadComments p) -> NoDup (threadComments q))
  /\ fresh q = fresh p /\ replyBox q = replyBox p
  /\ data_is_locked q = data_is_locked p /\ userId q = userId p
  /\ trace q = trace p.

(** The attribute updates [displayCommentReply] applies to the reply box. *)
Definition slotSetter (f : Element -> Element) : Prop :=
  forall e, classList (f e) = classList e
            /\ style_display (f e) = style_display e
            /\ data_hidden (f e) = data_hidden e
            /\ style_marginLeft (f e) = style_marginLeft e.

(** [x] is the one comment box among the children whose [data-comment-id]
    is [key]. *)
Definition theComment (p : Page) (key : string) (x : nat) : Prop :=
  In x (threadComments p)
  /\ isCommentBox (nodes p x) = true
  /\ data_comment_id (nodes p x) = Some key
  /\ forall r, In r (threadComments p) ->
               isCommentBox (nodes p r) = true ->
               data_comment_id (nodes p r) = Some key -> r = x.

Definition isTheComment (p : Page) (key : string) (x : nat) : bool :=
  existsb (Nat.eqb x) (threadComments p)
  && isCommentBox (nodes p x)
  && attrIs (data_comment_id (nodes p x)) key
  && forallb
       (fun r =>
          implb (isCommentBox (nodes p r)
                 && attrIs (data_comment_id (nodes p r)) key)
                (Nat.eqb r x))
       (threadComments p).

(** ** The render as a function of the comment list *)

(** The elements of the container, in document order. *)
Definition domView (p : Page) : list Element :=
  map (nodes p) (threadComments p).

(** The comment box [displayCommentRecursive] builds for [c]. *)
Definition boxOf (uid : option string) (now : Z) (c : Comment)
           (parent : Value) (indentLevel : Z) : Element :=
  mkElement ["thread-comment-box"]
            (Some (toString (id c)))
            (Some (String_ parent))
            (Some (toString (creatorId c)))
            None None
            (px (Some (indentLevel * 10))) "" ""
            (toString (Z.of_nat (List.length (likes c))))
            (dateString (now - createdAt c))
            (content c)
            (if includes (likes c) (parseIntAttr uid) then "unlike" else "like").

Fixpoint collect {A : Type} (f : A -> option (list Element)) (l : list A)
  : option (list Element) :=
  match l with
  | [] => Some []
  | x :: r =>
      match f x with
      | Some a => option_map (app a) (collect f r)
      | None => None
      end
  end.

Definition isChildOf (c k : Comment) : bool :=
  match parentCommentId k with
  | Some i => i =? id c
  | None => false
  end.

Definition isRoot (k : Comment) : bool :=
  match parentCommentId k with
  | Some _ => false
  | None => true
  end.

(** The boxes one call of [displayCommentRecursive] appends: the box of [c]
    and, in list order, the boxes of the calls for its children. *)
Fixpoint renderTree (fuel : nat) (uid : option string) (now : Z)
         (comments : list Comment) (indentLevel : Z) (c : Comment)
         (parent : Value) : option (list Element) :=
  match fuel with
  | O => None
  | S fuel' =>
      option_map
        (cons (boxOf uid now c parent indentLevel))
        (collect
           (fun k =>
              if isChildOf c k
              then renderTree fuel' uid now comments (indentLevel + 1) k
                              (Num (id c))
              else Some [])
           comments)
  end.

(** The boxes of a whole render of the sorted list. *)
Definition renderRoots (fuel : nat) (uid : option string) (now : Z)
           (comments : list Comment) : option (list Element) :=
  collect
    (fun k =>
       if isRoot k then renderTree fuel uid now comments 0 k Null
       else Some [])
    comments.

(** [q] is [p] with the boxes [els] created and appended. *)
Definition appended (p : Page) (els : list Element) (q : Page) : Prop :=
  threadComments q
  = threadComments p ++ seq (fresh p) (List.length els)
  /\ fresh q = (fresh p + List.length els)%nat
  /\ (forall r, (r < fresh p)%nat -> nodes q r = nodes p r)
  /\ map (nodes q) (seq (fresh p) (List.length els)) = els
  /\ replyBox q = replyBox p /\ userId q = userId p
  /\ data_is_locked q = data_is_locked p
  /\ threadMainReply q = threadMainReply p
  /\ threadCommentInput q = threadCommentInput p
  /\ errorPopUp q = errorPopUp p.

(** The references held by the container have been handed out. *)
Definition allocated (p : Page) : Prop :=
  Forall (fun r => (r < fresh p)%nat) (threadComments p).

(** A run that appends the boxes [o] to [p], or never returns when there
    are none to give. *)
Definition renders (r : Result) (o : option (list Element)) (p : Page) : Prop :=
  match o with
  | Some els => exists q, r = Done q /\ appended p els q
  | None => r = Diverges
  end.

(** The reply box in its compose-new state. *)
Definition composeNew (e : Element) : Element :=
  set_style_paddingLeft "0px"
    (set_data_parent_comment_id (Some "null")
       (set_data_comment_id (Some "null")
          (set_data_editing (Some "false") e))).


(** ** Forests of comments *)

(** The record a [parentCommentId] refers to. *)
Definition lookup (cs : list Comment) (i : Z) : option Comment :=
  find (fun c => id c =? i) cs.

(** The number of hops from [c] to a comment without parent, following
    [parentCommentId], when there are at most [fuel] of them. *)
Fixpoint depth (fuel : nat) (cs : list Comment) (c : Comment) : option nat :=
  match parentCommentId c with
  | None => Some 0%nat
  | Some i =>
      match fuel with
      | O => None
      | S fuel' =>
          match lookup cs i with
          | Some parent => option_map S (depth fuel' cs parent)
          | None => None
          end
      end
  end.

Fixpoint distinctIds (l : list Z) : bool :=
  match l with
  | [] => true
  | x :: r => negb (existsb (Z.eqb x) r) && distinctIds r
  end.

(** A flat list is a forest when its ids are distinct and every comment
    reaches a root along resolving [parentCommentId]s; a chain of more hops
    than there are comments would have to pass twice through one of them. *)
Definition forest (cs : list Comment) : bool :=
  distinctIds (map id cs)
  && forallb
       (fun c => match depth (List.length cs) cs c with
                 | Some _ => true
                 | None => false
                 end) cs.

(** A path from a comment up to a comment without parent, each comment
    being a child of the next one. *)
Fixpoint chain (path : list Comment) : bool :=
  match path with
  | [] => true
  | c :: rest =>
      match rest with
      | [] => isRoot c
      | d :: _ => isChildOf d c
      end && chain rest
  end.

Definition depthOf (cs : list Comment) (c : Comment) : nat :=
  match depth (List.length cs) cs c with
  | Some d => d
  | None => 0%nat
  end.

(** [parentCommentId] as the value [displayCommentRecursive] is called
    with. *)
Definition parentValue (c : Comment) : Value :=
  match parentCommentId c with
  | Some i => Num i
  | None => Null
  end.

(** [k] has parent [q]. *)
Definition hasParent (q : option Z) (k : Comment) : bool :=
  match parentCommentId k, q with
  | Some i, Some a => i =? a
  | None, None => true
  | _, _ => false
  end.

(** The comments below [c], in the order of the recursive calls. *)
Fixpoint descendants (fuel : nat) (cs : list Comment) (c : Comment)
  : list Comment :=
  match fuel with
  | O => []
  | S fuel' =>
      flat_map (fun k => k :: descendants fuel' cs k)
               (filter (hasParent (Some (id c))) cs)
  end.

(** The order in which a forest is rendered. *)
Definition preorder (cs : list Comment) : list Comment :=
  flat_map (fun k => k :: descendants (List.length cs) cs k)
           (filter (hasParent None) cs).

(** The parent record, and the ancestor [j] hops up. *)
Definition up (cs : list Comment) (c : Comment) : option Comment :=
  match parentCommentId c with
  | Some i => lookup cs i
  | None => None
  end.

Fixpoint ancestorAt (cs : list Comment) (j : nat) (c : Comment)
  : option Comment :=
  match j with
  | O => Some c
  | S j' =>
      match up cs c with
      | Some parent => ancestorAt cs j' parent
      | None => None
      end
  end.

(** The elements of the container other than the reply box. *)
Definition renderedComments (p : Page) : list Element :=
  map (nodes p)
      (filter (fun r => negb (Nat.eqb r (replyBox p))) (threadComments p)).

(** The box of [c] in a render of the forest [cs]. *)
Definition boxIn (uid : option string) (now : Z) (cs : list Comment)
           (c : Comment) : Element :=
  boxOf uid now c (parentValue c) (Z.of_nat (depthOf cs c)).

(** [c] is [t] or one of its ancestors. *)
Definition above (cs : list Comment) (c t : Comment) : bool :=
  (depthOf cs c <=? depthOf cs t)%nat
  && match ancestorAt cs (depthOf cs t - depthOf cs c) t with
     | Some a => id a =? id c
     | None => false
     end.

(** [a] may stand before [b] in a list sorted by recency. *)
Definition newerFirst (a b : Comment) : Prop := createdAt b <= createdAt a.

Definition createdAtIs (t : Z) (c : Comment) : bool := createdAt c =? t.

(** ** The page as a state machine *)



(** The sample thread once comment 1 with its replies and then comment 3
    have been deleted: the node of comment 6 is the only one left. *)
Definition oneLeft : Page :=
  pageOf (deleteChildrenComments
            1 (pageOf (deleteChildrenComments 2 samplePage))).






(** The click is dispatched to the edit branch of the listener. *)
Definition editClick (ev : Click) (p : Page) : bool :=
  isAnchor ev
  && negb (attrIs (data_is_locked p) "true")
  && negb (contains "reply" (targetClasses ev))
  && negb (contains "like" (targetClasses ev))
  && contains "edit" (targetClasses ev).


(** The target of the click is the edit link of a comment: an [a]
    element of class [edit] and of none of the classes the listener tests
    before it. *)
Definition editLink (ev : Click) : bool :=
  isAnchor ev
  && negb (contains "reply" (targetClasses ev))
  && negb (contains "like" (targetClasses ev))
  && contains "edit" (targetClasses ev).










Definition isDone (r : Result) : bool :=
  match r with
  | Done _ => true
  | _ => false
  end.

(** ** Requests as the backend sees them *)


(** The calls to the backend among the events of a trace. *)
Definition apiCalls (t : list Event) : list Request :=
  flat_map (fun e => match e with
                     | ApiCall r => [r]
                     | DomRemove _ => []
                     end) t.



(** The [PUT comment/like] of the like link: the id goes out as the
    attribute reads, a string. *)
Definition likeRequest (idAttr : option string) (turnon : bool) : Request :=
  mkRequest "comment/like" "PUT" (LikeBody idAttr turnon) None.

(** What the submit button sends for a slot opened by
    [displayCommentReply parentId beforeId _ editing], with [text] in the
    input. *)
Definition submitRequest (threadId : option string)
           (parentId beforeId : Value) (editing : bool) (text : string)
  : Request :=
  if editing
  then mkRequest "comment" "PUT"
                 (EditBody (match beforeId with
                            | Num m => Some m
                            | _ => None
                            end) text) None
  else mkRequest "comment" "POST"
                 (PostBody text (parseIntAttr threadId) parentId) None.

(** The request [displayComments] sends for the comments of a thread. *)
Definition commentsRequest (threadId : string) : Request :=
  mkRequest "comments" "GET" NoBody (Some ("threadId=" ^^ threadId)).

(** ** The list of all threads *)

(** What [authAPICall] settles to: the data of the response, or the error
    the backend answered with. *)
Inductive Reply (A : Type) : Type :=
| Replied (data : A)
| Failed (error : string).

Arguments Replied {A} data.
Arguments Failed {A} error.

(** The state of a promise once the responses it waits for are in;
    [Pending] when it never settles. *)
Inductive Promise (A : Type) : Type :=
| Fulfilled (value : A)
| RejectedWith (error : string)
| Pending.

Arguments Fulfilled {A} value.
Arguments RejectedWith {A} error.
Arguments Pending {A}.

(** [GET threads?start=] *)
Definition threadsRequest (start : string) : Request :=
  mkRequest "threads" "GET" NoBody (Some ("start=" ^^ start)).

(** [fetchAllThreads(current, allThreads)].  [threads] is the backend's
    answer to [GET threads?start=], by the value of [start]; [fuel] bounds
    the number of pages asked for, which the code does not.  The promise
    and the page are those found once the responses are in. *)
Fixpoint fetchAllThreads (fuel : nat) (threads : string -> Reply (list Z))
         (current : Z) (allThreads : list Z) (p : Page)
  : Promise (list Z) * Page :=
  match fuel with
  | O => (Pending, p)
  | S fuel' =>
      let p := emit (ApiCall (threadsRequest (toString current))) p in
      match threads (toString current) with
      | Replied page =>
          let updatedThreads := allThreads ++ page in
          if (List.length page <? 5)%nat
          then (Fulfilled updatedThreads, p)
          else fetchAllThreads fuel' threads (current + 5) updatedThreads p
      | Failed error => (RejectedWith error, showErrorPopUp error p)
      end
  end.

(** A backend that holds the threads [all] and serves them five at a
    time. *)
Definition paging (all : list Z) (start : string) : Reply (list Z) :=
  match parseInt start with
  | Some n => Replied (firstn 5 (skipn (Z.to_nat n) all))
  | None => Failed "bad start"
  end.

(** The requests for the pages at 0, 5, ..., [5 * (n - 1)] from [start]. *)
Fixpoint pageRequests (n : nat) (start : Z) : list Request :=
  match n with
  | O => []
  | S n' => threadsRequest (toString start) :: pageRequests n' (start + 5)
  end.

(** ** Polling the watched threads *)

(** A thread as [GET thread?id=] returns it. *)
Module ThreadData.
Record t : Type := mk {
  title : string;
  content : string;
  likes : list Z;
  watchees : list Z;
  lock : bool;
  isPublic : bool;
  creatorId : Z;
  createdAt : string
}.
End ThreadData.

(** A user as [GET user?userId=] returns it. *)
Module UserData.
Record t : Type := mk {
  name : string;
  email : string;
  admin : bool;
  image : option string
}.
End UserData.

(** The answers of the backend to the [GET] requests of the client, by the
    value of their query. *)
Record Backend : Type := mkBackend {
  getThreads : string -> Reply (list Z);
  getThread : string -> Reply ThreadData.t;
  getUser : string -> Reply UserData.t;
  getComments : string -> Reply (list Comment)
}.

Definition threadRequest (id : string) : Request :=
  mkRequest "thread" "GET" NoBody (Some ("id=" ^^ id)).

Definition userRequest (userId : string) : Request :=
  mkRequest "user" "GET" NoBody (Some ("userId=" ^^ userId)).

(** An object whose keys are thread ids, as [watchedThreadsNew]: one value
    per key, the keys in ascending order, which is how [Object.entries]
    lists integer keys. *)
Fixpoint setKey (k v : Z) (o : list (Z * Z)) : list (Z * Z) :=
  match o with
  | [] => [(k, v)]
  | (k', v') :: r =>
      if k <? k' then (k, v) :: o
      else if k =? k' then (k, v) :: r
      else (k', v') :: setKey k v r
  end.

(** [o[k]], [None] for [undefined]. *)
Definition getKey (k : Z) (o : list (Z * Z)) : option Z :=
  option_map snd (find (fun e => fst e =? k) o).

(** The client outside the thread view: the page, the items of
    [localStorage] next to [userId], the notifications raised so far and
    the interval timers. *)
Record Client : Type := mkClient {
  page : Page;
  token : option string;
  watchedThreads : option (list (Z * Z));
  notifications : nat;
  intervalId : option nat;
  intervals : list nat;
  nextInterval : nat
}.

Definition with_page (p : Page) (c : Client) : Client :=
  mkClient p (token c) (watchedThreads c) (notifications c) (intervalId c)
           (intervals c) (nextInterval c).

Definition with_watchedThreads (w : option (list (Z * Z))) (c : Client)
  : Client :=
  mkClient (page c) (token c) w (notifications c) (intervalId c)
           (intervals c) (nextInterval c).

Definition with_notifications (n : nat) (c : Client) : Client :=
  mkClient (page c) (token c) (watchedThreads c) n (intervalId c)
           (intervals c) (nextInterval c).

(** [new Notification(...)] *)
Definition raiseNotification (c : Client) : Client :=
  with_notifications (S (notifications c)) c.

(** The error of the first request that failed, if one did. *)
Fixpoint firstFailure {A B : Type} (f : A -> Reply B) (l : list A)
  : option string :=
  match l with
  | [] => None
  | x :: r =>
      match f x with
      | Failed error => Some error
      | Replied _ => firstFailure f r
      end
  end.

(** The first [then] callback of [pollWatchedThreads] and the promise of
    its [Promise.all], the responses taken in the order of their requests:
    the thread requests leave together; each thread the user watches is
    then asked for its comments, whose number is recorded. *)
Definition gatherWatched (backend : Backend) (userId : option Z)
           (allThreads : list Z) (p : Page)
  : Promise (list (Z * Z)) * Page :=
  let p :=
    fold_left (fun q thread =>
                 emit (ApiCall (threadRequest (toString thread))) q)
              allThreads p in
  let watched :=
    filter (fun thread =>
              match getThread backend (toString thread) with
              | Replied threadData =>
                  includes (ThreadData.watchees threadData) userId
              | Failed _ => false
              end) allThreads in
  let p :=
    fold_left (fun q thread =>
                 emit (ApiCall (commentsRequest (toString thread))) q)
              watched p in
  let watchedThreadsNew :=
    fold_left (fun o thread =>
                 match getComments backend (toString thread) with
                 | Replied comments =>
                     setKey thread (Z.of_nat (List.length comments)) o
                 | Failed _ => o
                 end) watched [] in
  match firstFailure (fun thread => getThread backend (toString thread))
                     allThreads with
  | Some error => (RejectedWith error, p)
  | None =>
      match firstFailure (fun thread => getComments backend (toString thread))
                         watched with
      | Some error => (RejectedWith error, p)
      | None => (Fulfilled watchedThreadsNew, p)
      end
  end.

(** The second [then] callback of [pollWatchedThreads], on the client as
    it is when the counts are in. *)
Definition watchedSettled (watchedThreadsNew : list (Z * Z)) (c : Client)
  : Client :=
  let watchedThreadsPrevious :=
    match watchedThreads c with
    | Some o => o
    | None => []
    end in
  let c :=
    fold_left
      (fun c entry =>
         let '(thread, numComments) := entry in
         match getKey thread watchedThreadsPrevious with
         | Some previous =>
             if previous <? numComments then raiseNotification c else c
         | None => c
         end)
      watchedThreadsNew c in
  match token c with
  | Some _ => with_watchedThreads (Some watchedThreadsNew) c
  | None => c
  end.

(** [pollWatchedThreads()], all of its responses in. *)
Definition pollWatchedThreads (fuel : nat) (backend : Backend) (c : Client)
  : Client :=
  let userId := parseIntAttr (userId (page c)) in
  let '(allThreads, p) :=
    fetchAllThreads fuel (getThreads backend) 0 [] (page c) in
  match allThreads with
  | Fulfilled allThreads =>
      let '(counts, p) := gatherWatched backend userId allThreads p in
      match counts with
      | Fulfilled watchedThreadsNew =>
          watchedSettled watchedThreadsNew (with_page p c)
      | RejectedWith error => with_page (showErrorPopUp error p) c
      | Pending => with_page p c
      end
  | RejectedWith error => with_page (showErrorPopUp error p) c
  | Pending => with_page p c
  end.

(** [startPolling()]: [setInterval] hands out a timer id never used
    before. *)
Definition startPolling (fuel : nat) (backend : Backend) (c : Client)
  : Client :=
  let c := pollWatchedThreads fuel backend c in
  mkClient (page c) (token c) (watchedThreads c) (notifications c)
           (Some (nextInterval c)) (nextInterval c :: intervals c)
           (S (nextInterval c)).

(** [stopPolling()] *)
Definition stopPolling (c : Client) : Client :=
  match intervalId c with
  | Some id =>
      mkClient (page c) (token c) (watchedThreads c) (notifications c)
               None (filter (fun i => negb (Nat.eqb i id)) (intervals c))
               (nextInterval c)
  | None => c
  end.

(** What happens to the timers: the two functions are called, and a
    running interval fires. *)
Inductive PollAction : Type :=
| StartPolling
| StopPolling
| IntervalFires.

Definition pollStep (fuel : nat) (backend : Backend) (c : Client)
           (a : PollAction) : Client :=
  match a with
  | StartPolling => startPolling fuel backend c
  | StopPolling => stopPolling c
  | IntervalFires =>
      match intervals c with
      | [] => c
      | _ :: _ => pollWatchedThreads fuel backend c
      end
  end.

(** The timer ids in use are below the next one to hand out. *)
Definition timersFresh (c : Client) : Prop :=
  (forall i, In i (intervals c) -> (i < nextInterval c)%nat)
  /\ (forall i, intervalId c = Some i -> (i < nextInterval c)%nat).

(** The keys of an object are in strictly ascending order. *)
Definition ascending (o : list (Z * Z)) : Prop :=
  StronglySorted (fun a b => fst a < fst b) o.

(** The object stored under [watchedThreads], empty when there is none. *)
Definition stored (c : Client) : list (Z * Z) :=
  match watchedThreads c with
  | Some o => o
  | None => []
  end.

(** The entry of a thread whose count is above the one in [previous]. *)
Definition grew (previous : list (Z * Z)) (entry : Z * Z) : bool :=
  match getKey (fst entry) previous with
  | Some old => old <? snd entry
  | None => false
  end.

(** A backend with the threads 11 and 12, of which user 7, an
    administrator, watches the first, thread 11 having the comments
    [cs]. *)
Definition sampleBackend (cs : list Comment) : Backend :=
  mkBackend
    (paging [11; 12])
    (fun id =>
       if String.eqb id "11"
       then Replied (ThreadData.mk "eleven" "" [] [7] false true 7
                                   "2024-01-01T00:00:00.000Z")
       else if String.eqb id "12"
            then Replied (ThreadData.mk "twelve" "" [7] [] false true 6 "")
            else Failed "no such thread")
    (fun userId =>
       if String.eqb userId "7"
       then Replied (UserData.mk "gil" "gil@example.com" true None)
       else Failed "no such user")
    (fun threadId =>
       if String.eqb threadId "11" then Replied cs
       else Failed "no such thread").

(** User 7 logged in, on the sample thread, nothing stored yet. *)
Definition sampleClient : Client :=
  mkClient samplePage (Some "token") None 0 None [] 1.

(** ** The thread on display and the list of threads *)

(** An item of [UI.threadsList], as [appendThreadCell] builds it and
    [changeCell] fills it. *)
Record Cell : Type := mkCell {
  cell_data_thread_id : option string;
  cell_data_user_id : option string;
  threads_list_title : string;
  threads_list_author : string;
  threads_list_post_date : string;
  likes_count : string;
  threads_list_heart_icon : string
}.

(** [PUT thread/like] and [PUT thread/watch] with the body
    [{"id": id, "turnon": turnon}]; an id that is [NaN] goes out as
    [null]. *)
Record Toggle : Type := mkToggle {
  toggle_path : string;
  toggle_id : option Z;
  toggle_turnon : bool
}.

(** The dashboard around the comment list: the page of the comments (with
    the lock attribute, the error popup and the trace), the list of
    threads, the texts and the attribute [data-thread-id] of
    [UI.threadText], the two module variables with their icons, the
    [display] of the edit and delete buttons, and the toggles sent. *)
Module Board.
Record t : Type := mk {
  page : Page;
  threadsListItems : list Cell;
  data_threads_count : option string;
  data_thread_id : option string;
  h2 : string;
  p : string;
  thread_likes : string;
  thread_lock_icon : string;
  thread_locked : string;
  isHeartButtonClicked : bool;
  heart_fill : string;
  isWatchButtonClicked : bool;
  watch_stroke_width : string;
  editButton : string;
  deleteButton : string;
  toggles : list Toggle
}.

Definition onPage (f : Page -> Page) (d : t) : t :=
  mk (f (page d)) (threadsListItems d) (data_threads_count d)
     (data_thread_id d) (h2 d) (p d) (thread_likes d) (thread_lock_icon d)
     (thread_locked d) (isHeartButtonClicked d) (heart_fill d)
     (isWatchButtonClicked d) (watch_stroke_width d) (editButton d)
     (deleteButton d) (toggles d).

Definition with_threadsListItems (l : list Cell) (d : t) : t :=
  mk (page d) l (data_threads_count d)
     (data_thread_id d) (h2 d) (p d) (thread_likes d) (thread_lock_icon d)
     (thread_locked d) (isHeartButtonClicked d) (heart_fill d)
     (isWatchButtonClicked d) (watch_stroke_width d) (editButton d)
     (deleteButton d) (toggles d).

Definition with_data_threads_count (v : option string) (d : t) : t :=
  mk (page d) (threadsListItems d) v
     (data_thread_id d) (h2 d) (p d) (thread_likes d) (thread_lock_icon d)
     (thread_locked d) (isHeartButtonClicked d) (heart_fill d)
     (isWatchButtonClicked d) (watch_stroke_width d) (editButton d)
     (deleteButton d) (toggles d).

(** The texts and the attribute of [UI.threadText]. *)
Definition with_threadText (id : option string)
           (title content likes icon locked : string) (d : t) : t :=
  mk (page d) (threadsListItems d) (data_threads_count d)
     id title content likes icon locked (isHeartButtonClicked d)
     (heart_fill d) (isWatchButtonClicked d) (watch_stroke_width d)
     (editButton d) (deleteButton d) (toggles d).

Definition with_thread_likes (likes : string) (d : t) : t :=
  with_threadText (data_thread_id d) (h2 d) (p d) likes (thread_lock_icon d)
                  (thread_locked d) d.

Definition with_heart (clicked : bool) (fill : string) (d : t) : t :=
  mk (page d) (threadsListItems d) (data_threads_count d)
     (data_thread_id d) (h2 d) (p d) (thread_likes d) (thread_lock_icon d)
     (thread_locked d) clicked fill
     (isWatchButtonClicked d) (watch_stroke_width d) (editButton d)
     (deleteButton d) (toggles d).

Definition with_watch (clicked : bool) (width : string) (d : t) : t :=
  mk (page d) (threadsListItems d) (data_threads_count d)
     (data_thread_id d) (h2 d) (p d) (thread_likes d) (thread_lock_icon d)
     (thread_locked d) (isHeartButtonClicked d) (heart_fill d)
     clicked width (editButton d) (deleteButton d) (toggles d).

Definition with_buttons (edit delete : string) (d : t) : t :=
  mk (page d) (threadsListItems d) (data_threads_count d)
     (data_thread_id d) (h2 d) (p d) (thread_likes d) (thread_lock_icon d)
     (thread_locked d) (isHeartButtonClicked d) (heart_fill d)
     (isWatchButtonClicked d) (watch_stroke_width d) edit delete (toggles d).

Definition send (r : Toggle) (d : t) : t :=
  mk (page d) (threadsListItems d) (data_threads_count d)
     (data_thread_id d) (h2 d) (p d) (thread_likes d) (thread_lock_icon d)
     (thread_locked d) (isHeartButtonClicked d) (heart_fill d)
     (isWatchButtonClicked d) (watch_stroke_width d) (editButton d)
     (deleteButton d) (toggles d ++ [r]).
End Board.

(** [likeLikeButton], [unlikeLikeButton], [watchWatchButton] and
    [unwatchWatchButton] *)
Definition likeLikeButton (d : Board.t) : Board.t :=
  Board.with_heart true "red" d.

Definition unlikeLikeButton (d : Board.t) : Board.t :=
  Board.with_heart false "none" d.

Definition watchWatchButton (d : Board.t) : Board.t :=
  Board.with_watch true "0" d.

Definition unwatchWatchButton (d : Board.t) : Board.t :=
  Board.with_watch false "2" d.

(** [parseInt(text, 10) + x] written back as text. *)
Definition addToText (x : Z) (text : string) : string :=
  String_ (ofParse (option_map (fun likesCount => likesCount + x)
                               (parseInt text))).

(** [changeLikesThreadList(x, threadId)] *)
Definition changeLikesThreadList (x : Z) (threadId : option Z) (d : Board.t)
  : Board.t :=
  Board.with_threadsListItems
    (map (fun thread =>
            if attrIs (cell_data_thread_id thread) (String_ (ofParse threadId))
            then mkCell (cell_data_thread_id thread) (cell_data_user_id thread)
                        (threads_list_title thread)
                        (threads_list_author thread)
                        (threads_list_post_date thread)
                        (addToText x (likes_count thread))
                        (threads_list_heart_icon thread)
            else thread)
         (Board.threadsListItems d)) d.

(** [changeLikesThread(x)] *)
Definition changeLikesThread (x : Z) (d : Board.t) : Board.t :=
  Board.with_thread_likes (addToText x (Board.thread_likes d)) d.

(** The click listener of [UI.heartButton]. *)
Definition onHeartButtonClick (d : Board.t) : Board.t :=
  if attrIs (data_is_locked (Board.page d)) "true" then
    Board.onPage (showErrorPopUp "thread is locked") d
  else
    let threadId := parseIntAttr (Board.data_thread_id d) in
    let body := mkToggle "thread/like" threadId
                         (negb (Board.isHeartButtonClicked d)) in
    let d := Board.with_heart (negb (Board.isHeartButtonClicked d))
                              (Board.heart_fill d) d in
    let d :=
      if Board.isHeartButtonClicked d then
        let d := Board.with_heart (Board.isHeartButtonClicked d) "red" d in
        let d := changeLikesThreadList 1 threadId d in
        changeLikesThread 1 d
      else
        let d := Board.with_heart (Board.isHeartButtonClicked d) "none" d in
        let d := changeLikesThreadList (-1) threadId d in
        changeLikesThread (-1) d in
    Board.send body d.

(** The click listener of [UI.watchButton]. *)
Definition onWatchButtonClick (d : Board.t) : Board.t :=
  let threadId := parseIntAttr (Board.data_thread_id d) in
  let body := mkToggle "thread/watch" threadId
                       (negb (Board.isWatchButtonClicked d)) in
  let d := Board.with_watch (negb (Board.isWatchButtonClicked d))
                            (Board.watch_stroke_width d) d in
  let d :=
    if Board.isWatchButtonClicked d
    then Board.with_watch (Board.isWatchButtonClicked d) "0" d
    else Board.with_watch (Board.isWatchButtonClicked d) "2" d in
  Board.send body d.

(** [canUserChangeThread(threadId, creatorId, userId)]: the promise, and
    the page once the user is in. *)
Definition canUserChangeThread (backend : Backend) (creatorId : Z)
           (userId : option Z) (p : Page) : Promise bool * Page :=
  let isCreator := match userId with
                   | Some u => creatorId =? u
                   | None => false
                   end in
  let p := emit (ApiCall (userRequest (String_ (ofParse userId)))) p in
  match getUser backend (String_ (ofParse userId)) with
  | Replied userData =>
      let isAdmin := UserData.admin userData in
      (Fulfilled (if isCreator || isAdmin then true else false), p)
  | Failed error => (RejectedWith error, showErrorPopUp error p)
  end.

(** [displayThread(threadId)] with the responses about the thread in and
    the comments still under way: the request for the thread leaves,
    [displayComments] empties the list and sends its own, and then the
    callbacks of the thread run.  The closed and the open padlock are
    written as the character references [&#128274;] and [&#128275;]. *)
Definition displayThread (backend : Backend) (threadId : string)
           (d : Board.t) : Board.t :=
  let d := Board.onPage (emit (ApiCall (threadRequest threadId))) d in
  let d := Board.onPage (requestComments threadId) d in
  match getThread backend threadId with
  | Replied data =>
      let d :=
        Board.with_threadText
          (Some threadId) (ThreadData.title data) (ThreadData.content data)
          (toString (Z.of_nat (List.length (ThreadData.likes data))))
          (if ThreadData.lock data then "&#128274;" else "&#128275;")
          (if ThreadData.lock data then "LOCKED" else "UNLOCKED") d in
      let d :=
        Board.onPage
          (with_data_is_locked
             (Some (if ThreadData.lock data then "true" else "false"))) d in
      let userId := parseIntAttr (userId (Board.page d)) in
      let hasUserLiked := includes (ThreadData.likes data) userId in
      let hasUserWatched := includes (ThreadData.watchees data) userId in
      let d := if hasUserLiked then likeLikeButton d
               else unlikeLikeButton d in
      let d := if hasUserWatched then watchWatchButton d
               else unwatchWatchButton d in
      let '(canChange, q) :=
        canUserChangeThread backend (ThreadData.creatorId data) userId
                            (Board.page d) in
      let d := Board.onPage (fun _ => q) d in
      match canChange with
      | Fulfilled canChange =>
          if canChange && attrIs (data_is_locked (Board.page d)) "false"
          then Board.with_buttons "block" "block" d
          else if canChange && attrIs (data_is_locked (Board.page d)) "true"
          then Board.with_buttons "none" "block" d
          else Board.with_buttons "none" "none" d
      | RejectedWith error => Board.onPage (showErrorPopUp error) d
      | Pending => d
      end
  | Failed error => Board.onPage (showErrorPopUp error) d
  end.

(** The cell of a thread list shows the thread whose id is [threadId]. *)
Definition showsThread (threadId : option Z) (thread : Cell) : bool :=
  attrIs (cell_data_thread_id thread) (String_ (ofParse threadId)).

(** A dashboard that lists the threads 11 and 12 of [sampleBackend], and
    the same dashboard once thread 12, which user 7 likes, is on display. *)
Definition listedBoard : Board.t :=
  Board.mk samplePage
           [mkCell (Some "11") (Some "5") "eleven" "ann" "01/01/24" "0" "";
            mkCell (Some "12") (Some "6") "twelve" "bob" "02/01/24" "1" ""]
           (Some "2") None "" "" "" "" "" false "none" false "2"
           "none" "none" [].

Definition sampleBoard : Board.t :=
  displayThread (sampleBackend sampleComments) "12" listedBoard.

(** The user of the page as a number, [NaN] being [None]. *)
Definition currentUser (d : Board.t) : option Z :=
  parseIntAttr (userId (Board.page d)).

(** The creator of the thread or an administrator. *)
Definition mayChange (data : ThreadData.t) (userId : option Z)
           (user : UserData.t) : bool :=
  match userId with
  | Some u => ThreadData.creatorId data =? u
  | None => false
  end || UserData.admin user.

(** ** The list of threads *)

(** [appendThreadCell()] *)
Definition appendThreadCell (d : Board.t) : Board.t :=
  Board.with_threadsListItems
    (Board.threadsListItems d ++ [mkCell (Some "") None "" "" "" "" ""]) d.

(** [l[i] = x] on the items of the list. *)
Fixpoint setNth {A : Type} (i : nat) (x : A) (l : list A) : list A :=
  match l, i with
  | [], _ => []
  | _ :: r, O => x :: r
  | y :: r, S j => y :: setNth j x r
  end.

(** [changeCell(cell, title, date, author, authorId, likes, threadId)];
    [None] for the [TypeError] of an index that is no item of the list.
    The heart is written as the character reference [&#9829;]. *)
Definition changeCell (cell : option Z) (title date author : string)
           (authorId likes threadId : Z) (d : Board.t) : option Board.t :=
  match cell with
  | Some i =>
      if (0 <=? i) && (i <? Z.of_nat (List.length (Board.threadsListItems d)))
      then
        Some (Board.with_threadsListItems
                (setNth (Z.to_nat i)
                        (mkCell (Some (toString threadId))
                                (Some (toString authorId))
                                title author date (toString likes)
                                "&#9829; ")
                        (Board.threadsListItems d)) d)
      else None
  | None => None
  end.

(** The [then] callbacks [displayThreads] registers for the thread at
    position [i]: the creator is looked up and the cell at
    [i + threadsDisplayedCount] is filled.  A [TypeError] of [changeCell]
    reaches the [catch] callback like a failed request. *)
Definition fillCell (formatDate : string -> string) (backend : Backend)
           (threadsDisplayedCount : option Z) (i : nat) (thread : Z)
           (d : Board.t) : Board.t :=
  match getThread backend (toString thread) with
  | Replied threadData =>
      let d :=
        Board.onPage
          (emit (ApiCall
                   (userRequest (toString (ThreadData.creatorId threadData)))))
          d in
      match getUser backend (toString (ThreadData.creatorId threadData)) with
      | Replied userData =>
          let formattedDate := formatDate (ThreadData.createdAt threadData) in
          match changeCell
                  (option_map (Z.add (Z.of_nat i)) threadsDisplayedCount)
                  (ThreadData.title threadData) formattedDate
                  (UserData.name userData) (ThreadData.creatorId threadData)
                  (Z.of_nat (List.length (ThreadData.likes threadData)))
                  thread d with
          | Some d => d
          | None => Board.onPage (showErrorPopUp "TypeError") d
          end
      | Failed error => Board.onPage (showErrorPopUp error) d
      end
  | Failed error => Board.onPage (showErrorPopUp error) d
  end.

(** [l.forEach] with its index, on the dashboard. *)
Fixpoint forEachIndexed {A : Type} (f : nat -> A -> Board.t -> Board.t)
         (i : nat) (l : list A) (d : Board.t) : Board.t :=
  match l with
  | [] => d
  | x :: r => forEachIndexed f (S i) r (f i x d)
  end.

(** [displayThreads(threads)], the responses taken thread by thread in the
    order of the list.  [formatDate] is
    [new Date(createdAt).toLocaleDateString('en-GB', ...)]. *)
Definition displayThreads (formatDate : string -> string) (backend : Backend)
           (threads : list Z) (d : Board.t) : Board.t :=
  let threadsDisplayedCount := parseIntAttr (Board.data_threads_count d) in
  (* add the amount of cells that is in threads *)
  let d := fold_left (fun d _ => appendThreadCell d) threads d in
  let d :=
    fold_left (fun d thread =>
                 Board.onPage
                   (emit (ApiCall (threadRequest (toString thread)))) d)
              threads d in
  forEachIndexed (fillCell formatDate backend threadsDisplayedCount)
                 0 threads d.

(** [loadMoreThreadsIfNeeded()], [clientHeight] being the height of the
    list; [None] when the fuel does not suffice. *)
Fixpoint loadMoreThreadsIfNeeded (fuel : nat) (clientHeight : Z)
         (formatDate : string -> string) (backend : Backend) (d : Board.t)
  : option Board.t :=
  match fuel with
  | O => None
  | S fuel' =>
      let threadsListHeight := clientHeight in
      let threadsDisplayedCount :=
        parseIntAttr (Board.data_threads_count d) in
      let totalThreadsHeight :=
        option_map (fun n => n * 75) threadsDisplayedCount in
      if lt totalThreadsHeight (Some (threadsListHeight + 5)) then
        let start := String_ (ofParse threadsDisplayedCount) in
        let d := Board.onPage (emit (ApiCall (threadsRequest start))) d in
        match getThreads backend start with
        | Replied threads =>
            let d := displayThreads formatDate backend threads d in
            let d :=
              Board.with_data_threads_count
                (Some (String_
                         (ofParse
                            (option_map
                               (fun n => n + Z.of_nat (List.length threads))
                               threadsDisplayedCount)))) d in
            if (List.length threads =? 5)%nat
            then loadMoreThreadsIfNeeded fuel' clientHeight formatDate
                                         backend d
            else Some d
        | Failed error => Some (Board.onPage (showErrorPopUp error) d)
        end
      else Some d
  end.

(** The number of cells is the number the attribute holds. *)
Definition counted_cells (d : Board.t) : Prop :=
  Board.data_threads_count d
  = Some (toString (Z.of_nat (List.length (Board.threadsListItems d)))).

(** The cell [displayThreads] makes of a thread: filled when the thread
    and its creator are found, as appended when not. *)
Definition cellOf (formatDate : string -> string) (backend : Backend)
           (thread : Z) : Cell :=
  match getThread backend (toString thread) with
  | Replied threadData =>
      match getUser backend (toString (ThreadData.creatorId threadData)) with
      | Replied userData =>
          mkCell (Some (toString thread))
                 (Some (toString (ThreadData.creatorId threadData)))
                 (ThreadData.title threadData) (UserData.name userData)
                 (formatDate (ThreadData.createdAt threadData))
                 (toString (Z.of_nat (List.length (ThreadData.likes threadData))))
                 "&#9829; "
      | Failed _ => mkCell (Some "") None "" "" "" "" ""
      end
  | Failed _ => mkCell (Some "") None "" "" "" "" ""
  end.

(** The dashboard before any thread is listed. *)
Definition emptyBoard : Board.t :=
  Board.mk samplePage [] (Some "0") None "" "" "" "" "" false "none" false "2"
           "none" "none" [].

(** ** The threads of a user on the profile screen *)

(** A box of [UI.userProfileThreadsList]: the title, the content, the
    number of likes and the text next to the comment icon. *)
Record ThreadBox : Type := mkThreadBox {
  box_title : string;
  box_content : string;
  box_likes : string;
  box_comments : string
}.

(** The profile screen as far as the threads of the user go. *)
Module Profile.
Record t : Type := mk {
  page : Page;
  userProfileThreadsList : list ThreadBox
}.

Definition onPage (f : Page -> Page) (s : t) : t :=
  mk (f (page s)) (userProfileThreadsList s).
End Profile.








(** ** The requests of a render *)

(** The request for the author of a comment box, as [displayCommentDOM]
    sends it. *)
Definition authorCall (e : Element) : Event :=
  ApiCall (mkRequest "user" "GET" NoBody
                     (option_map (fun u => "userId=" ^^ u) (data_user_id e))).

(** Since the events [base], one author has been asked for per child of
    the container, in the order of the children. *)
Definition asked (base : list Event) (p : Page) : Prop :=
  allocated p /\ trace p = base ++ map authorCall (domView p).

(** ** Scrolling the list of threads *)

(** What the scroll listener reads of [UI.threadsList]; [scrollTop] may be
    a fraction. *)
Module Scroll.
Record t : Type := mk {
  scrollTop : QArith_base.Q;
  scrollHeight : Z;
  clientHeight : Z
}.
End Scroll.

Definition scrolledToBottom (ev : Scroll.t) : bool :=
  let hasScrollableContent :=
    Scroll.clientHeight ev <? Scroll.scrollHeight ev in
  hasScrollableContent
  && (Scroll.scrollHeight ev
      <=? Qround.Qceiling
            (QArith_base.Qplus (Scroll.scrollTop ev)
                               (QArith_base.inject_Z (Scroll.clientHeight ev)))).

(** The scroll listener of [UI.threadsList] up to its request: the count
    it has read, when it asks for a page. *)
Definition onThreadsListScroll (ev : Scroll.t) (d : Board.t)
  : option (option Z) * Board.t :=
  if scrolledToBottom ev then
    let threadsDisplayedCount :=
      parseIntAttr (Board.data_threads_count d) in
    (Some threadsDisplayedCount,
     Board.onPage
       (emit (ApiCall (threadsRequest
                         (String_ (ofParse threadsDisplayedCount))))) d)
  else (None, d).

(** The callbacks of that request, on the dashboard as it is when the page
    arrives; [threadsDisplayedCount] is the count the listener has read. *)
Definition threadsLoaded (formatDate : string -> string) (backend : Backend)
           (threadsDisplayedCount : option Z) (reply : Reply (list Z))
           (d : Board.t) : Board.t :=
  match reply with
  | Replied threads =>
      let d := displayThreads formatDate backend threads d in
      Board.with_data_threads_count
        (Some (String_
                 (ofParse
                    (option_map (fun n => n + Z.of_nat (List.length threads))
                                threadsDisplayedCount)))) d
  | Failed error => Board.onPage (showErrorPopUp error) d
  end.

(** A scroll event whose page arrives before anything else happens. *)
Definition scrollAndLoad (formatDate : string -> string) (backend : Backend)
           (ev : Scroll.t) (d : Board.t) : Board.t :=
  match onThreadsListScroll ev d with
  | (Some threadsDisplayedCount, d) =>
      threadsLoaded formatDate backend threadsDisplayedCount
                    (getThreads backend
                                (String_ (ofParse threadsDisplayedCount))) d
  | (None, d) => d
  end.

(** What extends the list of threads: a scroll event, or a run of
    [loadMoreThreadsIfNeeded] on a list of some height. *)
Inductive ListAction : Type :=
| ScrollTo (ev : Scroll.t)
| FillHeight (fuel : nat) (clientHeight : Z).

Definition listStep (formatDate : string -> string) (backend : Backend)
           (a : ListAction) (d : Board.t) : option Board.t :=
  match a with
  | ScrollTo ev => Some (scrollAndLoad formatDate backend ev d)
  | FillHeight fuel clientHeight =>
      loadMoreThreadsIfNeeded fuel clientHeight formatDate backend d
  end.

Fixpoint listRun (formatDate : string -> string) (backend : Backend)
         (actions : list ListAction) (d : Board.t) : option Board.t :=
  match actions with
  | [] => Some d
  | a :: rest =>
      match listStep formatDate backend a d with
      | Some d => listRun formatDate backend rest d
      | None => None
      end
  end.

(** The list shows the first threads of [all], as many as the attribute
    says. *)
Definition listed (formatDate : string -> string) (backend : Backend)
           (all : list Z) (d : Board.t) : Prop :=
  counted_cells d
  /\ Board.threadsListItems d
     = map (cellOf formatDate backend)
           (firstn (List.length (Board.threadsListItems d)) all).

(** A list 100 pixels high scrolled to the end of its 150 pixels. *)
Definition atBottom : Scroll.t :=
  Scroll.mk (QArith_base.Qmake 99 2) 150 100.

(** ** A thread after a delete *)



(** ** The shape of a rendered list *)

(** [l] up to its first element that fails [f]. *)
Fixpoint takeWhile {A : Type} (f : A -> bool) (l : list A) : list A :=
  match l with
  | [] => []
  | x :: r => if f x then x :: takeWhile f r else []
  end.

(** The left margin of a box in pixels, read as [deleteChildrenComments]
    reads it. *)
Definition marginOf (e : Element) : option Z :=
  parseInt (slice_0_m2 (style_marginLeft e)).

(** The margin of the box is larger than [m]; it is [m]. *)
Definition deeper (m : Z) (e : Element) : bool := lt (Some m) (marginOf e).

Definition atMargin (m : Z) (e : Element) : bool :=
  match marginOf e with
  | Some x => x =? m
  | None => false
  end.

(** Among the boxes that follow a box of margin [m], the boxes below it:
    the run of boxes with a larger margin. *)
Definition boxesBelow (m : Z) (following : list Element) : list Element :=
  takeWhile (deeper m) following.

(** Its direct children: the boxes of that run that are one level, 10
    pixels, further in. *)
Definition childBoxes (m : Z) (following : list Element) : list Element :=
  filter (atMargin (m + 10)) (boxesBelow m following).

(** The boxes at top level. *)
Definition topBoxes (l : list Element) : list Element :=
  filter (atMargin 0) l.

(** What follows does not go on below a box of margin [m]. *)
Definition stopsAt (m : Z) (after : list Element) : Prop :=
  match after with
  | [] => True
  | a :: _ => deeper m a = false
  end.

(** The box [e] is the box of a comment of the list, and the direct
    children among the boxes that follow it are the boxes of the children
    of that comment, in the order of the list. *)
Definition parentOfItsChildren (uid : option string) (now : Z)
           (cs : list Comment) (e : Element) (following : list Element)
  : Prop :=
  exists c L,
    In c cs
    /\ e = boxOf uid now c (parentValue c) L
    /\ childBoxes (L * 10) following
       = map (fun k => boxOf uid now k (Num (id c)) (L + 1))
             (filter (isChildOf c) cs).

(** * Properties *)

(** Unfolding of the field updates down to the record. *)
Ltac page_simpl :=
  unfold emit, update, showErrorPopUp, with_nodes, with_fresh,
    with_threadComments, with_threadCommentInput, with_threadMainReply,
    with_data_is_locked, with_errorPopUp, with_trace in *;
  cbn [nodes fresh threadComments replyBox threadCommentInput threadMainReply
       data_is_locked errorPopUp userId trace] in *.

(** ** Numbers and strings *)

Section JsFacts.

Lemma digits_string_of_uint (d : Decimal.uint) :
  digits (NilEmpty.string_of_uint d) = d.
Proof. induction d; simpl; congruence. Qed.

Lemma parseInt_string_of_uint (d : Decimal.uint) :
  d <> Decimal.Nil ->
  parseInt (NilEmpty.string_of_uint d) = Some (Z.of_uint d).
Proof.
  intros Hd.
  destruct d; try congruence;
    unfold parseInt; simpl; unfold digitsValue; simpl;
    rewrite digits_string_of_uint; reflexivity.
Qed.

Lemma digitsValue_string_of_uint (d : Decimal.uint) :
  d <> Decimal.Nil ->
  digitsValue (NilEmpty.string_of_uint d) = Some (Z.of_uint d).
Proof.
  intros Hd. unfold digitsValue. rewrite digits_string_of_uint.
  destruct d; congruence.
Qed.

Lemma string_of_uint_nonnil (d : Decimal.uint) :
  d <> Decimal.Nil ->
  NilZero.string_of_uint d = NilEmpty.string_of_uint d.
Proof. destruct d; intros H; [congruence | reflexivity ..]. Qed.

(** [parseInt(String(n), 10) === n] *)
Lemma parseInt_toString (n : Z) : parseInt (toString n) = Some n.
Proof.
  pose proof (DecimalZ.of_to n) as Hn.
  destruct n as [|q|q]; [reflexivity| |];
    pose proof (DecimalPos.Unsigned.to_uint_nonnil q) as Hq;
    unfold toString; simpl in *;
    rewrite string_of_uint_nonnil by assumption.
  - rewrite parseInt_string_of_uint by assumption. congruence.
  - unfold parseInt. simpl.
    rewrite digitsValue_string_of_uint by assumption.
    simpl. congruence.
Qed.

Lemma toString_inj (a b : Z) : toString a = toString b -> a = b.
Proof.
  intros H. apply (f_equal parseInt) in H.
  rewrite !parseInt_toString in H. congruence.
Qed.

Lemma toString_not_null (a : Z) : toString a <> "null".
Proof.
  intros H. apply (f_equal parseInt) in H.
  rewrite parseInt_toString in H. discriminate.
Qed.

Lemma length_append (s t : string) :
  String.length (s ^^ t) = (String.length s + String.length t)%nat.
Proof. induction s; simpl; congruence. Qed.

Lemma substring_append (s t : string) :
  substring 0 (String.length s) (s ^^ t) = s.
Proof. induction s; simpl; [destruct t; reflexivity | congruence]. Qed.

(** Dropping the unit of a pixel length. *)
Lemma slice_px (s : string) : slice_0_m2 (s ^^ "px") = s.
Proof.
  unfold slice_0_m2. rewrite length_append. simpl.
  replace (String.length s + 2 - 2)%nat with (String.length s) by lia.
  apply substring_append.
Qed.

(** The margin written by [displayCommentDOM] reads back as a number. *)
Lemma parseInt_slice_px (n : Z) :
  parseInt (slice_0_m2 (px (Some n))) = Some n.
Proof. unfold px. rewrite slice_px. apply parseInt_toString. Qed.

Lemma attrIs_true (a : option string) (v : string) :
  attrIs a v = true <-> a = Some v.
Proof.
  destruct a as [s|]; simpl; [rewrite String.eqb_eq|]; split; congruence.
Qed.

End JsFacts.

(** ** Relative age *)

Lemma append_assoc (a b c : string) : (a ^^ b) ^^ c = a ^^ b ^^ c.
Proof. induction a; simpl; congruence. Qed.




(** ** Children lists *)

Section DomFacts.

Lemma remove_notin (r : nat) (l : list nat) :
  ~ In r l -> Dom.remove r l = l.
Proof.
  induction l as [|x l IH]; simpl; intros H; [reflexivity|].
  destruct (Nat.eqb_spec x r); simpl; [tauto|].
  f_equal. tauto.
Qed.

Lemma remove_app (r : nat) (a b : list nat) :
  Dom.remove r (a ++ b) = Dom.remove r a ++ Dom.remove r b.
Proof. apply filter_app. Qed.

Lemma remove_head (r : nat) (l : list nat) :
  Dom.remove r (r :: l) = Dom.remove r l.
Proof. unfold Dom.remove. simpl. rewrite Nat.eqb_refl. reflexivity. Qed.

Lemma remove_In (r x : nat) (l : list nat) :
  In x (Dom.remove r l) <-> In x l /\ x <> r.
Proof.
  unfold Dom.remove. rewrite filter_In, negb_true_iff, Nat.eqb_neq. tauto.
Qed.

Lemma remove_NoDup (r : nat) (l : list nat) :
  NoDup l -> NoDup (Dom.remove r l).
Proof. apply NoDup_filter. Qed.

Lemma remove_length_le (r : nat) (l : list nat) :
  (List.length (Dom.remove r l) <= List.length l)%nat.
Proof. apply filter_length_le. Qed.

Lemma remove_length_lt (r : nat) (l : list nat) :
  In r l -> (List.length (Dom.remove r l) < List.length l)%nat.
Proof.
  induction l as [|x l IH]; simpl; [tauto|].
  intros [->|H].
  - rewrite Nat.eqb_refl. simpl.
    pose proof (remove_length_le r l). lia.
  - specialize (IH H). destruct (Nat.eqb x r); simpl; lia.
Qed.

Lemma remove_middle (x : nat) (a b : list nat) :
  ~ In x (a ++ b) -> Dom.remove x (a ++ x :: b) = a ++ b.
Proof.
  intros H. rewrite remove_app, remove_head, <- remove_app.
  apply remove_notin. exact H.
Qed.

Lemma nextSibling_split (r : nat) (pre t : list nat) :
  ~ In r pre -> Dom.nextSibling r (pre ++ r :: t) = hd_error t.
Proof.
  induction pre as [|x pre IH]; simpl; intros H.
  - rewrite Nat.eqb_refl. reflexivity.
  - destruct (Nat.eqb_spec x r); [tauto|]. apply IH. tauto.
Qed.

Lemma nextSibling_In (r x : nat) (l : list nat) :
  Dom.nextSibling r l = Some x -> In x l.
Proof.
  induction l as [|y l IH]; simpl; [discriminate|].
  destruct (Nat.eqb y r).
  - destruct l; simpl; [discriminate|]. intros [= ->]. auto.
  - auto.
Qed.

Lemma nextSibling_None_last (r : nat) (pre : list nat) :
  ~ In r pre -> Dom.nextSibling r (pre ++ [r]) = None.
Proof. intros H. rewrite nextSibling_split by assumption. reflexivity. Qed.

End DomFacts.

(** ** Cascading delete *)

Lemma deleteLoop_returns (fuel comment : nat) (indent : option Z) :
  forall p, (List.length (threadComments p) <= S fuel)%nat ->
            exists q, deleteLoop fuel comment indent p = Done q.
Proof.
  induction fuel as [|fuel IH]; intros p Hlen; simpl.
  - destruct (Dom.nextSibling comment (threadComments p)) as [x|] eqn:E;
      [|eauto].
    destruct (threadComments p) as [|a [|b l]]; simpl in *; try discriminate;
      [|lia].
    destruct (Nat.eqb a comment); discriminate.
  - destruct (Dom.nextSibling comment (threadComments p)) as [x|] eqn:E;
      [|eauto].
    destruct (lt indent (indentOf p x)); [|eauto].
    apply IH. simpl.
    pose proof (remove_length_lt x _ (nextSibling_In _ _ _ E)). lia.
Qed.

(** The walk on a container split around the comment: the run of deeper
    siblings goes, what follows it stays. *)
Lemma deleteLoop_run (comment : nat) (indent : option Z) (pre rest : list nat) :
  forall (run : list nat) (fuel : nat) (p : Page),
    threadComments p = pre ++ comment :: run ++ rest ->
    NoDup (threadComments p) ->
    (List.length run < fuel)%nat ->
    (forall r, In r run -> lt indent (indentOf p r) = true) ->
    match rest with
    | [] => True
    | r :: _ => lt indent (indentOf p r) = false
    end ->
    deleteLoop fuel comment indent p =
    Done (with_trace (trace p ++ removals p run)
                     (with_threadComments (pre ++ comment :: rest) p)).
Proof.
  induction run as [|x run IH]; intros fuel p Hc Hnd Hfuel Hrun Hrest.
  - simpl in Hc. destruct fuel as [|fuel]; [lia|]. cbn [deleteLoop].
    assert (Hpre : ~ In comment pre).
    { rewrite Hc in Hnd. apply NoDup_remove_2 in Hnd.
      rewrite in_app_iff in Hnd. tauto. }
    rewrite Hc, nextSibling_split by assumption.
    unfold removals. cbn [flat_map]. rewrite app_nil_r.
    destruct rest as [|r rest]; cbn [hd_error].
    + destruct p; simpl in *; subst; reflexivity.
    + rewrite Hrest. destruct p; simpl in *; subst; reflexivity.
  - destruct fuel as [|fuel]; [simpl in Hfuel; lia|].
    assert (Hpre : ~ In comment pre).
    { rewrite Hc in Hnd. apply NoDup_remove_2 in Hnd.
      rewrite in_app_iff in Hnd. tauto. }
    cbn [deleteLoop].
    rewrite Hc at 1. rewrite nextSibling_split by assumption. cbn [hd_error app].
    rewrite (Hrun x) by (left; reflexivity).
    assert (Hnd' : NoDup ((pre ++ [comment]) ++ x :: run ++ rest)).
    { rewrite <- app_assoc. rewrite Hc in Hnd. exact Hnd. }
    assert (Hx : Dom.remove x (threadComments p) = pre ++ comment :: run ++ rest).
    { rewrite Hc.
      replace (pre ++ comment :: (x :: run) ++ rest)
        with ((pre ++ [comment]) ++ x :: run ++ rest)
        by (rewrite <- app_assoc; reflexivity).
      rewrite remove_middle; [rewrite <- app_assoc; reflexivity|].
      apply NoDup_remove_2 in Hnd'. exact Hnd'. }
    rewrite IH.
    + simpl. rewrite Hx. unfold removals. simpl.
      destruct p; simpl in *. rewrite <- !app_assoc. reflexivity.
    + simpl. exact Hx.
    + simpl. rewrite Hx. apply NoDup_remove_1 in Hnd'.
      rewrite <- app_assoc in Hnd'. exact Hnd'.
    + simpl in Hfuel. lia.
    + intros r Hr. apply (Hrun r). right. exact Hr.
    + exact Hrest.
Qed.

(** The first step of [deleteChildrenComments] on a container split around
    the comment. *)
Lemma removeWithChildren_run (p : Page) (comment : nat)
      (pre run rest : list nat) :
  threadComments p = pre ++ comment :: run ++ rest ->
  NoDup (threadComments p) ->
  (forall r, In r run -> lt (indentOf p comment) (indentOf p r) = true) ->
  match rest with
  | [] => True
  | r :: _ => lt (indentOf p comment) (indentOf p r) = false
  end ->
  removeWithChildren comment p =
  Done (with_trace (trace p ++ removals p run
                          ++ [DomRemove comment;
                              ApiCall (deleteRequest p comment)])
                   (with_threadComments (pre ++ rest) p)).
Proof.
  intros Hc Hnd Hrun Hrest. unfold removeWithChildren.
  rewrite (deleteLoop_run comment _ pre rest run) by
      (try assumption; rewrite Hc, length_app; simpl; rewrite length_app; lia).
  cbn [bind].
  assert (Hrm : Dom.remove comment (pre ++ comment :: rest) = pre ++ rest).
  { apply remove_middle. rewrite Hc in Hnd.
    apply NoDup_remove_2 in Hnd. rewrite !in_app_iff in *. tauto. }
  unfold deleteRequest, removals. page_simpl.
  rewrite Hrm, <- !app_assoc. reflexivity.
Qed.

Lemma removeWithChildren_returns (comment : nat) (p : Page) :
  exists q, removeWithChildren comment p = Done q.
Proof.
  unfold removeWithChildren.
  destruct (deleteLoop_returns (List.length (threadComments p)) comment
                               (indentOf p comment) p) as [q Hq]; [lia|].
  rewrite Hq. simpl. eauto.
Qed.

(** Composing at the top level: the slot is reset and moved to the front. *)
Lemma displayCommentReply_top (content : string) (editing : bool) (p : Page) :
  exists q,
    displayCommentReply Null Null content editing p = Done q
    /\ threadComments q = Dom.prepend (replyBox p) (threadComments p)
    /\ replyBox q = replyBox p
    /\ data_editing (nodes q (replyBox p)) =
       Some (if editing then "true" else "false")
    /\ data_comment_id (nodes q (replyBox p)) = Some "null"
    /\ data_parent_comment_id (nodes q (replyBox p)) = Some "null"
    /\ style_paddingLeft (nodes q (replyBox p)) = "0px"
    /\ threadCommentInput q = content
    /\ (forall r, r <> replyBox p -> nodes q r = nodes p r)
    /\ trace q = trace p
    /\ threadMainReply q = threadMainReply p
    /\ data_is_locked q = data_is_locked p
    /\ fresh q = fresh p
    /\ userId q = userId p.
Proof.
  eexists. split; [reflexivity|].
  simpl. rewrite !Nat.eqb_refl. simpl.
  repeat split; try reflexivity.
  intros r Hr. apply Nat.eqb_neq in Hr. rewrite Hr. reflexivity.
Qed.

Lemma sameSession_refl (p : Page) : sameSession p p.
Proof. repeat split. Qed.

Lemma deleteLoop_frame (fuel comment : nat) (indent : option Z) :
  forall p q, deleteLoop fuel comment indent p = Done q -> sameSession p q.
Proof.
  induction fuel as [|fuel IH]; intros p q; cbn [deleteLoop];
    destruct (Dom.nextSibling comment (threadComments p)) as [x|];
    try discriminate; try (intros [= <-]; apply sameSession_refl).
  destruct (lt indent (indentOf p x));
    [|intros [= <-]; apply sameSession_refl].
  intros H. apply IH in H. exact H.
Qed.

Lemma removeWithChildren_frame (comment : nat) (p q : Page) :
  removeWithChildren comment p = Done q -> sameSession p q.
Proof.
  unfold removeWithChildren.
  destruct (deleteLoop _ comment _ p) as [p1| |] eqn:E; try discriminate.
  cbn [bind]. intros [= <-]. apply deleteLoop_frame in E. exact E.
Qed.

Lemma showReplyControl_cases (p : Page) :
  exists q,
    showReplyControl p = Done q
    /\ trace q = trace p
    /\ (threadComments p = [] -> data_is_locked p = Some "false" ->
        threadComments q = [replyBox p]
        /\ data_editing (nodes q (replyBox p)) = Some "false"
        /\ data_comment_id (nodes q (replyBox p)) = Some "null"
        /\ data_parent_comment_id (nodes q (replyBox p)) = Some "null"
        /\ style_paddingLeft (nodes q (replyBox p)) = "0px"
        /\ threadCommentInput q = ""
        /\ threadMainReply q = "none")
    /\ (threadComments p = [] -> data_is_locked p = Some "true" ->
        threadComments q = [] /\ threadMainReply q = "none")
    /\ (threadComments p <> []
        \/ (data_is_locked p <> Some "false" /\ data_is_locked p <> Some "true") ->
        threadComments q = threadComments p
        /\ threadMainReply q = "inline-block").
Proof.
  unfold showReplyControl.
  destruct (threadComments p) as [|x l] eqn:Hl; cbn [List.length Nat.eqb andb].
  - destruct (attrIs (data_is_locked p) "false") eqn:Hf.
    + destruct (displayCommentReply_top "" false p)
        as (q & Hq & Hc & Hrb & He & Hi & Hp & Hpad & Hin & _ & Ht & _).
      rewrite Hq. cbn [bind]. eexists. split; [reflexivity|].
      page_simpl. rewrite Hl in Hc.
      split; [exact Ht|]. split; [|split].
      * intros _ _. repeat split; assumption.
      * intros _ Hlock. apply attrIs_true in Hf. congruence.
      * intros [H|[H _]]; [congruence|]. apply attrIs_true in Hf. congruence.
    + destruct (attrIs (data_is_locked p) "true") eqn:Ht;
        (eexists; split; [reflexivity|]); page_simpl;
        (split; [reflexivity|]); (split; [|split]).
      * intros _ H. apply attrIs_true in H. congruence.
      * intros _ _. rewrite Hl. split; reflexivity.
      * intros [H|[_ H]]; [congruence|]. apply attrIs_true in Ht. congruence.
      * intros _ H. apply attrIs_true in H. congruence.
      * intros _ H. apply attrIs_true in H. congruence.
      * intros _. rewrite Hl. split; reflexivity.
  - eexists. split; [reflexivity|]. page_simpl.
    split; [reflexivity|]. split; [|split]; try discriminate.
    intros _. rewrite Hl. split; reflexivity.
Qed.

Lemma distinct_NoDup (l : list nat) : distinct l = true <-> NoDup l.
Proof.
  induction l as [|x l IH]; simpl.
  - split; [constructor|reflexivity].
  - rewrite andb_true_iff, negb_true_iff, IH. split.
    + intros [Hx Hl]. constructor; [|exact Hl].
      intros Hin. apply not_true_iff_false in Hx. apply Hx.
      apply existsb_exists. exists x. split; [exact Hin|apply Nat.eqb_refl].
    + intros H. inversion H as [|? ? Hx Hl]; subst. split; [|exact Hl].
      apply not_true_iff_false. intros Hex.
      apply existsb_exists in Hex. destruct Hex as (y & Hy & Hxy).
      apply Nat.eqb_eq in Hxy. subst. tauto.
Qed.

Lemma removals_explicit (p : Page) (l : list nat) (comment : nat) :
  removals p l ++ [DomRemove comment; ApiCall (deleteRequest p comment)]
  = flat_map
      (fun r =>
         [DomRemove r;
          ApiCall (mkRequest "comment" "DELETE"
                             (IdBody (parseIntAttr
                                        (data_comment_id (nodes p r))))
                             None)])
      (l ++ [comment]).
Proof.
  rewrite flat_map_app. reflexivity.
Qed.

Lemma deletions_read (p : Page) (l : list nat) (ids : list Z) :
  map (fun r => data_comment_id (nodes p r)) l
  = map (fun i => Some (toString i)) ids ->
  let t := flat_map
             (fun r =>
                [DomRemove r;
                 ApiCall (mkRequest "comment" "DELETE"
                                    (IdBody (parseIntAttr
                                               (data_comment_id (nodes p r))))
                                    None)])
             l in
  flat_map (fun e => match e with
                     | DomRemove r => [r]
                     | ApiCall _ => []
                     end) t = l
  /\ flat_map (fun e => match e with
                        | ApiCall r => [r]
                        | DomRemove _ => []
                        end) t
     = map (fun i => mkRequest "comment" "DELETE" (IdBody (Some i)) None) ids.
Proof.
  revert ids. induction l as [|r l IH]; intros ids H; cbn [map] in H.
  - destruct ids; [split; reflexivity|discriminate].
  - destruct ids as [|i ids]; [discriminate|].
    cbn [map] in H. injection H as Hr Hl.
    destruct (IH ids Hl) as [I1 I2]. cbv zeta in *.
    cbn [flat_map app map]. rewrite I1, I2, Hr.
    cbn [parseIntAttr]. rewrite parseInt_toString. split; reflexivity.
Qed.

(** C1: the cascading delete of a comment at indent [L] takes out the run
    of immediately following siblings that are strictly deeper than [L],
    then the comment itself, last; the first sibling that is not deeper
    and everything after it stay.  For each node taken out, in that order,
    one request goes out: a [DELETE] to [comment] whose body carries as
    [id] the number read off the [data-comment-id] of the node -- the id of
    the comment, for a rendered box -- and no other request is sent. *)
Theorem C1_cascading_delete (p : Page) (comment : nat) (L : Z)
        (pre run rest : list nat) :
  threadComments p = pre ++ comment :: run ++ rest ->
  distinct (threadComments p) = true ->
  indentOf p comment = Some L ->
  forallb (fun r => lt (Some L) (indentOf p r)) run = true ->
  match rest with
  | [] => True
  | r :: _ => lt (Some L) (indentOf p r) = false
  end ->
  exists q,
    deleteChildrenComments comment p = Done q
    /\ trace q
       = trace p
         ++ flat_map
              (fun r =>
                 [DomRemove r;
                  ApiCall (mkRequest "comment" "DELETE"
                                     (IdBody (parseIntAttr
                                                (data_comment_id (nodes p r))))
                                     None)])
              (run ++ [comment])
    /\ (forall ids : list Z,
           map (fun r => data_comment_id (nodes p r)) (run ++ [comment])
           = map (fun i => Some (toString i)) ids ->
           exists t,
             trace q = trace p ++ t
             /\ flat_map (fun e => match e with
                                   | DomRemove r => [r]
                                   | ApiCall _ => []
                                   end) t = run ++ [comment]
             /\ flat_map (fun e => match e with
                                   | ApiCall r => [r]
                                   | DomRemove _ => []
                                   end) t
                = map (fun i => mkRequest "comment" "DELETE"
                                          (IdBody (Some i)) None) ids)
    /\ threadComments q =
       if (List.length (pre ++ rest) =? 0)%nat
          && attrIs (data_is_locked p) "false"
       then [replyBox p] else pre ++ rest.
Proof.
  intros Hc Hnd HL Hrun Hrest.
  apply distinct_NoDup in Hnd. rewrite forallb_forall in Hrun.
  unfold deleteChildrenComments.
  rewrite (removeWithChildren_run p comment pre run rest)
    by (try assumption; rewrite HL; assumption).
  cbn [bind].
  match goal with |- context [showReplyControl ?p1] =>
    destruct (showReplyControl_cases p1) as (q & Hq & Ht & Ha & Hb & Hd) end.
  assert (Htrace : trace q
                   = trace p
                     ++ flat_map
                          (fun r =>
                             [DomRemove r;
                              ApiCall (mkRequest
                                         "comment" "DELETE"
                                         (IdBody (parseIntAttr
                                                    (data_comment_id
                                                       (nodes p r))))
                                         None)])
                          (run ++ [comment])).
  { rewrite Ht. cbn [trace with_trace]. rewrite removals_explicit.
    reflexivity. }
  exists q. split; [exact Hq|]. split; [exact Htrace|]. split.
  { intros ids Hids. eexists. split; [exact Htrace|].
    apply (deletions_read p (run ++ [comment]) ids Hids). }
  page_simpl.
  destruct (pre ++ rest) as [|x l] eqn:El; cbn [List.length Nat.eqb andb].
  - destruct (attrIs (data_is_locked p) "false") eqn:Hf.
    + apply attrIs_true in Hf. apply Ha; auto.
    + destruct (attrIs (data_is_locked p) "true") eqn:Htr.
      * apply attrIs_true in Htr. apply Hb; auto.
      * apply Hd. right. rewrite <- !attrIs_true. split; congruence.
  - apply Hd. left. discriminate.
Qed.

(** In the sample thread the delete of comment 1, at node 2, takes out
    the nodes 3, 4 and 5 of its replies 5, 2 and 4 and then node 2, and
    sends the four requests in that order. *)
Lemma C1_cascading_delete_witness :
  exists q,
    deleteChildrenComments 2 samplePage = Done q
    /\ trace q
       = trace samplePage
         ++ [DomRemove 3;
             ApiCall (mkRequest "comment" "DELETE" (IdBody (Some 5)) None);
             DomRemove 4;
             ApiCall (mkRequest "comment" "DELETE" (IdBody (Some 2)) None);
             DomRemove 5;
             ApiCall (mkRequest "comment" "DELETE" (IdBody (Some 4)) None);
             DomRemove 2;
             ApiCall (mkRequest "comment" "DELETE" (IdBody (Some 1)) None)]
    /\ threadComments q = [1; 6]%nat.
Proof.
  destruct (C1_cascading_delete samplePage 2 0 [1%nat] [3; 4; 5]%nat [6%nat])
    as (q & Hq & Ht & _ & Hc); try reflexivity.
  exists q. split; [exact Hq|]. split; [|exact Hc].
  rewrite Ht. reflexivity.
Defined.

(** C7: once the cascading delete has taken its nodes out, an empty
    container on an unlocked thread gets the reply slot in its compose-new
    state with the main reply button hidden; an empty container on a locked
    thread gets no reply control at all; in every other case the main reply
    button is shown. *)
Theorem C7_reply_control_after_delete (comment : nat) (p : Page) :
  exists removed q,
    removeWithChildren comment p = Done removed
    /\ deleteChildrenComments comment p = Done q
    /\ (threadComments removed = [] -> data_is_locked p = Some "false" ->
        threadComments q = [replyBox p]
        /\ data_editing (nodes q (replyBox p)) = Some "false"
        /\ data_comment_id (nodes q (replyBox p)) = Some "null"
        /\ data_parent_comment_id (nodes q (replyBox p)) = Some "null"
        /\ style_paddingLeft (nodes q (replyBox p)) = "0px"
        /\ threadCommentInput q = ""
        /\ threadMainReply q = "none")
    /\ (threadComments removed = [] -> data_is_locked p = Some "true" ->
        threadComments q = [] /\ threadMainReply q = "none")
    /\ (threadComments removed <> []
        \/ (data_is_locked p <> Some "false" /\ data_is_locked p <> Some "true") ->
        threadComments q = threadComments removed
        /\ threadMainReply q = "inline-block").
Proof.
  destruct (removeWithChildren_returns comment p) as [removed Hr].
  destruct (showReplyControl_cases removed) as (q & Hq & _ & Ha & Hb & Hd).
  destruct (removeWithChildren_frame _ _ _ Hr)
    as (_ & _ & Hrb & _ & _ & Hlock & _).
  exists removed, q. unfold deleteChildrenComments. rewrite Hr. cbn [bind].
  rewrite Hrb, Hlock in *. auto.
Qed.

Lemma C7_reply_control_after_delete_witness :
  (exists removed q,
     removeWithChildren 1 (pageOf (deleteChildrenComments 2 samplePage))
     = Done removed
     /\ deleteChildrenComments 1 (pageOf (deleteChildrenComments 2 samplePage))
        = Done q
     /\ threadComments removed = [6%nat]
     /\ threadComments q = [6%nat]
     /\ threadMainReply q = "inline-block")
  /\ (exists removed q,
        removeWithChildren 6 oneLeft = Done removed
        /\ deleteChildrenComments 6 oneLeft = Done q
        /\ threadComments removed = []
        /\ threadComments q = [replyBox oneLeft]
        /\ style_paddingLeft (nodes q (replyBox oneLeft)) = "0px"
        /\ threadMainReply q = "none").
Proof.
  split.
  - destruct (C7_reply_control_after_delete
                1 (pageOf (deleteChildrenComments 2 samplePage)))
      as (removed & q & Hr & Hq & _ & _ & Hd).
    exists removed, q. split; [exact Hr|]. split; [exact Hq|].
    assert (Hc : threadComments removed = [6%nat]).
    { vm_compute in Hr. injection Hr as <-. reflexivity. }
    split; [exact Hc|].
    destruct Hd as [Hd1 Hd2]; [left; rewrite Hc; discriminate|].
    rewrite Hd1. split; [exact Hc|exact Hd2].
  - destruct (C7_reply_control_after_delete 6 oneLeft)
      as (removed & q & Hr & Hq & Ha & _ & _).
    exists removed, q. split; [exact Hr|]. split; [exact Hq|].
    assert (Hc : threadComments removed = []).
    { vm_compute in Hr. injection Hr as <-. reflexivity. }
    split; [exact Hc|].
    destruct (Ha Hc) as (H1 & _ & _ & _ & H2 & _ & H3);
      [vm_compute; reflexivity|].
    split; [exact H1|]. split; [exact H2|exact H3].
Defined.

(** C10: when the immediate next sibling of the comment to delete has a
    left margin that does not read as a number -- the reply slot, which is
    indented by its padding and has no margin -- the walk stops at once:
    the comment alone is taken out, the one request sent is the [DELETE]
    to [comment] that carries the number read off its [data-comment-id],
    and the nodes after that sibling stay in the container and receive no
    [DELETE]. *)
Theorem C10_walk_stops_at_slot (p : Page) (comment next : nat)
        (pre rest : list nat) :
  threadComments p = pre ++ comment :: next :: rest ->
  distinct (threadComments p) = true ->
  style_marginLeft (nodes p next) = "" \/ indentOf p next = None ->
  exists q,
    deleteChildrenComments comment p = Done q
    /\ threadComments q = pre ++ next :: rest
    /\ trace q
       = trace p
         ++ [DomRemove comment;
             ApiCall (mkRequest "comment" "DELETE"
                                (IdBody (parseIntAttr
                                           (data_comment_id (nodes p comment))))
                                None)]
    /\ (forall i,
           data_comment_id (nodes p comment) = Some (toString i) ->
           trace q
           = trace p
             ++ [DomRemove comment;
                 ApiCall (mkRequest "comment" "DELETE" (IdBody (Some i))
                                    None)]).
Proof.
  intros Hc Hnd Hnext.
  assert (Hnone : indentOf p next = None).
  { destruct Hnext as [H|H]; [|exact H]. unfold indentOf. rewrite H.
    reflexivity. }
  apply distinct_NoDup in Hnd.
  unfold deleteChildrenComments.
  rewrite (removeWithChildren_run p comment pre [] (next :: rest));
    try assumption.
  - cbn [bind].
    match goal with |- context [showReplyControl ?p1] =>
      destruct (showReplyControl_cases p1) as (q & Hq & Ht & _ & _ & Hd) end.
    exists q. split; [exact Hq|]. page_simpl.
    destruct Hd as [Hd _].
    + left. destruct pre; discriminate.
    + split; [exact Hd|]. rewrite Ht. split; [reflexivity|].
      intros i Hi. unfold deleteRequest. rewrite Hi. cbn [parseIntAttr].
      rewrite parseInt_toString. reflexivity.
  - intros r [].
  - rewrite Hnone. destruct (indentOf p comment); reflexivity.
Qed.

(** A reply to comment 1 is open in the sample thread, the slot standing
    right after node 2: the delete of comment 1 takes out node 2 alone and
    sends the one [DELETE] of id 1; the nodes 3, 4 and 5 of its replies
    stay. *)
Lemma C10_walk_stops_at_slot_witness :
  exists q,
    deleteChildrenComments
      2 (pageOf (onThreadCommentsClick (clickOn "reply" 1) samplePage))
    = Done q
    /\ threadComments q = [1; 0; 3; 4; 5; 6]%nat
    /\ trace q =
       trace (pageOf (onThreadCommentsClick (clickOn "reply" 1) samplePage))
       ++ [DomRemove 2;
           ApiCall (mkRequest "comment" "DELETE" (IdBody (Some 1)) None)].
Proof.
  destruct (C10_walk_stops_at_slot
              (pageOf (onThreadCommentsClick (clickOn "reply" 1) samplePage))
              2 0 [1%nat] [3; 4; 5; 6]%nat)
    as (q & Hq & Hc & _ & Ht);
    [reflexivity | reflexivity | left; reflexivity |].
  exists q. split; [exact Hq|]. split; [exact Hc|].
  apply (Ht 1). reflexivity.
Defined.

(** ** The lock guard *)

(** C9: on a locked thread a click on any link of a comment, the delete
    link included, shows the "thread is locked" popup and does nothing
    else: no node leaves the container and no request is sent. *)
Theorem C9_locked_delete_refused (ev : Click) (p : Page) :
  isAnchor ev = true ->
  contains "delete" (targetClasses ev) = true ->
  data_is_locked p = Some "true" ->
  exists q,
    onThreadCommentsClick ev p = Done q
    /\ errorPopUp q = Some "thread is locked"
    /\ threadComments q = threadComments p
    /\ nodes q = nodes p
    /\ trace q = trace p.
Proof.
  intros Ha _ Hl. unfold onThreadCommentsClick. rewrite Ha, Hl.
  eexists. split; [reflexivity|]. repeat split.
Qed.

Lemma C9_locked_delete_refused_witness :
  exists q,
    onThreadCommentsClick
      (clickOn "delete" 1)
      (with_data_is_locked (Some "true") samplePage) = Done q
    /\ errorPopUp q = Some "thread is locked"
    /\ threadComments q = threadComments (with_data_is_locked (Some "true") samplePage)
    /\ nodes q = nodes (with_data_is_locked (Some "true") samplePage)
    /\ trace q = trace (with_data_is_locked (Some "true") samplePage).
Proof.
  apply (C9_locked_delete_refused
           (clickOn "delete" 1) (with_data_is_locked (Some "true") samplePage));
    reflexivity.
Defined.

(** ** Moving the reply slot *)

Section SlotMoves.

Variable r : nat.

Lemma remove_idem (l : list nat) :
  Dom.remove r (Dom.remove r l) = Dom.remove r l.
Proof.
  apply remove_notin. rewrite remove_In. tauto.
Qed.

Lemma remove_insertAt (c : nat) (l : list nat) :
  Dom.remove r (Dom.insertAt r c l) = Dom.remove r l.
Proof.
  induction l as [|x l IH]; simpl.
  - rewrite Nat.eqb_refl. reflexivity.
  - destruct (Nat.eqb x c); simpl.
    + rewrite Nat.eqb_refl. reflexivity.
    + rewrite IH. reflexivity.
Qed.

Lemma insertAt_split (c : nat) (a b : list nat) :
  ~ In c a -> Dom.insertAt r c (a ++ c :: b) = a ++ r :: c :: b.
Proof.
  induction a as [|x a IH]; simpl; intros H.
  - rewrite Nat.eqb_refl. reflexivity.
  - destruct (Nat.eqb_spec x c); [tauto|]. rewrite IH by tauto. reflexivity.
Qed.

Lemma remove_prepend (l : list nat) :
  Dom.remove r (Dom.prepend r l) = Dom.remove r l.
Proof. unfold Dom.prepend. rewrite remove_head. apply remove_idem. Qed.

Lemma remove_appendChild (l : list nat) :
  Dom.remove r (Dom.appendChild r l) = Dom.remove r l.
Proof.
  unfold Dom.appendChild. rewrite remove_app, remove_idem. simpl.
  rewrite Nat.eqb_refl. simpl. apply app_nil_r.
Qed.

Lemma remove_insertBefore (c : nat) (l : list nat) :
  Dom.remove r (Dom.insertBefore r c l) = Dom.remove r l.
Proof.
  unfold Dom.insertBefore.
  destruct (Nat.eqb c r); [destruct (Dom.nextSibling r l)|];
    rewrite ?remove_insertAt, ?remove_appendChild, ?remove_idem;
    reflexivity.
Qed.

Lemma NoDup_middle (y : nat) (a b : list nat) :
  NoDup (a ++ y :: b) -> ~ In y a /\ ~ In y b /\ NoDup (a ++ b).
Proof.
  intros H. apply NoDup_remove in H. rewrite in_app_iff in H. tauto.
Qed.

(** The slot lands right after [x] whichever branch inserts it. *)
Lemma insert_after (x : nat) (pre post : list nat) :
  NoDup (pre ++ x :: post) -> x <> r ->
  match Dom.nextSibling x (pre ++ x :: post) with
  | Some next => Dom.insertBefore r next (pre ++ x :: post)
  | None => Dom.appendChild r (pre ++ x :: post)
  end = Dom.remove r pre ++ x :: r :: Dom.remove r post.
Proof.
  intros Hnd Hx.
  destruct (NoDup_middle _ _ _ Hnd) as (Hpre & Hpost & Hrest).
  assert (Hrx : Dom.remove r (pre ++ x :: post)
                = Dom.remove r pre ++ x :: Dom.remove r post).
  { rewrite remove_app. simpl. apply Nat.eqb_neq in Hx. rewrite Hx.
    reflexivity. }
  rewrite nextSibling_split by assumption.
  destruct post as [|next post]; cbn [hd_error].
  { unfold Dom.appendChild. rewrite Hrx. simpl. rewrite <- app_assoc.
    reflexivity. }
  assert (Hnd' : NoDup ((pre ++ [x]) ++ next :: post))
    by (rewrite <- app_assoc; exact Hnd).
  destruct (NoDup_middle _ _ _ Hnd') as (Hn1 & Hn2 & Hn3).
  unfold Dom.insertBefore.
  destruct (Nat.eqb_spec next r) as [->|Hnr].
  - (* the slot already follows [x] *)
    replace (pre ++ x :: r :: post) with ((pre ++ [x]) ++ r :: post)
      by (rewrite <- app_assoc; reflexivity).
    rewrite nextSibling_split by assumption.
    assert (Hrm : Dom.remove r ((pre ++ [x]) ++ r :: post)
                  = (pre ++ [x]) ++ post).
    { apply remove_middle. rewrite in_app_iff. tauto. }
    rewrite remove_head, (remove_notin r pre), (remove_notin r post)
      by (try assumption; rewrite in_app_iff in Hn1; tauto).
    destruct post as [|c post]; cbn [hd_error].
    + unfold Dom.appendChild. rewrite Hrm, app_nil_r, <- app_assoc.
      reflexivity.
    + rewrite Hrm. rewrite insertAt_split.
      * rewrite <- app_assoc. reflexivity.
      * apply NoDup_remove_2 in Hn3. rewrite in_app_iff in Hn3. tauto.
  - rewrite Hrx.
    replace (Dom.remove r pre ++ x :: Dom.remove r (next :: post))
      with ((Dom.remove r pre ++ [x]) ++ next :: Dom.remove r post).
    + rewrite insertAt_split.
      * rewrite <- app_assoc. simpl. apply Nat.eqb_neq in Hnr.
        rewrite Hnr. reflexivity.
      * rewrite in_app_iff, remove_In. rewrite in_app_iff in Hn1. tauto.
    + rewrite <- app_assoc. simpl. apply Nat.eqb_neq in Hnr.
      rewrite Hnr. reflexivity.
Qed.

End SlotMoves.

(** ** Restoring hidden comments *)

Lemma with_nodes_same (p : Page) : with_nodes (nodes p) p = p.
Proof. destruct p; reflexivity. Qed.

Lemma unhideComments_fold (l : list nat) :
  forall p,
  exists g,
    fold_left
      (fun q comment =>
         if isCommentBox (nodes q comment)
            && attrIs (data_hidden (nodes q comment)) "true"
         then update comment (set_style_display "block") q
         else q) l p = with_nodes g p
    /\ forall r, g r = unhidden p l r.
Proof.
  induction l as [|x l IH]; intros p.
  - exists (nodes p). split; [symmetry; apply with_nodes_same|].
    intros r. reflexivity.
  - cbn [fold_left].
    match goal with |- context [fold_left ?f l ?p1] =>
      destruct (IH p1) as (g & Hg & Hr) end.
    exists g. split.
    + rewrite Hg.
      destruct (isCommentBox (nodes p x) && attrIs (data_hidden (nodes p x)) "true");
        reflexivity.
    + intros r. rewrite Hr. unfold unhidden. cbn [existsb].
      destruct (isCommentBox (nodes p x) && attrIs (data_hidden (nodes p x)) "true")
        eqn:Hx.
      * page_simpl.
        destruct (Nat.eqb_spec r x) as [->|Hne]; [|reflexivity].
        apply andb_true_iff in Hx as [Hb Hc].
        change (isCommentBox (set_style_display "block" (nodes p x)))
          with (isCommentBox (nodes p x)).
        change (data_hidden (set_style_display "block" (nodes p x)))
          with (data_hidden (nodes p x)).
        rewrite Hb, Hc.
        destruct (existsb (Nat.eqb x) l); reflexivity.
      * destruct (Nat.eqb_spec r x) as [->|Hne]; [|reflexivity].
        destruct (isCommentBox (nodes p x));
          destruct (attrIs (data_hidden (nodes p x)) "true");
          simpl in Hx; try discriminate;
          rewrite ?andb_false_r; reflexivity.
Qed.

Lemma unhideComments_spec (p : Page) :
  exists g,
    unhideComments p = with_nodes g p
    /\ forall r, g r = unhidden p (threadComments p) r.
Proof. apply unhideComments_fold. Qed.

Lemma unhidden_class (p : Page) (l : list nat) (r : nat) :
  classList (unhidden p l r) = classList (nodes p r)
  /\ data_hidden (unhidden p l r) = data_hidden (nodes p r)
  /\ data_comment_id (unhidden p l r) = data_comment_id (nodes p r)
  /\ data_parent_comment_id (unhidden p l r) = data_parent_comment_id (nodes p r)
  /\ style_marginLeft (unhidden p l r) = style_marginLeft (nodes p r)
  /\ contentText (unhidden p l r) = contentText (nodes p r).
Proof.
  unfold unhidden.
  destruct (existsb (Nat.eqb r) l && isCommentBox (nodes p r)
            && attrIs (data_hidden (nodes p r)) "true");
    repeat split.
Qed.

(** ** The reply slot *)

Lemma nodes_update_same (r : nat) (f : Element -> Element) (p : Page) :
  nodes (update r f p) r = f (nodes p r).
Proof. unfold update. cbn. rewrite Nat.eqb_refl. reflexivity. Qed.

Lemma nodes_update_other (r x : nat) (f : Element -> Element) (p : Page) :
  x <> r -> nodes (update r f p) x = nodes p x.
Proof.
  intros H. unfold update. cbn. apply Nat.eqb_neq in H. rewrite H. reflexivity.
Qed.

(** Reading the reply box back after a chain of updates. *)
Ltac read_slot :=
  unfold with_threadComments, with_threadCommentInput, with_threadMainReply;
  cbn [nodes threadCommentInput threadMainReply threadComments replyBox];
  repeat (rewrite nodes_update_same; cbn [nodes]).

Section FindComment.

Variables (p : Page) (key : string) (x : nat).

Let matches (r : nat) : bool :=
  attrIs (data_comment_id (nodes p r)) key && isCommentBox (nodes p r).

Lemma findComment_keep (l : list nat) :
  (forall r, In r l -> matches r = true -> r = x) ->
  findComment p key l (Some x) = Some x.
Proof.
  induction l as [|y l IH]; intros H; [reflexivity|].
  cbn [findComment]. fold (matches y).
  destruct (matches y) eqn:E.
  - rewrite (H y) by (simpl; auto). apply IH. intros r Hr. apply H. simpl; auto.
  - apply IH. intros r Hr. apply H. simpl; auto.
Qed.

(** With one matching child the search returns it. *)
Lemma findComment_unique (l : list nat) (found : option nat) :
  (forall r, In r l -> matches r = true -> r = x) ->
  In x l -> matches x = true ->
  findComment p key l found = Some x.
Proof.
  revert found. induction l as [|y l IH]; intros found H Hin Hx; [destruct Hin|].
  cbn [findComment]. fold (matches y).
  destruct Hin as [->|Hin].
  - rewrite Hx. apply findComment_keep. intros r Hr. apply H. simpl; auto.
  - apply IH; auto. intros r Hr. apply H. simpl; auto.
Qed.

Lemma findComment_In (l : list nat) (found : option nat) (y : nat) :
  findComment p key l found = Some y ->
  (In y l /\ matches y = true) \/ found = Some y.
Proof.
  revert found. induction l as [|z l IH]; intros found H; [right; exact H|].
  cbn [findComment] in H. fold (matches z) in H.
  apply IH in H. destruct H as [[H1 H2]|H]; [left; simpl; auto|].
  destruct (matches z) eqn:E; [|right; exact H].
  injection H as <-. left. simpl; auto.
Qed.

End FindComment.

Lemma insertAt_In (r c y : nat) (l : list nat) :
  In y (Dom.insertAt r c l) <-> y = r \/ In y l.
Proof.
  induction l as [|x l IH]; simpl; [intuition|].
  destruct (Nat.eqb x c); simpl; [intuition|].
  rewrite IH. intuition.
Qed.

Lemma insertAt_NoDup (r c : nat) (l : list nat) :
  NoDup l -> ~ In r l -> NoDup (Dom.insertAt r c l).
Proof.
  induction l as [|x l IH]; simpl; intros Hnd Hr.
  - constructor; [tauto|constructor].
  - destruct (Nat.eqb x c).
    + constructor; [simpl; tauto|exact Hnd].
    + inversion Hnd; subst. constructor.
      * rewrite insertAt_In. intros [->|H]; tauto.
      * apply IH; tauto.
Qed.

Lemma slot_moves_NoDup (r : nat) (l : list nat) :
  NoDup l ->
  NoDup (Dom.prepend r l) /\ NoDup (Dom.appendChild r l)
  /\ forall c, NoDup (Dom.insertBefore r c l).
Proof.
  intros Hnd.
  assert (Hrm : NoDup (Dom.remove r l)) by (apply remove_NoDup; exact Hnd).
  assert (Hnot : ~ In r (Dom.remove r l)) by (rewrite remove_In; tauto).
  assert (Happ : NoDup (Dom.appendChild r l)).
  { unfold Dom.appendChild. apply NoDup_app; [exact Hrm|repeat constructor; tauto|].
    intros y Hy [->|[]]. tauto. }
  split; [constructor; assumption|]. split; [exact Happ|].
  intros c. unfold Dom.insertBefore.
  destruct (Nat.eqb c r); [destruct (Dom.nextSibling r l)|];
    try exact Happ; apply insertAt_NoDup; assumption.
Qed.

Lemma slotOnly_refl (p : Page) : slotOnly p p.
Proof. unfold slotOnly. repeat split; auto. Qed.

Lemma slotOnly_trans (p q s : Page) :
  slotOnly p q -> slotOnly q s -> slotOnly p s.
Proof.
  intros (A1 & A2 & A3 & A4 & A5 & A6 & A7 & A8 & A9)
         (B1 & B2 & B3 & B4 & B5 & B6 & B7 & B8 & B9).
  rewrite A6 in *.
  unfold slotOnly. repeat split; try congruence; auto.
  - intros r Hr. rewrite B1, A1; auto.
  - destruct (A2 r) as (? & _), (B2 r) as (? & _). congruence.
  - destruct (A2 r) as (_ & ? & _), (B2 r) as (_ & ? & _). congruence.
  - destruct (A2 r) as (_ & _ & ? & _), (B2 r) as (_ & _ & ? & _). congruence.
  - destruct (A2 r) as (_ & _ & _ & ?), (B2 r) as (_ & _ & _ & ?). congruence.
Qed.

Lemma slotOnly_update (f : Element -> Element) (p : Page) :
  slotSetter f -> slotOnly p (update (replyBox p) f p).
Proof.
  intros Hf. unfold slotOnly. page_simpl. repeat split; auto.
  - intros r Hr. apply Nat.eqb_neq in Hr. rewrite Hr. reflexivity.
  - destruct (Nat.eqb r (replyBox p)); [apply Hf|reflexivity].
  - destruct (Nat.eqb r (replyBox p)); [apply Hf|reflexivity].
  - destruct (Nat.eqb r (replyBox p)); [apply Hf|reflexivity].
  - destruct (Nat.eqb r (replyBox p)); [apply Hf|reflexivity].
Qed.

Lemma slotOnly_input (v : string) (p : Page) :
  slotOnly p (with_threadCommentInput v p).
Proof. unfold slotOnly. page_simpl. repeat split; auto. Qed.

Lemma slotOnly_children (l : list nat) (p : Page) :
  Dom.remove (replyBox p) l = Dom.remove (replyBox p) (threadComments p) ->
  (NoDup (threadComments p) -> NoDup l) ->
  slotOnly p (with_threadComments l p).
Proof. intros H1 H2. unfold slotOnly. page_simpl. repeat split; auto. Qed.

Lemma slotSetter_attrs :
  (forall v, slotSetter (set_data_editing v))
  /\ (forall v, slotSetter (set_data_comment_id v))
  /\ (forall v, slotSetter (set_data_parent_comment_id v))
  /\ (forall v, slotSetter (set_style_paddingLeft v)).
Proof. repeat split. Qed.

(** [displayCommentReply] always returns or throws; whichever it does, it
    has changed the reply box alone, and of it neither the classes nor the
    visibility; the other children keep their order. *)
Lemma displayCommentReply_frame (parentId beforeId : Value) (content : string)
      (editing : bool) (p : Page) :
  exists q,
    leaves (displayCommentReply parentId beforeId content editing p) q
    /\ slotOnly p q.
Proof.
  destruct slotSetter_attrs as (S1 & S2 & S3 & S4).
  unfold displayCommentReply, leaves.
  set (p1 := update (replyBox p) (set_data_editing _) p).
  set (p2 := update (replyBox p) (set_data_comment_id _) p1).
  set (p3 := with_threadCommentInput content p2).
  set (p4 := update (replyBox p) (set_data_parent_comment_id _) p3).
  assert (H4 : slotOnly p p4).
  { eapply slotOnly_trans; [apply slotOnly_update, S1|].
    eapply slotOnly_trans; [refine (slotOnly_update _ p1 _); apply S2|].
    eapply slotOnly_trans; [exact (slotOnly_input content p2)|].
    refine (slotOnly_update _ p3 _); apply S3. }
  assert (Hrb : forall f, slotOnly p (update (replyBox p) f p4) ->
                          exists q,
                            leaves
                              (match beforeId with
                               | Null => Done (with_threadComments
                                                 (Dom.prepend (replyBox p)
                                                    (threadComments (update (replyBox p) f p4)))
                                                 (update (replyBox p) f p4))
                               | _ =>
                                   match findComment (update (replyBox p) f p4)
                                           (String_ beforeId)
                                           (threadComments (update (replyBox p) f p4)) None with
                                   | None => Threw (update (replyBox p) f p4)
                                   | Some commentBefore =>
                                       match Dom.nextSibling commentBefore
                                               (threadComments (update (replyBox p) f p4)) with
                                       | Some next =>
                                           Done (with_threadComments
                                                   (Dom.insertBefore (replyBox p) next
                                                      (threadComments (update (replyBox p) f p4)))
                                                   (update (replyBox p) f p4))
                                       | None =>
                                           Done (with_threadComments
                                                   (Dom.appendChild (replyBox p)
                                                      (threadComments (update (replyBox p) f p4)))
                                                   (update (replyBox p) f p4))
                                       end
                                   end
                               end) q
                            /\ slotOnly p q).
  { intros f Hf. set (p5 := update (replyBox p) f p4) in *.
    assert (Hmove : forall l,
               Dom.remove (replyBox p) l
               = Dom.remove (replyBox p) (threadComments p5) ->
               (NoDup (threadComments p5) -> NoDup l) ->
               slotOnly p (with_threadComments l p5)).
    { intros l H1 H2. eapply slotOnly_trans; [exact Hf|].
      apply slotOnly_children; assumption. }
    assert (Hpre : slotOnly p (with_threadComments
                                 (Dom.prepend (replyBox p) (threadComments p5)) p5)).
    { apply Hmove; [apply remove_prepend|].
      intros Hn. apply (slot_moves_NoDup (replyBox p) _ Hn). }
    unfold leaves.
    destruct beforeId; [eexists; split; [left; reflexivity|exact Hpre]| |];
      (destruct (findComment p5 _ (threadComments p5) None) as [cb|];
       [|eexists; split; [right; reflexivity|exact Hf]];
       destruct (Dom.nextSibling cb (threadComments p5));
       (eexists; split; [left; reflexivity|]); apply Hmove;
       first [apply remove_insertBefore | apply remove_appendChild
             | intros Hn;
               destruct (slot_moves_NoDup (replyBox p) _ Hn) as (? & ? & ?);
               auto]). }
  destruct parentId; cbn [bind].
  - apply Hrb. eapply slotOnly_trans; [exact H4|].
    refine (slotOnly_update _ p4 _); apply S4.
  - destruct (findComment p4 _ (threadComments p4) None); cbn [bind].
    + apply Hrb. eapply slotOnly_trans; [exact H4|].
      refine (slotOnly_update _ p4 _); apply S4.
    + eexists. split; [right; reflexivity|exact H4].
  - destruct (findComment p4 _ (threadComments p4) None); cbn [bind].
    + apply Hrb. eapply slotOnly_trans; [exact H4|].
      refine (slotOnly_update _ p4 _); apply S4.
    + eexists. split; [right; reflexivity|exact H4].
Qed.

(** The searches of [displayCommentReply] are not misled by the reply box,
    which carries a [data-comment-id] of its own but is no comment box. *)
Lemma findComment_theComment (p q : Page) (key : string) (x : nat) :
  theComment p key x ->
  isCommentBox (nodes p (replyBox p)) = false ->
  slotOnly p q ->
  findComment q key (threadComments p) None = Some x.
Proof.
  intros (Hin & Hbox & Hid & Huniq) Hrb (Hn & Ha & _).
  assert (Hm : forall r,
             attrIs (data_comment_id (nodes q r)) key && isCommentBox (nodes q r)
             = true ->
             isCommentBox (nodes p r) = true
             /\ data_comment_id (nodes p r) = Some key).
  { intros r Hr. apply andb_true_iff in Hr as [H1 H2].
    destruct (Nat.eq_dec r (replyBox p)) as [->|Hne].
    - unfold isCommentBox in *. destruct (Ha (replyBox p)) as (Hc & _).
      rewrite Hc in H2. congruence.
    - rewrite (Hn r Hne) in *. apply attrIs_true in H1. auto. }
  apply findComment_unique.
  - intros r Hr Hmatch. apply Hm in Hmatch. apply Huniq; tauto.
  - exact Hin.
  - assert (Hx : x <> replyBox p) by (intros ->; congruence).
    rewrite (Hn x Hx), Hbox, Hid. simpl. rewrite String.eqb_refl. reflexivity.
Qed.

(** Opening the slot for parent [n] behind the comment [m]. *)
Lemma displayCommentReply_after (n m : Z) (content : string) (editing : bool)
      (p : Page) (parent before : nat) (pre post : list nat) (L : Z) :
  NoDup (threadComments p) ->
  threadComments p = pre ++ before :: post ->
  isCommentBox (nodes p (replyBox p)) = false ->
  theComment p (toString n) parent ->
  theComment p (toString m) before ->
  indentOf p parent = Some L ->
  exists q,
    displayCommentReply (Num n) (Num m) content editing p = Done q
    /\ threadComments q
       = Dom.remove (replyBox p) pre ++ before :: replyBox p
                    :: Dom.remove (replyBox p) post
    /\ style_paddingLeft (nodes q (replyBox p)) = px (Some (L + 10))
    /\ data_parent_comment_id (nodes q (replyBox p)) = Some (toString n)
    /\ data_comment_id (nodes q (replyBox p)) = Some (toString m)
    /\ data_editing (nodes q (replyBox p))
       = Some (if editing then "true" else "false")
    /\ threadCommentInput q = content
    /\ slotOnly p q.
Proof.
  intros Hnd Hc Hrb Hparent Hbefore HL.
  destruct slotSetter_attrs as (S1 & S2 & S3 & S4).
  assert (Hpne : parent <> replyBox p).
  { destruct Hparent as (_ & H & _). intros ->. congruence. }
  assert (Hbne : before <> replyBox p).
  { destruct Hbefore as (_ & H & _). intros ->. congruence. }
  unfold displayCommentReply.
  set (p1 := update (replyBox p) (set_data_editing _) p).
  set (p2 := update (replyBox p) (set_data_comment_id _) p1).
  set (p3 := with_threadCommentInput content p2).
  set (p4 := update (replyBox p) (set_data_parent_comment_id _) p3).
  assert (H4 : slotOnly p p4).
  { eapply slotOnly_trans; [apply slotOnly_update, S1|].
    eapply slotOnly_trans; [refine (slotOnly_update _ p1 _); apply S2|].
    eapply slotOnly_trans; [exact (slotOnly_input content p2)|].
    refine (slotOnly_update _ p3 _); apply S3. }
  change (threadComments p4) with (threadComments p).
  rewrite (findComment_theComment p p4 _ parent) by assumption.
  cbn [bind String_].
  assert (Hind : parseInt (slice_0_m2 (style_marginLeft (nodes p4 parent)))
                 = Some L).
  { destruct H4 as (Hn & _). rewrite (Hn parent Hpne). exact HL. }
  rewrite Hind. cbn [option_map].
  set (p5 := update (replyBox p) (set_style_paddingLeft _) p4).
  assert (H5 : slotOnly p p5).
  { eapply slotOnly_trans; [exact H4|].
    refine (slotOnly_update _ p4 _); apply S4. }
  change (threadComments p5) with (threadComments p).
  rewrite (findComment_theComment p p5 _ before) by assumption.
  pose proof (insert_after (replyBox p) before pre post) as Hins.
  rewrite <- Hc in Hins. specialize (Hins Hnd Hbne).
  assert (Hmove : forall l,
             Dom.remove (replyBox p) l
             = Dom.remove (replyBox p) (threadComments p) ->
             (NoDup (threadComments p) -> NoDup l) ->
             slotOnly p (with_threadComments l p5)).
  { intros l H1 H2. eapply slotOnly_trans; [exact H5|].
    apply slotOnly_children; assumption. }
  destruct (Dom.nextSibling before (threadComments p)) as [next|];
    (eexists; split; [reflexivity|]);
    (split; [exact Hins|]);
    (split; [|split; [|split; [|split; [|split]]]]);
    try (subst p5 p4 p3 p2 p1; read_slot; reflexivity);
    apply Hmove;
    first [apply remove_insertBefore | apply remove_appendChild
          | intros Hn;
            destruct (slot_moves_NoDup (replyBox p) _ Hn) as (? & ? & ?);
            auto].
Qed.

Lemma isTheComment_spec (p : Page) (key : string) (x : nat) :
  isTheComment p key x = true -> theComment p key x.
Proof.
  unfold isTheComment, theComment.
  rewrite !andb_true_iff, forallb_forall, existsb_exists.
  intros ((((y & Hy & Hxy) & Hbox) & Hid) & Huniq).
  apply Nat.eqb_eq in Hxy. subst y. apply attrIs_true in Hid.
  repeat split; try assumption.
  intros r Hr Hb Hi. specialize (Huniq r Hr).
  rewrite Hb, Hi in Huniq. simpl in Huniq. rewrite String.eqb_refl in Huniq.
  apply Nat.eqb_eq. exact Huniq.
Qed.

(** [unhideComments] changes the [display] of elements and nothing else. *)
Lemma unhideComments_keeps (p : Page) :
  exists q,
    unhideComments p = q
    /\ threadComments q = threadComments p
    /\ replyBox q = replyBox p
    /\ data_is_locked q = data_is_locked p
    /\ trace q = trace p
    /\ fresh q = fresh p
    /\ (forall r, nodes q r = unhidden p (threadComments p) r).
Proof.
  destruct (unhideComments_spec p) as (g & Hg & Hr).
  exists (with_nodes g p). rewrite Hg. repeat split. exact Hr.
Qed.

Lemma theComment_unhide (p q : Page) (key : string) (x : nat) :
  threadComments q = threadComments p ->
  (forall r, nodes q r = unhidden p (threadComments p) r) ->
  theComment p key x -> theComment q key x.
Proof.
  intros Hc Hn (Hin & Hbox & Hid & Huniq).
  assert (Hcls : forall r, isCommentBox (nodes q r) = isCommentBox (nodes p r)).
  { intros r. unfold isCommentBox. rewrite Hn.
    destruct (unhidden_class p (threadComments p) r) as (-> & _). reflexivity. }
  assert (Hids : forall r, data_comment_id (nodes q r) = data_comment_id (nodes p r)).
  { intros r. rewrite Hn.
    destruct (unhidden_class p (threadComments p) r) as (_ & _ & -> & _).
    reflexivity. }
  unfold theComment. rewrite Hc, Hcls, Hids. repeat split; try assumption.
  intros r Hr. rewrite Hcls, Hids. apply Huniq. exact Hr.
Qed.

Lemma nth_error_middle {A : Type} (pre post : list A) (x : A) :
  nth_error (pre ++ x :: post) (List.length pre) = Some x.
Proof. induction pre; simpl; auto. Qed.

Lemma idOfAttr_toString (n : Z) : idOfAttr (Some (toString n)) = Num n.
Proof.
  unfold idOfAttr. simpl.
  destruct (String.eqb_spec (toString n) "null") as [H|_].
  - apply toString_not_null in H. destruct H.
  - rewrite parseInt_toString. reflexivity.
Qed.



(** ** The render appends the boxes of [renderTree] *)

Lemma appended_nil (p : Page) : appended p [] p.
Proof.
  unfold appended. simpl. rewrite app_nil_r, Nat.add_0_r. repeat split.
Qed.

Lemma appended_allocated (p q : Page) (els : list Element) :
  allocated p -> appended p els q -> allocated q.
Proof.
  unfold allocated. intros Hp (Hc & Hf & _). rewrite Hc, Hf.
  apply Forall_app. split.
  - eapply Forall_impl; [|exact Hp]. simpl. intros; lia.
  - apply Forall_forall. intros r Hr. apply in_seq in Hr. lia.
Qed.

Lemma appended_trans (p q s : Page) (a b : list Element) :
  appended p a q -> appended q b s -> appended p (a ++ b) s.
Proof.
  intros (A1 & A2 & A3 & A4 & A5 & A6 & A7 & A8 & A9 & A10)
         (B1 & B2 & B3 & B4 & B5 & B6 & B7 & B8 & B9 & B10).
  unfold appended. rewrite length_app.
  repeat split; try congruence.
  - rewrite B1, A1, A2, <- app_assoc, <- seq_app. reflexivity.
  - lia.
  - intros r Hr. rewrite B3 by lia. apply A3. exact Hr.
  - rewrite seq_app, map_app. f_equal.
    + rewrite <- A4 at 2. apply map_ext_in. intros r Hr.
      apply in_seq in Hr. apply B3. lia.
    + rewrite <- A2. exact B4.
Qed.

Lemma displayCommentDOM_appended (c : Comment) (parent : Value) (now level : Z)
      (p : Page) :
  allocated p ->
  appended p [boxOf (userId p) now c parent level]
           (displayCommentDOM (id c) parent (creatorId c)
                              (Z.of_nat (List.length (likes c)))
                              (includes (likes c) (parseIntAttr (userId p)))
                              (dateString (now - createdAt c)) (content c)
                              level p).
Proof.
  intros Hp. unfold appended, displayCommentDOM. page_simpl.
  repeat split; try reflexivity.
  - unfold Dom.appendChild. rewrite remove_notin; [reflexivity|].
    intros Hin. unfold allocated in Hp. rewrite Forall_forall in Hp.
    apply Hp in Hin. lia.
  - simpl. lia.
  - intros r Hr. destruct (Nat.eqb_spec r (fresh p)); [lia|reflexivity].
  - simpl. rewrite Nat.eqb_refl. reflexivity.
Qed.

Section RenderRefinement.

Variables (comments : list Comment) (uid : option string).

Lemma forEach_collect (f : Comment -> nat -> Page -> Result)
      (g : Comment -> option (list Element)) :
  (forall x i p,
      nth_error comments i = Some x -> userId p = uid -> allocated p ->
      renders (f x i p) (g x) p) ->
  forall l i p,
    (forall j x, nth_error l j = Some x ->
                 nth_error comments (i + j) = Some x) ->
    userId p = uid -> allocated p ->
    renders (forEach f l i p) (collect g l) p.
Proof.
  intros Hf. induction l as [|x l IH]; intros i p Hl Hu Ha.
  - simpl. exists p. split; [reflexivity|apply appended_nil].
  - cbn [forEach collect].
    assert (Hx : nth_error comments i = Some x).
    { rewrite <- (Nat.add_0_r i). apply Hl. reflexivity. }
    pose proof (Hf x i p Hx Hu Ha) as Hfx. unfold renders in Hfx.
    destruct (g x) as [a|]; [|rewrite Hfx; reflexivity].
    destruct Hfx as (q & Hq & Hpq). rewrite Hq. cbn [bind].
    assert (Hq' : renders (forEach f l (S i) q) (collect g l) q).
    { apply IH.
      - intros j y Hj. replace (S i + j)%nat with (i + S j)%nat by lia.
        apply Hl. exact Hj.
      - destruct Hpq as (_ & _ & _ & _ & _ & -> & _). exact Hu.
      - eapply appended_allocated; eassumption. }
    unfold renders in *.
    destruct (collect g l) as [b|]; cbn [option_map]; [|exact Hq'].
    destruct Hq' as (s & Hs & Hqs). exists s. split; [exact Hs|].
    eapply appended_trans; eassumption.
Qed.

Lemma displayCommentRecursive_renders (now : Z) :
  forall fuel level index parent p c,
    nth_error comments index = Some c ->
    userId p = uid -> allocated p ->
    renders (displayCommentRecursive fuel now level comments index parent p)
            (renderTree fuel uid now comments level c parent) p.
Proof.
  induction fuel as [|fuel IH]; intros level index parent p c Hc Hu Ha;
    [reflexivity|].
  cbn [displayCommentRecursive renderTree]. rewrite Hc.
  pose proof (displayCommentDOM_appended c parent now level p Ha) as H1.
  set (p1 := displayCommentDOM _ _ _ _ _ _ _ _ p) in *.
  assert (Hu1 : userId p1 = uid).
  { destruct H1 as (_ & _ & _ & _ & _ & -> & _). exact Hu. }
  assert (Ha1 : allocated p1) by (eapply appended_allocated; eassumption).
  match goal with |- renders (forEach ?f _ _ _) (option_map _ (collect ?g _)) _ =>
    pose proof (forEach_collect f g) as Hfe end.
  cbv beta in Hfe.
  assert (Hrest : renders
                    (forEach
                       (fun comment newIndex q =>
                          match parentCommentId comment with
                          | Some parent0 =>
                              if parent0 =? id c
                              then displayCommentRecursive
                                     fuel now (level + 1) comments newIndex
                                     (Num (id c)) q
                              else Done q
                          | None => Done q
                          end) comments 0 p1)
                    (collect
                       (fun k =>
                          if isChildOf c k
                          then renderTree fuel uid now comments (level + 1) k
                                          (Num (id c))
                          else Some []) comments) p1).
  { apply Hfe; try assumption.
    - intros x i q Hx Hq Haq. unfold isChildOf.
      destruct (parentCommentId x) as [i0|].
      + destruct (i0 =? id c).
        * apply IH; assumption.
        * exists q. split; [reflexivity|apply appended_nil].
      + exists q. split; [reflexivity|apply appended_nil].
    - intros j x Hj. exact Hj. }
  unfold renders in *. rewrite Hu in H1.
  destruct (collect _ comments) as [rest|]; cbn [option_map]; [|exact Hrest].
  destruct Hrest as (s & Hs & Hps). exists s. split; [exact Hs|].
  apply (appended_trans p p1 s [_] rest); assumption.
Qed.

End RenderRefinement.

(** ** Sorting by recency *)

Section SortFacts.

Context {A : Type} (cmp : A -> A -> Z).

Lemma insert_perm (a : A) (l : list A) : Permutation (insert cmp a l) (a :: l).
Proof.
  induction l as [|x l IH]; simpl; [reflexivity|].
  destruct (cmp a x <=? 0); [reflexivity|].
  rewrite IH. apply perm_swap.
Qed.

Lemma sort_perm (l : list A) : Permutation (sort cmp l) l.
Proof.
  induction l as [|x l IH]; simpl; [reflexivity|].
  rewrite insert_perm. constructor. exact IH.
Qed.

Lemma sort_length (l : list A) : List.length (sort cmp l) = List.length l.
Proof. apply Permutation_length, sort_perm. Qed.

End SortFacts.

(** ** [displayComments] *)

Lemma clearComments_spec (p : Page) :
  exists t, clearComments p = with_trace t (with_threadComments [] p).
Proof.
  unfold clearComments.
  assert (H : forall l p,
             incl (threadComments p) l ->
             exists t,
               fold_left
                 (fun q child =>
                    emit (DomRemove child)
                         (with_threadComments
                            (Dom.remove child (threadComments q)) q)) l p
               = with_trace t (with_threadComments [] p)).
  { clear p. induction l as [|x l IH]; intros p Hin.
    - exists (trace p). apply incl_l_nil in Hin. simpl.
      destruct p; simpl in *; subst; reflexivity.
    - cbn [fold_left].
      match goal with |- context [fold_left _ l ?p1] =>
        destruct (IH p1) as (t & Ht) end.
      + page_simpl. intros y Hy. apply remove_In in Hy.
        destruct (Hin y (proj1 Hy)); [subst; tauto|assumption].
      + exists t. rewrite Ht. reflexivity. }
  apply H. apply incl_refl.
Qed.

Lemma composeNew_idem (e : Element) : composeNew (composeNew e) = composeNew e.
Proof. reflexivity. Qed.


Lemma requestComments_spec (tid : string) (p : Page) :
  exists t, requestComments tid p = with_trace t (with_threadComments [] p).
Proof.
  unfold requestComments. destruct (clearComments_spec p) as (t & ->).
  eexists. reflexivity.
Qed.

(** An empty thread: the render is the choice of the reply control. *)
Lemma displayComments_empty (fuel : nat) (now : Z) (tid : string) (p : Page) :
  displayComments fuel now tid (Resolved []) p
  = showReplyControl (requestComments tid p).
Proof.
  unfold displayComments, commentsSettled, commentsFetched.
  destruct (requestComments_spec tid p) as (t & Ht).
  cbn [sort fold_right forEach bind List.length Nat.eqb andb].
  unfold showReplyControl. rewrite Ht.
  cbn [threadComments with_trace with_threadComments List.length Nat.eqb andb
       data_is_locked].
  destruct (attrIs (data_is_locked p) "false"); [reflexivity|].
  destruct (attrIs (data_is_locked p) "true"); reflexivity.
Qed.

(** Comments arriving on a page: the boxes of [renderRoots] are created and
    appended, and the main reply button is shown; or the render never
    returns. *)
Lemma commentsSettled_nonempty (fuel : nat) (now : Z) (cs : list Comment)
      (p : Page) :
  cs <> [] -> allocated p ->
  match renderRoots fuel (userId p) now (sort byRecency cs) with
  | Some els =>
      exists q,
        commentsSettled fuel now (Resolved cs) p
        = Done (with_threadMainReply "inline-block" q)
        /\ appended p els q
  | None => commentsSettled fuel now (Resolved cs) p = Diverges
  end.
Proof.
  intros Hcs Hp. unfold commentsSettled, commentsFetched.
  set (sorted := sort byRecency cs).
  assert (Hlen : (List.length sorted =? 0)%nat = false).
  { apply Nat.eqb_neq. unfold sorted. rewrite sort_length.
    destruct cs; [congruence|discriminate]. }
  rewrite Hlen. cbn [andb].
  assert (Hr : renders
                 (forEach
                    (fun comment index q =>
                       match parentCommentId comment with
                       | Some _ => Done q
                       | None => displayCommentRecursive fuel now 0 sorted
                                                         index Null q
                       end) sorted 0 p)
                 (renderRoots fuel (userId p) now sorted) p).
  { unfold renderRoots.
    apply (forEach_collect sorted (userId p)).
    - intros x i q Hx Hu Ha. unfold isRoot.
      destruct (parentCommentId x).
      + exists q. split; [reflexivity|apply appended_nil].
      + apply displayCommentRecursive_renders; assumption.
    - intros j x Hj. exact Hj.
    - reflexivity.
    - exact Hp. }
  unfold renders in Hr.
  destruct (renderRoots fuel (userId p) now sorted) as [els|];
    [|rewrite Hr; reflexivity].
  destruct Hr as (q & Hq & Happ).
  rewrite Hq. cbn [bind]. exists q. split; [reflexivity|exact Happ].
Qed.

(** A thread with comments: the boxes of [renderRoots] are created and
    appended to the emptied container, or the render never returns. *)
Lemma displayComments_nonempty (fuel : nat) (now : Z) (tid : string)
      (cs : list Comment) (p : Page) :
  cs <> [] ->
  match renderRoots fuel (userId p) now (sort byRecency cs) with
  | Some els =>
      exists q,
        displayComments fuel now tid (Resolved cs) p = Done q
        /\ threadComments q = seq (fresh p) (List.length els)
        /\ fresh q = (fresh p + List.length els)%nat
        /\ (forall r, (r < fresh p)%nat -> nodes q r = nodes p r)
        /\ domView q = els
        /\ replyBox q = replyBox p /\ userId q = userId p
        /\ data_is_locked q = data_is_locked p
        /\ threadMainReply q = "inline-block"
  | None => displayComments fuel now tid (Resolved cs) p = Diverges
  end.
Proof.
  intros Hcs. unfold displayComments.
  destruct (requestComments_spec tid p) as (t & Ht).
  pose proof (commentsSettled_nonempty fuel now cs (requestComments tid p) Hcs)
    as H.
  rewrite Ht in *.
  change (userId (with_trace t (with_threadComments [] p))) with (userId p) in H.
  destruct (renderRoots fuel (userId p) now (sort byRecency cs)) as [els|];
    [|apply H; constructor].
  destruct H as (q & Hq & Hc & Hf & Hn & Hm & Hrb & Hu & Hl & _);
    [constructor|].
  rewrite Hq. eexists. split; [reflexivity|].
  page_simpl. unfold domView. page_simpl.
  rewrite Hc. simpl. repeat split; try assumption.
Qed.

Lemma displayComments_empty_view (fuel : nat) (now : Z) (tid : string)
      (p : Page) :
  exists q,
    displayComments fuel now tid (Resolved []) p = Done q
    /\ replyBox q = replyBox p
    /\ data_is_locked q = data_is_locked p
    /\ threadComments q
       = (if attrIs (data_is_locked p) "false" then [replyBox p] else [])
    /\ nodes q (replyBox p)
       = (if attrIs (data_is_locked p) "false"
          then composeNew (nodes p (replyBox p))
          else nodes p (replyBox p)).
Proof.
  rewrite displayComments_empty.
  destruct (requestComments_spec tid p) as (t & ->).
  unfold showReplyControl.
  cbn [threadComments with_trace with_threadComments List.length Nat.eqb andb
       data_is_locked].
  destruct (attrIs (data_is_locked p) "false").
  - eexists. split; [reflexivity|]. split; [reflexivity|].
    split; [reflexivity|]. split; [reflexivity|].
    read_slot. reflexivity.
  - destruct (attrIs (data_is_locked p) "true");
      (eexists; split; [reflexivity|]); repeat split.
Qed.

(** ** Forests *)

Lemma distinctIds_NoDup (l : list Z) : distinctIds l = true <-> NoDup l.
Proof.
  induction l as [|x l IH]; simpl.
  - split; [constructor|reflexivity].
  - rewrite andb_true_iff, negb_true_iff, IH. split.
    + intros [Hx Hl]. constructor; [|exact Hl].
      intros Hin. apply not_true_iff_false in Hx. apply Hx.
      apply existsb_exists. exists x. split; [exact Hin|apply Z.eqb_refl].
    + intros H. inversion H as [|? ? Hx Hl]; subst. split; [|exact Hl].
      apply not_true_iff_false. intros Hex.
      apply existsb_exists in Hex. destruct Hex as (y & Hy & Hxy).
      apply Z.eqb_eq in Hxy. subst. tauto.
Qed.

Lemma lookup_In (cs : list Comment) (i : Z) (c : Comment) :
  lookup cs i = Some c -> In c cs /\ id c = i.
Proof.
  intros H. apply find_some in H. rewrite Z.eqb_eq in H. exact H.
Qed.

Lemma lookup_id (cs : list Comment) (c : Comment) :
  NoDup (map id cs) -> In c cs -> lookup cs (id c) = Some c.
Proof.
  unfold lookup. induction cs as [|a cs IH]; simpl; intros Hnd Hin; [tauto|].
  inversion Hnd as [|? ? Ha Hcs]; subst.
  destruct Hin as [->|Hin]; [rewrite Z.eqb_refl; reflexivity|].
  destruct (Z.eqb_spec (id a) (id c)) as [E|_]; [|auto].
  exfalso. apply Ha. rewrite E. apply in_map. exact Hin.
Qed.

Lemma NoDup_ids_inj (cs : list Comment) (a b : Comment) :
  NoDup (map id cs) -> In a cs -> In b cs -> id a = id b -> a = b.
Proof.
  intros Hnd Ha Hb E.
  pose proof (lookup_id cs a Hnd Ha) as H1.
  pose proof (lookup_id cs b Hnd Hb) as H2.
  rewrite E in H1. congruence.
Qed.

Lemma depth_mono (cs : list Comment) :
  forall fuel c d, depth fuel cs c = Some d -> depth (S fuel) cs c = Some d.
Proof.
  induction fuel as [|fuel IH]; intros c d; cbn [depth];
    destruct (parentCommentId c) as [i|]; try congruence.
  destruct (lookup cs i) as [parent|]; try congruence.
  destruct (depth fuel cs parent) as [d'|] eqn:E; try discriminate.
  apply IH in E. cbn [depth] in E. rewrite E. auto.
Qed.

Lemma depth_le (cs : list Comment) :
  forall fuel c d, depth fuel cs c = Some d -> (d <= fuel)%nat.
Proof.
  induction fuel as [|fuel IH]; intros c d; cbn [depth];
    destruct (parentCommentId c) as [i|]; try congruence;
    try (intros [= <-]; lia).
  destruct (lookup cs i) as [parent|]; try congruence.
  destruct (depth fuel cs parent) as [d'|] eqn:E; try discriminate.
  apply IH in E. intros [= <-]. lia.
Qed.

Section Forest.

Variable cs : list Comment.
Hypothesis Hforest : forest cs = true.

Let n := List.length cs.

Lemma forest_ids : NoDup (map id cs).
Proof.
  unfold forest in Hforest. apply andb_true_iff in Hforest.
  apply distinctIds_NoDup. tauto.
Qed.

Lemma forest_depth (c : Comment) :
  In c cs -> depth n cs c = Some (depthOf cs c).
Proof.
  intros Hin. unfold forest in Hforest. apply andb_true_iff in Hforest.
  destruct Hforest as [_ H]. rewrite forallb_forall in H. specialize (H c Hin).
  unfold depthOf. fold n in H |- *. destruct (depth n cs c); congruence.
Qed.

Lemma depthOf_le (c : Comment) : In c cs -> (depthOf cs c <= n)%nat.
Proof. intros H. apply forest_depth in H. apply depth_le in H. exact H. Qed.

Lemma depthOf_root (c : Comment) :
  In c cs -> (depthOf cs c = 0%nat <-> parentCommentId c = None).
Proof.
  intros Hin. pose proof (forest_depth c Hin) as H.
  destruct n as [|m]; cbn [depth] in H;
    destruct (parentCommentId c) as [i|]; try discriminate;
    try (injection H as <-; tauto).
  destruct (lookup cs i); try discriminate.
  destruct (depth m cs c0); try discriminate.
  injection H as <-. split; discriminate.
Qed.

(** A child is one level below its parent. *)
Lemma depthOf_child (c k : Comment) :
  In c cs -> In k cs -> parentCommentId k = Some (id c) ->
  depthOf cs k = S (depthOf cs c).
Proof.
  intros Hc Hk Hp. pose proof (forest_depth k Hk) as H.
  pose proof (forest_depth c Hc) as Hd.
  destruct n as [|m] eqn:En; cbn [depth] in H; rewrite Hp in H;
    [discriminate|].
  rewrite (lookup_id cs c forest_ids Hc) in H.
  destruct (depth m cs c) as [d|] eqn:E; [|discriminate].
  apply depth_mono in E. injection H as <-. congruence.
Qed.

Lemma up_parent (c k : Comment) :
  In c cs -> parentCommentId k = Some (id c) -> up cs k = Some c.
Proof.
  intros Hc Hp. unfold up. rewrite Hp. apply lookup_id; [apply forest_ids|exact Hc].
Qed.

(** Parents resolve. *)
Lemma up_resolves (k : Comment) (i : Z) :
  In k cs -> parentCommentId k = Some i ->
  exists c, In c cs /\ id c = i /\ up cs k = Some c.
Proof.
  intros Hk Hp. pose proof (forest_depth k Hk) as H.
  destruct n as [|m]; cbn [depth] in H; rewrite Hp in H; [discriminate|].
  destruct (lookup cs i) as [c|] eqn:E; [|discriminate].
  exists c. apply lookup_In in E as E'. unfold up. rewrite Hp.
  tauto.
Qed.

End Forest.

Lemma collect_flat_map {A : Type} (g : A -> option (list Element))
      (P : A -> bool) (h : A -> list Element) (l : list A) :
  (forall x, In x l -> g x = if P x then Some (h x) else Some []) ->
  collect g l = Some (flat_map h (filter P l)).
Proof.
  induction l as [|x l IH]; intros H; [reflexivity|].
  cbn [collect filter]. rewrite (H x) by (left; reflexivity).
  rewrite IH by (intros y Hy; apply H; right; exact Hy).
  destruct (P x); reflexivity.
Qed.

Lemma filter_none {A : Type} (l : list A) : filter (fun _ => false) l = [].
Proof. induction l; auto. Qed.

Lemma map_flat_map {A B C : Type} (f : B -> C) (g : A -> list B) (l : list A) :
  map f (flat_map g l) = flat_map (fun x => map f (g x)) l.
Proof.
  induction l as [|x l IH]; simpl; [reflexivity|].
  rewrite map_app, IH. reflexivity.
Qed.

Lemma hasParent_Some (i : Z) (k : Comment) :
  hasParent (Some i) k = true <-> parentCommentId k = Some i.
Proof.
  unfold hasParent. destruct (parentCommentId k) as [j|].
  - rewrite Z.eqb_eq. split; congruence.
  - split; discriminate.
Qed.

Lemma hasParent_None (k : Comment) :
  hasParent None k = true <-> parentCommentId k = None.
Proof.
  unfold hasParent. destruct (parentCommentId k); split; congruence.
Qed.

Section ForestRender.

Variable cs : list Comment.
Hypothesis Hforest : forest cs = true.
Variables (uid : option string) (now : Z).

Let n := List.length cs.

Lemma descendants_In :
  forall fuel c k,
    In c cs -> In k (descendants fuel cs c) ->
    In k cs /\ (depthOf cs c < depthOf cs k)%nat.
Proof.
  induction fuel as [|fuel IH]; intros c k Hc Hk; [destruct Hk|].
  cbn [descendants] in Hk. apply in_flat_map in Hk.
  destruct Hk as (x & Hx & Hk). apply filter_In in Hx.
  destruct Hx as [Hx Hp]. apply hasParent_Some in Hp.
  pose proof (depthOf_child cs Hforest c x Hc Hx Hp) as Hd.
  destruct Hk as [<-|Hk]; [split; [assumption|lia]|].
  destruct (IH x k Hx Hk). split; [assumption|lia].
Qed.

Lemma renderTree_forest :
  forall fuel c,
    In c cs -> (n - depthOf cs c <= fuel)%nat ->
    renderTree (S fuel) uid now cs (Z.of_nat (depthOf cs c)) c (parentValue c)
    = Some (map (boxIn uid now cs) (c :: descendants fuel cs c)).
Proof.
  induction fuel as [|fuel IH]; intros c Hc Hfuel; cbn [renderTree].
  - rewrite (collect_flat_map _ (fun _ => false) (fun _ => [])).
    + rewrite filter_none. reflexivity.
    + intros x Hx. unfold isChildOf.
      destruct (parentCommentId x) as [i|] eqn:Hp; [|reflexivity].
      destruct (Z.eqb_spec i (id c)) as [->|_]; [|reflexivity].
      pose proof (depthOf_child cs Hforest c x Hc Hx Hp).
      pose proof (depthOf_le cs Hforest x Hx). unfold n in *. lia.
  - rewrite (collect_flat_map
               _ (hasParent (Some (id c)))
               (fun k => map (boxIn uid now cs) (k :: descendants fuel cs k))).
    + cbn [option_map map descendants]. rewrite map_flat_map. reflexivity.
    + intros x Hx.
      change (isChildOf c x) with (hasParent (Some (id c)) x).
      destruct (hasParent (Some (id c)) x) eqn:Hp; [|reflexivity].
      apply hasParent_Some in Hp.
      pose proof (depthOf_child cs Hforest c x Hc Hx Hp) as Hd.
      pose proof (depthOf_le cs Hforest x Hx) as Hle. unfold n in *.
      replace (Z.of_nat (depthOf cs c) + 1) with (Z.of_nat (depthOf cs x))
        by lia.
      replace (Num (id c)) with (parentValue x)
        by (unfold parentValue; rewrite Hp; reflexivity).
      apply IH; [exact Hx|lia].
Qed.

Lemma renderRoots_forest :
  renderRoots (S n) uid now cs = Some (map (boxIn uid now cs) (preorder cs)).
Proof.
  unfold renderRoots, preorder.
  rewrite (collect_flat_map
             _ (hasParent None)
             (fun k => map (boxIn uid now cs) (k :: descendants n cs k))).
  - rewrite map_flat_map. reflexivity.
  - intros x Hx. change (isRoot x) with (hasParent None x).
    destruct (hasParent None x) eqn:Hp; [|reflexivity].
    apply hasParent_None in Hp.
    pose proof (proj2 (depthOf_root cs Hforest x Hx) Hp) as Hd.
    replace 0 with (Z.of_nat (depthOf cs x)) by lia.
    replace Null with (parentValue x)
      by (unfold parentValue; rewrite Hp; reflexivity).
    apply renderTree_forest; [exact Hx|lia].
Qed.

Lemma preorder_In (k : Comment) : In k (preorder cs) -> In k cs.
Proof.
  unfold preorder. rewrite in_flat_map. intros (x & Hx & Hk).
  apply filter_In in Hx. destruct Hx as [Hx _].
  destruct Hk as [<-|Hk]; [exact Hx|].
  eapply descendants_In; eassumption.
Qed.

End ForestRender.

(** ** The order of siblings in a rendered forest *)

Lemma filter_flat_map {A B : Type} (P : B -> bool) (g : A -> list B)
      (l : list A) :
  filter P (flat_map g l) = flat_map (fun x => filter P (g x)) l.
Proof.
  induction l as [|x l IH]; simpl; [reflexivity|].
  rewrite filter_app, IH. reflexivity.
Qed.

Lemma flat_map_nil {A B : Type} (g : A -> list B) (l : list A) :
  (forall x, In x l -> g x = []) -> flat_map g l = [].
Proof.
  induction l as [|x l IH]; simpl; intros H; [reflexivity|].
  rewrite H by auto. apply IH. auto.
Qed.

Lemma flat_map_single {A B : Type} (g : A -> list B) (l : list A) (a : A) :
  NoDup l -> In a l -> (forall x, In x l -> x <> a -> g x = []) ->
  flat_map g l = g a.
Proof.
  induction l as [|x l IH]; simpl; intros Hnd Hin H; [tauto|].
  inversion Hnd as [|? ? Hx Hl]; subst.
  destruct Hin as [->|Hin].
  - rewrite flat_map_nil; [apply app_nil_r|].
    intros y Hy. apply H; [auto|]. intros ->. tauto.
  - rewrite (H x) by (auto; intros ->; tauto). apply IH; auto.
Qed.

Lemma flat_map_singleton {A : Type} (l : list A) :
  flat_map (fun x => [x]) l = l.
Proof. induction l; simpl; congruence. Qed.

Lemma filter_nothing {A : Type} (P : A -> bool) (l : list A) :
  (forall x, In x l -> P x = false) -> filter P l = [].
Proof.
  induction l as [|x l IH]; simpl; intros H; [reflexivity|].
  rewrite H by auto. apply IH. auto.
Qed.

Section Ancestors.

Variable cs : list Comment.
Hypothesis Hforest : forest cs = true.

Let n := List.length cs.

Lemma up_In (t a : Comment) :
  In t cs -> up cs t = Some a ->
  In a cs /\ parentCommentId t = Some (id a)
  /\ depthOf cs t = S (depthOf cs a).
Proof.
  intros Ht Hup. unfold up in Hup.
  destruct (parentCommentId t) as [i|] eqn:Hp; [|discriminate].
  apply lookup_In in Hup. destruct Hup as [Ha <-].
  repeat split; try assumption.
  apply (depthOf_child cs Hforest a t); assumption.
Qed.

Lemma ancestorAt_In :
  forall j t a,
    In t cs -> ancestorAt cs j t = Some a ->
    In a cs /\ (depthOf cs a + j = depthOf cs t)%nat.
Proof.
  induction j as [|j IH]; intros t a Ht H; cbn [ancestorAt] in H.
  - injection H as <-. split; [assumption|lia].
  - destruct (up cs t) as [p|] eqn:Hup; [|discriminate].
    destruct (up_In t p Ht Hup) as (Hp & _ & Hd).
    destruct (IH p a Hp H). split; [assumption|lia].
Qed.

Lemma ancestorAt_exists :
  forall j t, In t cs -> (j <= depthOf cs t)%nat ->
              exists a, ancestorAt cs j t = Some a.
Proof.
  induction j as [|j IH]; intros t Ht Hj; cbn [ancestorAt]; [eauto|].
  destruct (parentCommentId t) as [i|] eqn:Hp.
  - destruct (up_resolves cs Hforest t i Ht Hp) as (c & Hc & Hi & Hup).
    rewrite Hup. destruct (up_In t c Ht Hup) as (_ & _ & Hd).
    apply IH; [assumption|lia].
  - apply (depthOf_root cs Hforest t Ht) in Hp. lia.
Qed.

Lemma ancestorAt_up :
  forall j t,
    ancestorAt cs (S j) t
    = match ancestorAt cs j t with
      | Some a => up cs a
      | None => None
      end.
Proof.
  induction j as [|j IH]; intros t.
  - cbn [ancestorAt]. destruct (up cs t); reflexivity.
  - assert (Hstep : forall m, ancestorAt cs (S m) t
                              = match up cs t with
                                | Some p => ancestorAt cs m p
                                | None => None
                                end) by reflexivity.
    rewrite (Hstep (S j)), (Hstep j).
    destruct (up cs t) as [p|]; [apply IH|reflexivity].
Qed.

Lemma above_spec (c t : Comment) :
  In c cs -> In t cs ->
  (above cs c t = true <->
   (depthOf cs c <= depthOf cs t)%nat
   /\ ancestorAt cs (depthOf cs t - depthOf cs c) t = Some c).
Proof.
  intros Hc Ht. unfold above. rewrite andb_true_iff, Nat.leb_le.
  destruct (ancestorAt cs (depthOf cs t - depthOf cs c) t) as [a|] eqn:E.
  - destruct (ancestorAt_In _ _ _ Ht E) as [Ha _].
    rewrite Z.eqb_eq. split; intros [H1 H2]; split; try assumption.
    + f_equal. apply (NoDup_ids_inj cs); try assumption.
      apply forest_ids, Hforest.
    + congruence.
  - split; intros [_ H]; discriminate.
Qed.

Lemma above_refl (t : Comment) : In t cs -> above cs t t = true.
Proof.
  intros Ht. apply above_spec; try assumption.
  rewrite Nat.sub_diag. split; [lia|reflexivity].
Qed.

Lemma forest_NoDup : NoDup cs.
Proof. apply (NoDup_map_inv id), forest_ids, Hforest. Qed.

End Ancestors.

Lemma flat_map_ext_on {A B : Type} (f g : A -> list B) (l : list A) :
  (forall x, In x l -> f x = g x) -> flat_map f l = flat_map g l.
Proof.
  induction l as [|x l IH]; simpl; intros H; [reflexivity|].
  rewrite H, IH; auto.
Qed.

Section Siblings.

Variable cs : list Comment.
Hypothesis Hforest : forest cs = true.

Let n := List.length cs.

Lemma kids_deep (t : Comment) :
  In t cs -> (n <= depthOf cs t)%nat ->
  filter (hasParent (Some (id t))) cs = [].
Proof.
  intros Ht Hd. apply filter_nothing. intros x Hx.
  apply not_true_iff_false. rewrite hasParent_Some. intros Hp.
  pose proof (depthOf_child cs Hforest t x Ht Hx Hp).
  pose proof (depthOf_le cs Hforest x Hx). unfold n in *. lia.
Qed.

Lemma kids_In (c k : Comment) :
  In c cs -> In k (filter (hasParent (Some (id c))) cs) ->
  In k cs /\ parentCommentId k = Some (id c)
  /\ depthOf cs k = S (depthOf cs c).
Proof.
  intros Hc Hk. apply filter_In in Hk. destruct Hk as [Hk Hp].
  apply hasParent_Some in Hp. repeat split; try assumption.
  apply (depthOf_child cs Hforest c k); assumption.
Qed.

(** Below [c], the comments whose parent is [t] are the children of [t]
    in list order when [t] is [c] or below it, and there are none
    otherwise. *)
Lemma descendants_filter :
  forall fuel c t,
    In c cs -> In t cs -> (n - depthOf cs c <= fuel)%nat ->
    filter (hasParent (Some (id t))) (descendants fuel cs c)
    = if above cs c t then filter (hasParent (Some (id t))) cs else [].
Proof.
  induction fuel as [|fuel IH]; intros c t Hc Ht Hfuel.
  - simpl. destruct (above cs c t) eqn:Hab; [|reflexivity].
    apply above_spec in Hab as [Hle _]; try assumption.
    symmetry. apply kids_deep; [exact Ht|lia].
  - cbn [descendants]. rewrite filter_flat_map.
    set (kidsc := filter (hasParent (Some (id c))) cs).
    set (kidst := filter (hasParent (Some (id t))) cs).
    rewrite (flat_map_ext_on
               _ (fun k => if hasParent (Some (id t)) k
                           then k :: (if above cs k t then kidst else [])
                           else (if above cs k t then kidst else []))).
    2:{ intros k Hkin. destruct (kids_In c k Hc Hkin) as (Hkcs & Hp & Hd).
        cbn [filter]. rewrite (IH k t) by (auto; lia). reflexivity. }
    destruct (Z.eqb_spec (id c) (id t)) as [E|NE].
    + assert (c = t)
        by (apply (NoDup_ids_inj cs); auto; apply forest_ids, Hforest).
      subst t. rewrite above_refl by assumption.
      rewrite (flat_map_ext_on _ (fun k => [k])); [apply flat_map_singleton|].
      intros k Hkin. destruct (kids_In c k Hc Hkin) as (Hkcs & Hp & Hd).
      rewrite (proj2 (hasParent_Some _ _) Hp).
      assert (Hnot : above cs k c = false).
      { apply not_true_iff_false. intros Hab.
        apply above_spec in Hab; auto. lia. }
      rewrite Hnot. reflexivity.
    + rewrite (flat_map_ext_on
                 _ (fun k => if above cs k t then kidst else [])).
      2:{ intros k Hkin. destruct (kids_In c k Hc Hkin) as (Hkcs & Hp & Hd).
          assert (HP : hasParent (Some (id t)) k = false).
          { apply not_true_iff_false. rewrite hasParent_Some, Hp. congruence. }
          rewrite HP. reflexivity. }
      destruct (above cs c t) eqn:Hab.
      * apply above_spec in Hab as [Hle Hanc]; auto.
        assert (Hlt : (depthOf cs c < depthOf cs t)%nat).
        { destruct (Nat.eq_dec (depthOf cs c) (depthOf cs t)) as [e|]; [|lia].
          rewrite e, Nat.sub_diag in Hanc. simpl in Hanc.
          injection Hanc as <-. congruence. }
        destruct (depthOf cs t - depthOf cs c)%nat as [|j] eqn:Ej; [lia|].
        rewrite ancestorAt_up in Hanc.
        destruct (ancestorAt_exists cs Hforest j t Ht) as [a Ha]; [lia|].
        rewrite Ha in Hanc.
        destruct (ancestorAt_In cs Hforest _ _ _ Ht Ha) as [Hacs Had].
        destruct (up_In cs Hforest a c Hacs Hanc) as (_ & Hpa & Hda).
        assert (Hakids : In a kidsc).
        { apply filter_In. split; auto. apply hasParent_Some; auto. }
        rewrite (flat_map_single _ kidsc a).
        -- assert (Haa : above cs a t = true).
           { apply above_spec; auto. split; [lia|].
             replace (depthOf cs t - depthOf cs a)%nat with j by lia.
             exact Ha. }
           rewrite Haa. reflexivity.
        -- apply NoDup_filter, forest_NoDup; auto.
        -- exact Hakids.
        -- intros k Hkin Hka.
           destruct (kids_In c k Hc Hkin) as (Hkcs & Hp & Hd).
           destruct (above cs k t) eqn:Habk; [|reflexivity].
           apply above_spec in Habk as [Hle' Hanc']; auto.
           replace (depthOf cs t - depthOf cs k)%nat with j in Hanc' by lia.
           congruence.
      * apply flat_map_nil. intros k Hkin.
        destruct (kids_In c k Hc Hkin) as (Hkcs & Hp & Hd).
        destruct (above cs k t) eqn:Habk; [|reflexivity].
        exfalso. apply not_true_iff_false in Hab. apply Hab.
        apply above_spec in Habk as [Hle' Hanc']; auto.
        apply above_spec; auto. split; [lia|].
        replace (depthOf cs t - depthOf cs c)%nat
          with (S (depthOf cs t - depthOf cs k)) by lia.
        rewrite ancestorAt_up, Hanc'. apply up_parent; auto.
Qed.

End Siblings.

Section PreorderOrder.

Variable cs : list Comment.
Hypothesis Hforest : forest cs = true.

(** In the rendering order the comments that share a parent -- the roots
    among them -- stand as they stand in the list. *)
Lemma preorder_siblings (q : option Z) :
  filter (hasParent q) (preorder cs) = filter (hasParent q) cs.
Proof.
  unfold preorder. rewrite filter_flat_map.
  set (roots := filter (hasParent None) cs).
  assert (Hroot : forall r, In r roots ->
                            In r cs /\ parentCommentId r = None
                            /\ depthOf cs r = 0%nat).
  { intros r Hr. apply filter_In in Hr. destruct Hr as [Hr Hp].
    apply hasParent_None in Hp. repeat split; try assumption.
    apply (depthOf_root cs Hforest r Hr). exact Hp. }
  destruct q as [i|].
  - destruct (lookup cs i) as [t|] eqn:Ht.
    + apply lookup_In in Ht. destruct Ht as [Ht <-].
      rewrite (flat_map_ext_on
                 _ (fun r => if above cs r t
                             then filter (hasParent (Some (id t))) cs
                             else [])).
      2:{ intros r Hr. destruct (Hroot r Hr) as (Hrcs & Hp & Hd).
          cbn [filter].
          assert (HP : hasParent (Some (id t)) r = false).
          { apply not_true_iff_false. rewrite hasParent_Some. congruence. }
          rewrite HP. apply descendants_filter; auto. lia. }
      destruct (ancestorAt_exists cs Hforest (depthOf cs t) t Ht) as [a Ha];
        [lia|].
      destruct (ancestorAt_In cs Hforest _ _ _ Ht Ha) as [Hacs Had].
      assert (Hda : depthOf cs a = 0%nat) by lia.
      assert (Haroot : In a roots).
      { apply filter_In. split; [assumption|]. apply hasParent_None.
        apply (depthOf_root cs Hforest a Hacs). exact Hda. }
      rewrite (flat_map_single _ roots a).
      * assert (Haa : above cs a t = true).
        { apply above_spec; auto. split; [lia|].
          rewrite Hda, Nat.sub_0_r. exact Ha. }
        rewrite Haa. reflexivity.
      * apply NoDup_filter, forest_NoDup; auto.
      * exact Haroot.
      * intros r Hr Hra. destruct (Hroot r Hr) as (Hrcs & Hp & Hd).
        destruct (above cs r t) eqn:Hab; [|reflexivity].
        apply above_spec in Hab as [_ Hanc]; auto.
        rewrite Hd, Nat.sub_0_r in Hanc. congruence.
    + (* no comment has this id, so none has it as parent *)
      assert (Hnone : forall k, In k cs -> hasParent (Some i) k = false).
      { intros k Hk. apply not_true_iff_false. rewrite hasParent_Some.
        intros Hp.
        destruct (up_resolves cs Hforest k i Hk Hp) as (c & Hc & Hi & _).
        subst i. rewrite (lookup_id cs c) in Ht; [discriminate| |assumption].
        apply forest_ids, Hforest. }
      rewrite (filter_nothing _ cs Hnone).
      apply flat_map_nil. intros r Hr. apply filter_nothing.
      intros k Hk. apply Hnone.
      destruct (Hroot r Hr) as (Hrcs & _).
      destruct Hk as [<-|Hk]; [assumption|].
      eapply descendants_In; eassumption.
  - rewrite (flat_map_ext_on _ (fun r => [r])); [apply flat_map_singleton|].
    intros r Hr. destruct (Hroot r Hr) as (Hrcs & Hp & Hd).
    cbn [filter]. rewrite (proj2 (hasParent_None r) Hp). f_equal.
    apply filter_nothing. intros k Hk.
    destruct (descendants_In cs Hforest _ _ _ Hrcs Hk) as [Hkcs Hlt].
    apply not_true_iff_false. rewrite hasParent_None. intros Hpk.
    apply (depthOf_root cs Hforest k Hkcs) in Hpk. lia.
Qed.

(** Every comment of a forest is rendered. *)
Lemma preorder_complete (c : Comment) : In c cs -> In c (preorder cs).
Proof.
  intros Hc.
  assert (H : In c (filter (hasParent (parentCommentId c)) (preorder cs))).
  { rewrite preorder_siblings. apply filter_In. split; [exact Hc|].
    unfold hasParent. destruct (parentCommentId c); [apply Z.eqb_refl|reflexivity]. }
  apply filter_In in H. tauto.
Qed.

End PreorderOrder.

(** ** The sorted list *)

Lemma insert_sorted (a : Comment) (l : list Comment) :
  Sorted newerFirst l -> Sorted newerFirst (insert byRecency a l).
Proof.
  induction l as [|x l IH]; intros Hs; simpl.
  - constructor; constructor.
  - unfold byRecency at 1.
    destruct (Z.leb_spec (createdAt x - createdAt a) 0) as [Hle|Hgt].
    + constructor; [exact Hs|]. constructor. unfold newerFirst. lia.
    + inversion Hs as [|? ? Hl Hhd]; subst. constructor; [apply IH, Hl|].
      destruct l as [|y l]; simpl.
      * constructor. unfold newerFirst. lia.
      * unfold byRecency at 1.
        destruct (createdAt y - createdAt a <=? 0).
        -- constructor. unfold newerFirst. lia.
        -- inversion Hhd; subst. constructor. assumption.
Qed.

Lemma sort_sorted (l : list Comment) :
  StronglySorted newerFirst (sort byRecency l).
Proof.
  apply Sorted_StronglySorted.
  - intros a b c. unfold newerFirst. lia.
  - induction l as [|x l IH]; simpl; [constructor|].
    apply insert_sorted, IH.
Qed.

(** The sort is stable: comments created at the same time keep the order
    of the input. *)
Lemma insert_stable (t : Z) (a : Comment) (l : list Comment) :
  filter (createdAtIs t) (insert byRecency a l)
  = filter (createdAtIs t) (a :: l).
Proof.
  induction l as [|x l IH]; [reflexivity|].
  cbn [insert]. unfold byRecency at 1.
  destruct (Z.leb_spec (createdAt x - createdAt a) 0) as [Hle|Hgt];
    [reflexivity|].
  cbn [filter] in *. rewrite IH. unfold createdAtIs.
  destruct (Z.eqb_spec (createdAt a) t) as [Ha|Ha];
    destruct (Z.eqb_spec (createdAt x) t) as [Hx|Hx];
    try reflexivity.
  lia.
Qed.

Lemma sort_stable (t : Z) (l : list Comment) :
  filter (createdAtIs t) (sort byRecency l) = filter (createdAtIs t) l.
Proof.
  induction l as [|x l IH]; [reflexivity|].
  cbn [sort fold_right]. fold (sort byRecency l).
  rewrite insert_stable. cbn [filter]. rewrite IH. reflexivity.
Qed.

(** Forests up to the order of the list. *)
Lemma lookup_perm (l l' : list Comment) (i : Z) :
  Permutation l l' -> NoDup (map id l) -> lookup l i = lookup l' i.
Proof.
  intros Hp Hnd.
  assert (Hnd' : NoDup (map id l')).
  { eapply Permutation_NoDup; [|exact Hnd]. apply Permutation_map, Hp. }
  destruct (lookup l i) as [c|] eqn:E.
  - apply lookup_In in E. destruct E as [Hc <-].
    symmetry. apply lookup_id; [exact Hnd'|].
    eapply Permutation_in; eassumption.
  - destruct (lookup l' i) as [c|] eqn:E'; [|reflexivity].
    apply lookup_In in E'. destruct E' as [Hc <-].
    rewrite (lookup_id l c) in E; [discriminate|exact Hnd|].
    eapply Permutation_in; [apply Permutation_sym|]; eassumption.
Qed.

Lemma depth_perm (l l' : list Comment) :
  Permutation l l' -> NoDup (map id l) ->
  forall fuel c, depth fuel l c = depth fuel l' c.
Proof.
  intros Hp Hnd. induction fuel as [|fuel IH]; intros c; cbn [depth];
    destruct (parentCommentId c) as [i|]; try reflexivity.
  rewrite (lookup_perm l l' i Hp Hnd).
  destruct (lookup l' i); [rewrite IH|]; reflexivity.
Qed.

Lemma forest_perm (l l' : list Comment) :
  Permutation l l' -> forest l = true -> forest l' = true.
Proof.
  intros Hp Hf. pose proof (forest_ids l Hf) as Hnd.
  unfold forest in *. apply andb_true_iff in Hf. destruct Hf as [_ Hd].
  apply andb_true_iff. split.
  - apply distinctIds_NoDup. eapply Permutation_NoDup; [|exact Hnd].
    apply Permutation_map, Hp.
  - rewrite forallb_forall in *. intros c Hc.
    rewrite <- (Permutation_length Hp), <- (depth_perm l l' Hp Hnd).
    apply Hd. eapply Permutation_in; [apply Permutation_sym|]; eassumption.
Qed.

Lemma depthOf_perm (l l' : list Comment) (c : Comment) :
  Permutation l l' -> NoDup (map id l) -> depthOf l c = depthOf l' c.
Proof.
  intros Hp Hnd. unfold depthOf.
  rewrite <- (Permutation_length Hp), <- (depth_perm l l' Hp Hnd).
  reflexivity.
Qed.

(** ** Rendering a forest *)

Lemma filter_map_comm {A B : Type} (P : B -> bool) (f : A -> B) (l : list A) :
  filter P (map f l) = map f (filter (fun x => P (f x)) l).
Proof.
  induction l as [|x l IH]; simpl; [reflexivity|].
  rewrite IH. destruct (P (f x)); reflexivity.
Qed.

(** ** The render returns when the ids are distinct *)

Section Termination.

Variable cs : list Comment.
Hypothesis Hids : NoDup (map id cs).

(** Along a path to a root every comment has a depth, the first one the
    largest. *)
Lemma chain_depth (path : list Comment) :
  chain path = true -> incl path cs ->
  (forall c, In c path ->
             exists d, depth (List.length path) cs c = Some d
                       /\ (d < List.length path)%nat)
  /\ match path with
     | [] => True
     | c :: rest => depth (List.length path) cs c = Some (List.length rest)
     end.
Proof.
  induction path as [|c rest IH]; intros Hch Hin.
  - split; [intros c []|exact I].
  - cbn [chain] in Hch. apply andb_true_iff in Hch as [Hc Hrest].
    assert (Hin' : incl rest cs) by (intros x Hx; apply Hin; right; exact Hx).
    destruct (IH Hrest Hin') as [IHall IHhd].
    assert (Hhd : depth (List.length (c :: rest)) cs c
                  = Some (List.length rest)).
    { destruct rest as [|d rest'].
      - unfold isRoot in Hc. cbn [List.length depth].
        destruct (parentCommentId c); [discriminate|reflexivity].
      - unfold isChildOf in Hc. cbn [List.length depth] in *.
        destruct (parentCommentId c) as [i|]; [|discriminate].
        apply Z.eqb_eq in Hc. subst i.
        rewrite (lookup_id cs d Hids) by (apply Hin'; left; reflexivity).
        cbn [List.length] in IHhd. rewrite IHhd. reflexivity. }
    split; [|exact Hhd].
    intros x [<-|Hx].
    + exists (List.length rest). split; [exact Hhd|simpl; lia].
    + destruct (IHall x Hx) as (d & Hd & Hlt).
      exists d. split; [apply depth_mono; exact Hd|simpl; lia].
Qed.

Lemma chain_NoDup (path : list Comment) :
  chain path = true -> incl path cs -> NoDup path.
Proof.
  induction path as [|c rest IH]; intros Hch Hin; [constructor|].
  destruct (chain_depth (c :: rest) Hch Hin) as [_ Hhd].
  cbn [chain] in Hch. apply andb_true_iff in Hch as [_ Hrest].
  assert (Hin' : incl rest cs) by (intros x Hx; apply Hin; right; exact Hx).
  constructor; [|apply IH; assumption].
  intros Hc. destruct (chain_depth rest Hrest Hin') as [Hall _].
  destruct (Hall c Hc) as (d & Hd & Hlt).
  apply depth_mono in Hd. cbn [List.length] in Hhd.
  rewrite Hhd in Hd. injection Hd as <-. lia.
Qed.

(** No path to a root is longer than the list. *)
Lemma chain_length (path : list Comment) :
  chain path = true -> incl path cs ->
  (List.length path <= List.length cs)%nat.
Proof.
  intros Hch Hin. apply NoDup_incl_length; [|exact Hin].
  apply chain_NoDup; assumption.
Qed.

Lemma collect_returns {A : Type} (f : A -> option (list Element))
      (l : list A) :
  (forall x, In x l -> f x <> None) -> collect f l <> None.
Proof.
  induction l as [|x l IH]; intros H; cbn [collect]; [discriminate|].
  pose proof (H x (or_introl eq_refl)) as Hx.
  destruct (f x) as [a|]; [|congruence].
  assert (Hl : collect f l <> None)
    by (apply IH; intros y Hy; apply H; right; exact Hy).
  destruct (collect f l); [discriminate|congruence].
Qed.

(** The recursion goes down a path that cannot pass twice through one
    comment: as many levels as there are comments are enough. *)
Lemma renderTree_returns (uid : option string) (now : Z) :
  forall fuel path c indentLevel parent,
    chain (c :: path) = true -> incl (c :: path) cs ->
    (List.length cs < fuel + List.length (c :: path))%nat ->
    renderTree fuel uid now cs indentLevel c parent <> None.
Proof.
  induction fuel as [|fuel IH]; intros path c indentLevel parent Hch Hin Hlen.
  - pose proof (chain_length _ Hch Hin). lia.
  - cbn [renderTree].
    assert (Hk : collect
                   (fun k =>
                      if isChildOf c k
                      then renderTree fuel uid now cs (indentLevel + 1) k
                                      (Num (id c))
                      else Some []) cs <> None).
    { apply collect_returns. intros k Hk.
      destruct (isChildOf c k) eqn:E; [|discriminate].
      apply (IH (c :: path)).
      - change (chain (k :: c :: path))
          with (isChildOf c k && chain (c :: path)).
        rewrite E, Hch. reflexivity.
      - intros x [<-|Hx]; [exact Hk|apply Hin; exact Hx].
      - cbn [List.length] in *. lia. }
    destruct (collect _ cs); [discriminate|congruence].
Qed.

Lemma renderRoots_returns (uid : option string) (now : Z) (fuel : nat) :
  (List.length cs <= fuel)%nat -> renderRoots fuel uid now cs <> None.
Proof.
  intros Hlen. unfold renderRoots. apply collect_returns. intros k Hk.
  destruct (isRoot k) eqn:E; [|discriminate].
  apply (renderTree_returns uid now fuel []).
  - cbn [chain]. rewrite E. reflexivity.
  - intros x [<-|[]]. exact Hk.
  - cbn [List.length]. lia.
Qed.

End Termination.

(** The render of a list with distinct ids returns. *)
Lemma displayComments_returns (fuel : nat) (now : Z) (tid : string)
      (cs : list Comment) (p : Page) :
  distinctIds (map id cs) = true -> (List.length cs <= fuel)%nat ->
  exists q, displayComments fuel now tid (Resolved cs) p = Done q.
Proof.
  intros Hd Hlen. destruct cs as [|c cs].
  - destruct (displayComments_empty_view fuel now tid p) as (q & Hq & _).
    exists q. exact Hq.
  - set (l := c :: cs) in *.
    pose proof (displayComments_nonempty fuel now tid l p) as H.
    assert (Hr : renderRoots fuel (userId p) now (sort byRecency l) <> None).
    { apply renderRoots_returns; [|rewrite sort_length; exact Hlen].
      apply (Permutation_NoDup
               (Permutation_map id (Permutation_sym (sort_perm byRecency l)))).
      apply distinctIds_NoDup. exact Hd. }
    destruct (renderRoots fuel (userId p) now (sort byRecency l));
      [|congruence].
    destruct H as (q & Hq & _); [discriminate|]. exists q. exact Hq.
Qed.

(** C8: the render of a list with distinct ids returns, and whenever a
    render returns, rendering the same list again, the container being
    emptied first each time, gives the same sequence of elements: as many
    nodes, at the same indent, with the same content. *)
Theorem C8_render_twice (fuel : nat) (now : Z) (tid : string)
        (cs : list Comment) (p : Page) :
  (distinctIds (map id cs) = true -> (List.length cs <= fuel)%nat ->
   exists q, displayComments fuel now tid (Resolved cs) p = Done q)
  /\ (forall q,
        displayComments fuel now tid (Resolved cs) p = Done q ->
        exists q',
          displayComments fuel now tid (Resolved cs) q = Done q'
          /\ domView q' = domView q
          /\ List.length (threadComments q') = List.length (threadComments q)
          /\ map (indentOf q') (threadComments q')
             = map (indentOf q) (threadComments q)).
Proof.
  split; [apply displayComments_returns|].
  intros q Hq.
  assert (Hview : exists q',
             displayComments fuel now tid (Resolved cs) q = Done q'
             /\ domView q' = domView q).
  { destruct cs as [|c cs].
    - destruct (displayComments_empty_view fuel now tid p)
        as (q0 & Hq0 & Hrb & Hl & Hc & Hn).
      rewrite Hq0 in Hq. injection Hq as <-.
      destruct (displayComments_empty_view fuel now tid q0)
        as (q' & Hq' & Hrb' & Hl' & Hc' & Hn').
      exists q'. split; [exact Hq'|].
      unfold domView. rewrite Hc', Hc, Hl, Hrb.
      destruct (attrIs (data_is_locked p) "false"); [|reflexivity].
      simpl. rewrite Hrb, Hl in Hn'. rewrite Hn', Hn.
      destruct (attrIs (data_is_locked p) "false"); reflexivity.
    - pose proof (displayComments_nonempty fuel now tid (c :: cs) p) as H1.
      destruct (renderRoots fuel (userId p) now (sort byRecency (c :: cs)))
        as [els|] eqn:E; [|rewrite H1 in Hq; discriminate].
      destruct H1 as (q0 & Hq0 & _ & _ & _ & Hv & _ & Hu & _);
        [discriminate|].
      rewrite Hq0 in Hq. injection Hq as <-.
      pose proof (displayComments_nonempty fuel now tid (c :: cs) q0) as H2.
      rewrite Hu, E in H2.
      destruct H2 as (q' & Hq' & _ & _ & _ & Hv' & _); [discriminate|].
      exists q'. split; [exact Hq'|]. congruence. }
  destruct Hview as (q' & Hq' & Hv). exists q'.
  split; [exact Hq'|]. split; [exact Hv|].
  unfold domView in Hv. split.
  - apply (f_equal (@List.length _)) in Hv. rewrite !length_map in Hv. exact Hv.
  - apply (f_equal (map (fun e => parseInt (slice_0_m2 (style_marginLeft e))))) in Hv.
    rewrite !map_map in Hv. exact Hv.
Qed.

Lemma C8_render_twice_witness :
  (exists q,
     displayComments 7 1000 "1" (Resolved sampleComments) (initialPage "false")
     = Done q)
  /\ exists q',
      displayComments 7 1000 "1" (Resolved sampleComments) samplePage = Done q'
      /\ domView q' = domView samplePage
      /\ List.length (threadComments q')
         = List.length (threadComments samplePage)
      /\ map (indentOf q') (threadComments q')
         = map (indentOf samplePage) (threadComments samplePage).
Proof.
  destruct (C8_render_twice 7 1000 "1" sampleComments (initialPage "false"))
    as [Hreturns Hagain].
  split.
  - apply Hreturns; [reflexivity|simpl; lia].
  - apply Hagain. reflexivity.
Defined.

(** The render of a forest returns, and the container then holds the boxes
    of its comments in rendering order. *)
Lemma displayComments_forest (now : Z) (tid : string) (cs : list Comment)
      (p : Page) :
  forest cs = true -> (replyBox p < fresh p)%nat ->
  exists q,
    displayComments (S (List.length cs)) now tid (Resolved cs) p = Done q
    /\ renderedComments q
       = map (boxIn (userId p) now (sort byRecency cs))
             (preorder (sort byRecency cs)).
Proof.
  intros Hf Hrb.
  destruct cs as [|c cs].
  - destruct (displayComments_empty_view 1 now tid p)
      as (q & Hq & Hr & _ & Hc & _).
    exists q. split; [exact Hq|]. unfold renderedComments.
    rewrite Hc, Hr. destruct (attrIs (data_is_locked p) "false"); simpl;
      rewrite ?Nat.eqb_refl; reflexivity.
  - set (l := c :: cs) in *.
    pose proof (sort_perm byRecency l) as Hperm.
    assert (Hfs : forest (sort byRecency l) = true)
      by (apply (forest_perm l); [apply Permutation_sym, Hperm|exact Hf]).
    pose proof (displayComments_nonempty (S (List.length l)) now tid l p) as H.
    pose proof (renderRoots_forest _ Hfs (userId p) now) as Hrr.
    rewrite sort_length in Hrr. rewrite Hrr in H.
    destruct H as (q & Hq & Hc & _ & _ & Hv & Hr & _); [discriminate|].
    exists q. split; [exact Hq|].
    rewrite <- Hv. unfold renderedComments, domView. f_equal.
    rewrite Hc, Hr. apply forallb_filter_id, forallb_forall.
    intros r Hin. apply in_seq in Hin. apply negb_true_iff, Nat.eqb_neq. lia.
Qed.

(** C2: in the render of a forest every comment node sits at the depth of
    its comment along the [parentCommentId] chain -- 0 for a comment
    without parent, one more than its parent for a child -- written as a
    left margin of 10 pixels per level; and every comment has its node. *)
Theorem C2_indent_is_depth (now : Z) (tid : string) (cs : list Comment)
        (p : Page) :
  forest cs = true -> (replyBox p < fresh p)%nat ->
  exists q,
    displayComments (S (List.length cs)) now tid (Resolved cs) p = Done q
    /\ Forall
         (fun e =>
            exists c d,
              In c cs /\ depth (List.length cs) cs c = Some d
              /\ data_comment_id e = Some (toString (id c))
              /\ style_marginLeft e = px (Some (Z.of_nat d * 10))
              /\ parseInt (slice_0_m2 (style_marginLeft e))
                 = Some (Z.of_nat d * 10))
         (renderedComments q)
    /\ (forall c, In c cs ->
                  exists e, In e (renderedComments q)
                            /\ data_comment_id e = Some (toString (id c)))
    /\ (forall c, In c cs -> parentCommentId c = None ->
                  depth (List.length cs) cs c = Some 0%nat)
    /\ (forall c k, In c cs -> In k cs -> parentCommentId k = Some (id c) ->
                    depth (List.length cs) cs k
                    = option_map S (depth (List.length cs) cs c)).
Proof.
  intros Hf Hrb.
  destruct (displayComments_forest now tid cs p Hf Hrb) as (q & Hq & Hv).
  pose proof (sort_perm byRecency cs) as Hperm.
  assert (Hfs : forest (sort byRecency cs) = true)
    by (apply (forest_perm cs); [apply Permutation_sym, Hperm|exact Hf]).
  pose proof (forest_ids cs Hf) as Hnd.
  exists q. split; [exact Hq|]. rewrite Hv. split; [|split; [|split]].
  - apply Forall_forall. intros e He. apply in_map_iff in He.
    destruct He as (c & <- & Hc). apply (preorder_In _ Hfs) in Hc.
    assert (Hcs : In c cs) by (eapply Permutation_in; eassumption).
    exists c, (depthOf cs c). split; [exact Hcs|].
    split; [apply forest_depth; assumption|].
    unfold boxIn, boxOf. cbn [data_comment_id style_marginLeft].
    rewrite (depthOf_perm cs (sort byRecency cs) c)
      by (try assumption; apply Permutation_sym, Hperm).
    split; [reflexivity|]. split; [reflexivity|apply parseInt_slice_px].
  - intros c Hc. exists (boxIn (userId p) now (sort byRecency cs) c).
    split; [|reflexivity]. apply in_map, preorder_complete; [exact Hfs|].
    eapply Permutation_in; [apply Permutation_sym|]; eassumption.
  - intros c Hc Hp. rewrite (forest_depth cs Hf c Hc). f_equal.
    apply (depthOf_root cs Hf c Hc). exact Hp.
  - intros c k Hc Hk Hp.
    rewrite (forest_depth cs Hf c Hc), (forest_depth cs Hf k Hk).
    simpl. f_equal. apply (depthOf_child cs Hf c k); assumption.
Qed.

Lemma C2_indent_is_depth_witness :
  exists q,
    displayComments 7 1000 "1" (Resolved sampleComments) (initialPage "false")
    = Done q
    /\ Forall
         (fun e =>
            exists c d,
              In c sampleComments /\ depth 6 sampleComments c = Some d
              /\ data_comment_id e = Some (toString (id c))
              /\ style_marginLeft e = px (Some (Z.of_nat d * 10))
              /\ parseInt (slice_0_m2 (style_marginLeft e))
                 = Some (Z.of_nat d * 10))
         (renderedComments q)
    /\ (forall c, In c sampleComments ->
                  exists e, In e (renderedComments q)
                            /\ data_comment_id e = Some (toString (id c)))
    /\ (forall c, In c sampleComments -> parentCommentId c = None ->
                  depth 6 sampleComments c = Some 0%nat)
    /\ (forall c k, In c sampleComments -> In k sampleComments ->
                    parentCommentId k = Some (id c) ->
                    depth 6 sampleComments k
                    = option_map S (depth 6 sampleComments c)).
Proof.
  apply (C2_indent_is_depth 1000 "1" sampleComments (initialPage "false"));
    [reflexivity|simpl; lia].
Defined.

Lemma StronglySorted_filter {A : Type} (R : A -> A -> Prop) (P : A -> bool)
      (l : list A) :
  StronglySorted R l -> StronglySorted R (filter P l).
Proof.
  induction 1 as [|x l Hl IH Hx]; simpl; [constructor|].
  destruct (P x); [|exact IH]. constructor; [exact IH|].
  rewrite Forall_forall in *. intros y Hy. apply filter_In in Hy. apply Hx. tauto.
Qed.

Lemma filter_swap {A : Type} (P Q : A -> bool) (l : list A) :
  filter P (filter Q l) = filter Q (filter P l).
Proof.
  induction l as [|x l IH]; simpl; [reflexivity|].
  destruct (P x) eqn:HP, (Q x) eqn:HQ; simpl; rewrite ?HP, ?HQ, IH; reflexivity.
Qed.

(** The parent attribute of a box tells the parent of its comment. *)
Lemma parent_attr (uid : option string) (now : Z) (cs : list Comment)
      (q : option Z) (k : Comment) :
  attrIs (data_parent_comment_id (boxIn uid now cs k))
         (match q with Some i => toString i | None => "null" end)
  = hasParent q k.
Proof.
  unfold boxIn, boxOf, parentValue, hasParent.
  cbn [data_parent_comment_id attrIs].
  destruct (parentCommentId k) as [i|], q as [a|]; cbn [String_].
  - destruct (Z.eqb_spec i a) as [->|Hne]; [apply String.eqb_refl|].
    apply String.eqb_neq. intros H. apply toString_inj in H. contradiction.
  - apply String.eqb_neq, toString_not_null.
  - apply String.eqb_neq. intros H. symmetry in H.
    apply toString_not_null in H. exact H.
  - reflexivity.
Qed.


(** ** Hidden comments *)


























Lemma closest_unhide (ev : Click) (p : Page) :
  closest ev (unhideComments p) = closest ev p.
Proof.
  destruct (unhideComments_spec p) as (g & -> & Hg).
  unfold closest. page_simpl.
  destruct (nth_error (threadComments p) (within ev)) as [x|]; [|reflexivity].
  unfold isCommentBox. rewrite Hg.
  destruct (unhidden_class p (threadComments p) x) as (-> & _). reflexivity.
Qed.

















(** *** What stays in the container *)















Lemma done_pageOf (r : Result) : isDone r = true -> r = Done (pageOf r).
Proof. destruct r; simpl; congruence. Qed.







(** * Further properties of the comment code *)

(** ** The subtree of a comment in the rendering order *)

Section Subtree.

Variable cs : list Comment.
Hypothesis Hforest : forest cs = true.






(** No comment is rendered twice. *)
Lemma preorder_NoDup : NoDup (preorder cs).
Proof.
  assert (Hgen : forall l : list Comment,
             (forall q, NoDup (filter (hasParent q) l)) -> NoDup l).
  { induction l as [|a l IH]; intros H; [constructor|].
    assert (Ha : hasParent (parentCommentId a) a = true).
    { unfold hasParent. destruct (parentCommentId a); [apply Z.eqb_refl|].
      reflexivity. }
    constructor.
    - intros Hin. specialize (H (parentCommentId a)).
      cbn [filter] in H. rewrite Ha in H.
      inversion H as [|? ? Hn _]; subst. apply Hn.
      apply filter_In. split; assumption.
    - apply IH. intros q. specialize (H q). cbn [filter] in H.
      destruct (hasParent q a); [inversion H; assumption|exact H]. }
  apply Hgen. intros q. rewrite (preorder_siblings cs Hforest).
  apply NoDup_filter, forest_NoDup, Hforest.
Qed.

End Subtree.

(** ** Deleting a comment of a rendered forest *)



Lemma apiCalls_app (s t : list Event) :
  apiCalls (s ++ t) = apiCalls s ++ apiCalls t.
Proof. apply flat_map_app. Qed.






Lemma indentOf_box (p : Page) (uid : option string) (now : Z)
      (cs : list Comment) (r : nat) (k : Comment) :
  nodes p r = boxIn uid now cs k ->
  indentOf p r = Some (Z.of_nat (depthOf cs k) * 10).
Proof.
  intros H. unfold indentOf. rewrite H. unfold boxIn, boxOf.
  cbn [style_marginLeft]. apply parseInt_slice_px.
Qed.


(** The page a render of a forest leaves: the container holds fresh nodes,
    the boxes of the comments in rendering order. *)
Lemma displayComments_forest_page (now : Z) (tid : string) (cs : list Comment)
      (p q : Page) :
  forest cs = true -> cs <> [] ->
  displayComments (S (List.length cs)) now tid (Resolved cs) p = Done q ->
  threadComments q
  = seq (fresh p) (List.length (preorder (sort byRecency cs)))
  /\ domView q
     = map (boxIn (userId p) now (sort byRecency cs))
           (preorder (sort byRecency cs))
  /\ replyBox q = replyBox p.
Proof.
  intros Hf Hne Hq.
  assert (Hfs : forest (sort byRecency cs) = true)
    by (apply (forest_perm cs);
        [apply Permutation_sym, sort_perm|exact Hf]).
  pose proof (displayComments_nonempty (S (List.length cs)) now tid cs p Hne)
    as H.
  pose proof (renderRoots_forest _ Hfs (userId p) now) as Hrr.
  rewrite sort_length in Hrr. rewrite Hrr in H.
  destruct H as (q0 & Hq0 & Hc & _ & _ & Hv & Hr & _).
  rewrite Hq0 in Hq. injection Hq as <-.
  rewrite length_map in Hc. auto.
Qed.







(** ** The like link of a comment *)

Lemma closest_nodes (ev : Click) (p q : Page) :
  threadComments q = threadComments p ->
  (forall r, isCommentBox (nodes q r) = isCommentBox (nodes p r)) ->
  closest ev q = closest ev p.
Proof.
  intros Hc Hn. unfold closest. rewrite Hc.
  destruct (nth_error (threadComments p) (within ev)) as [r|]; [|reflexivity].
  rewrite Hn. reflexivity.
Qed.

(** One click on the like link of a comment whose count is [n]. *)
Lemma like_click (ev : Click) (p : Page) (comment : nat) (n : Z)
      (liked : bool) :
  isAnchor ev = true -> data_is_locked p <> Some "true" ->
  contains "reply" (targetClasses ev) = false ->
  contains "like" (targetClasses ev) = true ->
  closest ev p = Some comment ->
  likesText (nodes p comment) = toString n ->
  likeText (nodes p comment) = (if liked then "unlike" else "like") ->
  onThreadCommentsClick ev p
  = Done (emit (ApiCall (likeRequest (data_comment_id (nodes p comment))
                                     (negb liked)))
               (update comment
                       (set_likes (toString (if liked then n - 1 else n + 1))
                                  (if liked then "like" else "unlike"))
                       p)).
Proof.
  intros Ha Hl Hr Hk Hc Hn Ht. unfold onThreadCommentsClick.
  rewrite Ha, Hr, Hk, Hc, Hn, Ht, parseInt_toString.
  assert (Hlock : attrIs (data_is_locked p) "true" = false)
    by (apply not_true_iff_false; rewrite attrIs_true; exact Hl).
  rewrite Hlock. destruct liked; reflexivity.
Qed.

(** X2: on an unlocked thread a click on the like link of a comment moves
    its count by one and turns the link over, and a second click brings
    count and link back: every node is as before, the container is
    untouched, and two requests went out, the second undoing the first.
    The id travels as the attribute reads. *)
Theorem X2_like_twice_restores (ev : Click) (p : Page) (comment : nat)
        (n : Z) (liked : bool) :
  isAnchor ev = true -> data_is_locked p <> Some "true" ->
  contains "reply" (targetClasses ev) = false ->
  contains "like" (targetClasses ev) = true ->
  closest ev p = Some comment ->
  likesText (nodes p comment) = toString n ->
  likeText (nodes p comment) = (if liked then "unlike" else "like") ->
  exists q1 q2,
    onThreadCommentsClick ev p = Done q1
    /\ likesText (nodes q1 comment)
       = toString (if liked then n - 1 else n + 1)
    /\ likeText (nodes q1 comment) = (if liked then "like" else "unlike")
    /\ threadComments q1 = threadComments p
    /\ onThreadCommentsClick ev q1 = Done q2
    /\ (forall r, nodes q2 r = nodes p r)
    /\ threadComments q2 = threadComments p
    /\ trace q2
       = trace p
         ++ [ApiCall (likeRequest (data_comment_id (nodes p comment))
                                  (negb liked));
             ApiCall (likeRequest (data_comment_id (nodes p comment))
                                  liked)].
Proof.
  intros Ha Hl Hr Hk Hc Hn Ht.
  pose proof (like_click ev p comment n liked Ha Hl Hr Hk Hc Hn Ht) as H1.
  set (q1 := emit _ (update comment _ p)) in H1.
  assert (Hnode : nodes q1 comment
                  = set_likes (toString (if liked then n - 1 else n + 1))
                              (if liked then "like" else "unlike")
                              (nodes p comment)).
  { unfold q1, emit, with_trace. cbn [nodes]. apply nodes_update_same. }
  assert (Hc1 : closest ev q1 = Some comment).
  { rewrite <- Hc. apply closest_nodes; [reflexivity|].
    intros r. unfold q1, emit, with_trace, update, with_nodes. cbn [nodes].
    destruct (Nat.eqb r comment); reflexivity. }
  pose proof (like_click ev q1 comment (if liked then n - 1 else n + 1)
                         (negb liked) Ha Hl Hr Hk Hc1) as H2.
  rewrite Hnode in H2. cbn [likesText likeText set_likes data_comment_id] in H2.
  specialize (H2 eq_refl). rewrite negb_involutive in H2.
  exists q1. eexists. split; [exact H1|].
  split; [rewrite Hnode; reflexivity|]. split; [rewrite Hnode; reflexivity|].
  split; [reflexivity|]. split.
  { apply H2. destruct liked; reflexivity. }
  split; [|split].
  - intros r. unfold q1, emit, with_trace, update, with_nodes. cbn [nodes].
    destruct (Nat.eqb_spec r comment) as [->|_]; [|reflexivity].
    unfold set_likes. cbn.
    replace (if negb liked
             then (if liked then n - 1 else n + 1) - 1
             else (if liked then n - 1 else n + 1) + 1) with n
      by (destruct liked; cbn [negb]; lia).
    rewrite <- Hn.
    replace (if negb liked then "like" else "unlike")
      with (likeText (nodes p comment))
      by (rewrite Ht; destruct liked; reflexivity).
    destruct (nodes p comment). reflexivity.
  - reflexivity.
  - unfold q1, emit, with_trace, update, with_nodes. cbn [trace].
    rewrite <- app_assoc. reflexivity.
Qed.

(** Comment 2 of the sample thread is liked by the user, once. *)
Lemma X2_like_twice_restores_witness :
  exists q1 q2,
    onThreadCommentsClick (clickOn "like" 3) samplePage = Done q1
    /\ likesText (nodes q1 4) = "0"
    /\ likeText (nodes q1 4) = "like"
    /\ onThreadCommentsClick (clickOn "like" 3) q1 = Done q2
    /\ likesText (nodes q2 4) = "1"
    /\ likeText (nodes q2 4) = "unlike"
    /\ apiCalls (skipn (List.length (trace samplePage)) (trace q2))
       = [likeRequest (Some "2") false; likeRequest (Some "2") true].
Proof.
  destruct (X2_like_twice_restores (clickOn "like" 3) samplePage 4 1 true)
    as (q1 & q2 & H1 & Hn1 & Ht1 & _ & H2 & Hnodes & _ & Htrace);
    try reflexivity; [discriminate|].
  exists q1, q2. split; [exact H1|]. split; [exact Hn1|].
  split; [exact Ht1|]. split; [exact H2|].
  rewrite Hnodes, Htrace, skipn_app, Nat.sub_diag, skipn_all.
  repeat split.
Defined.

(** ** The edit link of a comment *)

(** Opening the slot at top level behind the comment [m]. *)
Lemma displayCommentReply_root_after (m : Z) (content : string)
      (editing : bool) (p : Page) (before : nat) (pre post : list nat) :
  NoDup (threadComments p) ->
  threadComments p = pre ++ before :: post ->
  isCommentBox (nodes p (replyBox p)) = false ->
  theComment p (toString m) before ->
  exists q,
    displayCommentReply Null (Num m) content editing p = Done q
    /\ threadComments q
       = Dom.remove (replyBox p) pre ++ before :: replyBox p
                    :: Dom.remove (replyBox p) post
    /\ style_paddingLeft (nodes q (replyBox p)) = "0px"
    /\ data_parent_comment_id (nodes q (replyBox p)) = Some "null"
    /\ data_comment_id (nodes q (replyBox p)) = Some (toString m)
    /\ data_editing (nodes q (replyBox p))
       = Some (if editing then "true" else "false")
    /\ threadCommentInput q = content
    /\ slotOnly p q.
Proof.
  intros Hnd Hc Hrb Hbefore.
  destruct slotSetter_attrs as (S1 & S2 & S3 & S4).
  assert (Hbne : before <> replyBox p).
  { destruct Hbefore as (_ & H & _). intros ->. congruence. }
  unfold displayCommentReply.
  set (p1 := update (replyBox p) (set_data_editing _) p).
  set (p2 := update (replyBox p) (set_data_comment_id _) p1).
  set (p3 := with_threadCommentInput content p2).
  set (p4 := update (replyBox p) (set_data_parent_comment_id _) p3).
  assert (H4 : slotOnly p p4).
  { eapply slotOnly_trans; [apply slotOnly_update, S1|].
    eapply slotOnly_trans; [refine (slotOnly_update _ p1 _); apply S2|].
    eapply slotOnly_trans; [exact (slotOnly_input content p2)|].
    refine (slotOnly_update _ p3 _); apply S3. }
  cbn [bind String_].
  set (p5 := update (replyBox p) (set_style_paddingLeft _) p4).
  assert (H5 : slotOnly p p5).
  { eapply slotOnly_trans; [exact H4|].
    refine (slotOnly_update _ p4 _); apply S4. }
  change (threadComments p5) with (threadComments p).
  rewrite (findComment_theComment p p5 _ before) by assumption.
  pose proof (insert_after (replyBox p) before pre post) as Hins.
  rewrite <- Hc in Hins. specialize (Hins Hnd Hbne).
  assert (Hmove : forall l,
             Dom.remove (replyBox p) l
             = Dom.remove (replyBox p) (threadComments p) ->
             (NoDup (threadComments p) -> NoDup l) ->
             slotOnly p (with_threadComments l p5)).
  { intros l H1 H2. eapply slotOnly_trans; [exact H5|].
    apply slotOnly_children; assumption. }
  destruct (Dom.nextSibling before (threadComments p)) as [next|];
    (eexists; split; [reflexivity|]);
    (split; [exact Hins|]);
    (split; [|split; [|split; [|split; [|split]]]]);
    try (subst p5 p4 p3 p2 p1; read_slot; reflexivity);
    apply Hmove;
    first [apply remove_insertBefore | apply remove_appendChild
          | intros Hn;
            destruct (slot_moves_NoDup (replyBox p) _ Hn) as (? & ? & ?);
            auto].
Qed.

Lemma idOfAttr_null : idOfAttr (Some "null") = Null.
Proof. reflexivity. Qed.

(** The edit link of a comment whose box is the only one that carries its
    id, and whose parent, if it has one, has its box in the list, alone
    with its id and with a margin that reads as a number. *)
Lemma edit_opens_slot (p : Page) (ev : Click) (X : nat) (n : Z)
        (pre post : list nat) :
  distinct (threadComments p) = true ->
  isCommentBox (nodes p (replyBox p)) = false ->
  threadComments p = pre ++ X :: post ->
  editClick ev p = true ->
  within ev = List.length pre ->
  isTheComment p (toString n) X = true ->
  (data_parent_comment_id (nodes p X) = Some "null"
   \/ exists m P L,
       data_parent_comment_id (nodes p X) = Some (toString m)
       /\ isTheComment p (toString m) P = true
       /\ indentOf p P = Some L) ->
  exists q,
    onThreadCommentsClick ev p = Done q
    /\ threadComments q
       = Dom.remove (replyBox p) pre ++ X :: replyBox p
                    :: Dom.remove (replyBox p) post
    /\ data_editing (nodes q (replyBox p)) = Some "true"
    /\ data_comment_id (nodes q (replyBox p)) = Some (toString n)
    /\ data_parent_comment_id (nodes q (replyBox p))
       = data_parent_comment_id (nodes p X)
    /\ threadCommentInput q = contentText (nodes p X)
    /\ style_display (nodes q X) = "none"
    /\ data_hidden (nodes q X) = Some "true"
    /\ (data_parent_comment_id (nodes p X) = Some "null" ->
        style_paddingLeft (nodes q (replyBox p)) = "0px")
    /\ (forall m P L,
           data_parent_comment_id (nodes p X) = Some (toString m) ->
           isTheComment p (toString m) P = true ->
           indentOf p P = Some L ->
           style_paddingLeft (nodes q (replyBox p)) = px (Some (L + 10))).
Proof.
  intros Hnd Hrb Hc He Hpos HX Hparent.
  apply distinct_NoDup in Hnd. apply isTheComment_spec in HX.
  unfold editClick in He. rewrite !andb_true_iff, !negb_true_iff in He.
  destruct He as ((((Ha & Hlock) & Hreply) & Hlike) & Hedit).
  destruct (unhideComments_keeps p)
    as (p1 & Hp1 & Hc1 & Hrb1 & _ & _ & _ & Hn1).
  unfold onThreadCommentsClick. rewrite Ha, Hlock, Hreply, Hlike, Hedit, Hp1.
  destruct (unhidden_class p (threadComments p) X)
    as (_ & _ & _ & Hpar & _ & Hcont).
  pose proof (theComment_unhide p p1 _ X Hc1 Hn1 HX) as HX1.
  assert (Hclosest : closest ev p1 = Some X).
  { unfold closest. rewrite Hc1, Hc, Hpos, nth_error_middle.
    destruct HX1 as (_ & -> & _). reflexivity. }
  rewrite Hclosest.
  assert (Hrb' : isCommentBox (nodes p1 (replyBox p1)) = false).
  { rewrite Hrb1. unfold isCommentBox. rewrite Hn1.
    destruct (unhidden_class p (threadComments p) (replyBox p)) as (-> & _).
    exact Hrb. }
  assert (HXne : X <> replyBox p).
  { destruct HX as (_ & H & _). intros ->. congruence. }
  assert (Hid1 : data_comment_id (nodes p1 X) = Some (toString n))
    by (destruct HX1 as (_ & _ & H & _); exact H).
  assert (Hpar1 : data_parent_comment_id (nodes p1 X)
                  = data_parent_comment_id (nodes p X))
    by (rewrite Hn1; exact Hpar).
  assert (Hcont1 : contentText (nodes p1 X) = contentText (nodes p X))
    by (rewrite Hn1; exact Hcont).
  rewrite Hid1, idOfAttr_toString, Hpar1, Hcont1.
  assert (Hfinish : forall q0,
             threadComments q0
             = Dom.remove (replyBox p) pre ++ X :: replyBox p
                          :: Dom.remove (replyBox p) post ->
             let q := update X (set_data_hidden (Some "true"))
                             (update X (set_style_display "none") q0) in
             threadComments q = threadComments q0
             /\ nodes q (replyBox p) = nodes q0 (replyBox p)
             /\ threadCommentInput q = threadCommentInput q0
             /\ style_display (nodes q X) = "none"
             /\ data_hidden (nodes q X) = Some "true").
  { intros q0 _ q. subst q. split; [reflexivity|]. split.
    - rewrite !nodes_update_other by (intros E; apply HXne; auto).
      reflexivity.
    - split; [reflexivity|]. rewrite !nodes_update_same. split; reflexivity. }
  destruct Hparent as [Hroot|(m & P & L & Hm & HP & HL)].
  - rewrite Hroot, idOfAttr_null.
    destruct (displayCommentReply_root_after
                n (contentText (nodes p X)) true p1 X pre post)
      as (q0 & Hq0 & Hcq & Hpad & Hparq & Hidq & Hed & Hin & _);
      try (rewrite ?Hc1; assumption).
    rewrite Hq0. cbn [bind]. rewrite Hrb1 in *.
    destruct (Hfinish q0 Hcq) as (F1 & F2 & F3 & F4 & F5).
    eexists. split; [reflexivity|]. rewrite F1, F2, F3.
    repeat split; try assumption.
    + intros _. exact Hpad.
    + intros m P L Hm. injection Hm as Hm.
      symmetry in Hm. apply toString_not_null in Hm. destruct Hm.
  - rewrite Hm, idOfAttr_toString.
    apply isTheComment_spec in HP.
    pose proof (theComment_unhide p p1 _ P Hc1 Hn1 HP) as HP1.
    destruct (unhidden_class p (threadComments p) P)
      as (_ & _ & _ & _ & HmP & _).
    destruct (displayCommentReply_after
                m n (contentText (nodes p X)) true p1 P X pre post L)
      as (q0 & Hq0 & Hcq & Hpad & Hparq & Hidq & Hed & Hin & _);
      try (rewrite ?Hc1; assumption).
    { unfold indentOf in *. rewrite Hn1, HmP. exact HL. }
    rewrite Hq0. cbn [bind]. rewrite Hrb1 in *.
    destruct (Hfinish q0 Hcq) as (F1 & F2 & F3 & F4 & F5).
    eexists. split; [reflexivity|]. rewrite F1, F2, F3.
    repeat split; try assumption.
    + intros Hnull. injection Hnull as Hnull.
      apply toString_not_null in Hnull. destruct Hnull.
    + intros m' P' L' Hm' HP' HL'. injection Hm' as Hm'.
      apply toString_inj in Hm'. subst m'.
      apply isTheComment_spec in HP'.
      assert (P' = P).
      { destruct HP as (_ & _ & _ & Hu). destruct HP' as (Hi' & Hb' & Hd' & _).
        apply Hu; assumption. }
      subst P'. rewrite HL in HL'. injection HL' as <-. exact Hpad.
Qed.

Lemma theComment_isTheComment (p : Page) (key : string) (x : nat) :
  theComment p key x -> isTheComment p key x = true.
Proof.
  intros (Hin & Hbox & Hid & Hu). unfold isTheComment.
  rewrite Hbox, Hid. cbn [attrIs]. rewrite String.eqb_refl.
  rewrite !andb_true_r. apply andb_true_iff. split.
  - apply existsb_exists. exists x. split; [exact Hin|apply Nat.eqb_refl].
  - apply forallb_forall. intros r Hr.
    destruct (isCommentBox (nodes p r)) eqn:Eb; [|reflexivity].
    destruct (attrIs (data_comment_id (nodes p r)) key) eqn:Ea;
      [|reflexivity].
    apply attrIs_true in Ea. cbn [andb implb].
    apply Nat.eqb_eq. apply Hu; assumption.
Qed.

(** The page a render of a forest leaves, box by box. *)
Lemma rendered_forest (now : Z) (tid : string) (cs : list Comment)
      (p q : Page) :
  forest cs = true -> cs <> [] -> (replyBox p < fresh p)%nat ->
  displayComments (S (List.length cs)) now tid (Resolved cs) p = Done q ->
  NoDup (threadComments q)
  /\ ~ In (replyBox p) (threadComments q)
  /\ replyBox q = replyBox p
  /\ nodes q (replyBox p) = nodes p (replyBox p)
  /\ data_is_locked q = data_is_locked p
  /\ (forall j r,
         nth_error (threadComments q) j = Some r ->
         exists k,
           nth_error (preorder (sort byRecency cs)) j = Some k
           /\ nodes q r = boxIn (userId p) now (sort byRecency cs) k)
  /\ (forall j k,
         nth_error (preorder (sort byRecency cs)) j = Some k ->
         exists r,
           nth_error (threadComments q) j = Some r
           /\ nodes q r = boxIn (userId p) now (sort byRecency cs) k).
Proof.
  intros Hf Hne Hrb Hq.
  assert (Hfs : forest (sort byRecency cs) = true)
    by (apply (forest_perm cs);
        [apply Permutation_sym, sort_perm|exact Hf]).
  pose proof (displayComments_nonempty (S (List.length cs)) now tid cs p Hne)
    as H.
  pose proof (renderRoots_forest _ Hfs (userId p) now) as Hrr.
  rewrite sort_length in Hrr. rewrite Hrr in H.
  destruct H as (q0 & Hq0 & Hc & _ & Hn & Hv & Hr & _ & Hl & _).
  rewrite Hq0 in Hq. injection Hq as <-.
  assert (Hmap : map (nodes q0) (threadComments q0)
                 = map (boxIn (userId p) now (sort byRecency cs))
                       (preorder (sort byRecency cs))) by exact Hv.
  split; [rewrite Hc; apply seq_NoDup|].
  split; [rewrite Hc; intros Hin; apply in_seq in Hin; lia|].
  split; [exact Hr|]. split; [apply Hn, Hrb|]. split; [exact Hl|].
  split.
  - intros j r Hj.
    pose proof (f_equal (fun l => nth_error l j) Hmap) as E. cbv beta in E.
    rewrite !nth_error_map, Hj in E. cbn [option_map] in E.
    destruct (nth_error (preorder (sort byRecency cs)) j) as [k|];
      [|discriminate].
    exists k. split; [reflexivity|]. cbn [option_map] in E. congruence.
  - intros j k Hj.
    pose proof (f_equal (fun l => nth_error l j) Hmap) as E. cbv beta in E.
    rewrite !nth_error_map, Hj in E. cbn [option_map] in E.
    destruct (nth_error (threadComments q0) j) as [r|]; [|discriminate].
    exists r. split; [reflexivity|]. cbn [option_map] in E. congruence.
Qed.

(** In a rendered forest the box of a comment is the one box that carries
    its id. *)
Lemma rendered_theComment (now : Z) (tid : string) (cs : list Comment)
      (p q : Page) (k : Comment) :
  forest cs = true -> (replyBox p < fresh p)%nat ->
  displayComments (S (List.length cs)) now tid (Resolved cs) p = Done q ->
  In k cs ->
  exists j r,
    nth_error (preorder (sort byRecency cs)) j = Some k
    /\ nth_error (threadComments q) j = Some r
    /\ nodes q r = boxIn (userId p) now (sort byRecency cs) k
    /\ theComment q (toString (id k)) r.
Proof.
  intros Hf Hrb Hq Hk.
  assert (Hne : cs <> []) by (intros ->; destruct Hk).
  assert (Hfs : forest (sort byRecency cs) = true)
    by (apply (forest_perm cs);
        [apply Permutation_sym, sort_perm|exact Hf]).
  destruct (rendered_forest now tid cs p q Hf Hne Hrb Hq)
    as (Hnd & _ & _ & _ & _ & Hto & Hfrom).
  assert (Hks : In k (sort byRecency cs))
    by (eapply Permutation_in; [apply Permutation_sym, sort_perm|exact Hk]).
  apply (preorder_complete _ Hfs) in Hks.
  apply In_nth_error in Hks. destruct Hks as (j & Hj).
  destruct (Hfrom j k Hj) as (r & Hr & Hbox).
  exists j, r. split; [exact Hj|]. split; [exact Hr|]. split; [exact Hbox|].
  split; [eapply nth_error_In; exact Hr|].
  split; [rewrite Hbox; reflexivity|].
  split; [rewrite Hbox; reflexivity|].
  intros r' Hin' _ Hid'.
  apply In_nth_error in Hin'. destruct Hin' as (j' & Hj').
  destruct (Hto j' r' Hj') as (k' & Hk' & Hbox').
  rewrite Hbox' in Hid'. cbn [boxIn boxOf data_comment_id] in Hid'.
  injection Hid' as Hid'. apply toString_inj in Hid'.
  assert (k' = k).
  { apply (NoDup_ids_inj (sort byRecency cs));
      [apply forest_ids, Hfs| | |exact Hid'].
    - apply (preorder_In _ Hfs). eapply nth_error_In; exact Hk'.
    - apply (preorder_In _ Hfs). eapply nth_error_In; exact Hj. }
  subst k'.
  assert (j' = j).
  { apply (proj1 (NoDup_nth_error _) (preorder_NoDup _ Hfs)).
    - apply nth_error_Some. congruence.
    - congruence. }
  subst j'. congruence.
Qed.

(** X3: in a freshly rendered forest, on a thread that is not locked, a
    click on the edit link of a comment puts the reply slot right after
    the box of the comment, in edit mode: the id of the comment on the
    slot, its parent as the parent of the slot, its text in the input, the
    slot indented as the box is, 10 pixels per level.  The box is hidden
    and is still in the container when the click returns.  (The reply box
    is no comment box itself.) *)
Theorem X3_edit_opens_slot (now : Z) (tid : string) (cs : list Comment)
        (p q : Page) (c : Comment) :
  forest cs = true -> (replyBox p < fresh p)%nat ->
  isCommentBox (nodes p (replyBox p)) = false ->
  data_is_locked p <> Some "true" ->
  displayComments (S (List.length cs)) now tid (Resolved cs) p = Done q ->
  In c cs ->
  exists (pre post : list nat) (X : nat),
    threadComments q = pre ++ X :: post
    /\ nodes q X = boxIn (userId p) now (sort byRecency cs) c
    /\ forall ev,
        editLink ev = true -> within ev = List.length pre ->
        exists q',
          onThreadCommentsClick ev q = Done q'
          /\ threadComments q' = pre ++ X :: replyBox p :: post
          /\ data_editing (nodes q' (replyBox p)) = Some "true"
          /\ data_comment_id (nodes q' (replyBox p))
             = Some (toString (id c))
          /\ data_parent_comment_id (nodes q' (replyBox p))
             = Some (String_ (parentValue c))
          /\ threadCommentInput q' = content c
          /\ style_paddingLeft (nodes q' (replyBox p))
             = px (Some (Z.of_nat (depthOf (sort byRecency cs) c) * 10))
          /\ style_display (nodes q' X) = "none"
          /\ data_hidden (nodes q' X) = Some "true".
Proof.
  intros Hf Hrb Hbox Hl Hq Hc.
  assert (Hne : cs <> []) by (intros ->; destruct Hc).
  set (s := sort byRecency cs).
  assert (Hfs : forest s = true)
    by (apply (forest_perm cs);
        [apply Permutation_sym, sort_perm|exact Hf]).
  assert (Hcs : In c s)
    by (eapply Permutation_in; [apply Permutation_sym, sort_perm|exact Hc]).
  destruct (rendered_forest now tid cs p q Hf Hne Hrb Hq)
    as (Hnd & Hnot & Hrq & Hnrb & Hlq & _ & _).
  destruct (rendered_theComment now tid cs p q c Hf Hrb Hq Hc)
    as (j & X & Hj & HX & HboxX & HtheX).
  fold s in Hj, HboxX.
  destruct (nth_error_split _ _ HX) as (pre & post & Hsplit & Hlen).
  exists pre, post, X. split; [exact Hsplit|]. split; [exact HboxX|].
  intros ev Hev Hw.
  assert (Hparent :
            data_parent_comment_id (nodes q X) = Some "null"
            \/ exists m P L,
                data_parent_comment_id (nodes q X) = Some (toString m)
                /\ isTheComment q (toString m) P = true
                /\ indentOf q P = Some L).
  { rewrite HboxX. unfold boxIn, boxOf, parentValue.
    cbn [data_parent_comment_id].
    destruct (parentCommentId c) as [m|] eqn:Hm; [right|left; reflexivity].
    destruct (up_resolves s Hfs c m Hcs Hm) as (P & HP & Hid & _).
    assert (HPcs : In P cs)
      by (eapply Permutation_in; [apply sort_perm|exact HP]).
    destruct (rendered_theComment now tid cs p q P Hf Hrb Hq HPcs)
      as (jP & rP & _ & _ & HboxP & HtheP).
    exists m, rP, (Z.of_nat (depthOf s P) * 10).
    split; [reflexivity|]. split.
    - apply theComment_isTheComment. rewrite <- Hid. exact HtheP.
    - apply (indentOf_box q (userId p) now s). exact HboxP. }
  destruct (edit_opens_slot q ev X (id c) pre post)
    as (q' & Hq' & Hcq & Hed & Hidq & Hparq & Hin & Hdis & Hhid & Hroot
        & Hchild).
  - apply distinct_NoDup. exact Hnd.
  - rewrite Hrq, Hnrb. exact Hbox.
  - exact Hsplit.
  - unfold editClick. unfold editLink in Hev.
    repeat (apply andb_true_iff in Hev; destruct Hev as [Hev ?]).
    rewrite Hev.
    repeat match goal with
           | H : _ = true |- _ => rewrite H; clear H
           end.
    assert (Hlock : attrIs (data_is_locked q) "true" = false)
      by (apply not_true_iff_false; rewrite attrIs_true, Hlq; exact Hl).
    rewrite Hlock. reflexivity.
  - exact Hw.
  - apply theComment_isTheComment. exact HtheX.
  - exact Hparent.
  - assert (Hpre : Dom.remove (replyBox q) pre = pre).
    { apply remove_notin. intros Hin'. apply Hnot. rewrite Hsplit, <- Hrq.
      apply in_or_app. left. exact Hin'. }
    assert (Hpost : Dom.remove (replyBox q) post = post).
    { apply remove_notin. intros Hin'. apply Hnot. rewrite Hsplit, <- Hrq.
      apply in_or_app. right. right. exact Hin'. }
    rewrite Hpre, Hpost, Hrq in *.
    exists q'. split; [exact Hq'|]. split; [exact Hcq|].
    split; [exact Hed|]. split; [exact Hidq|].
    split.
    { rewrite Hparq, HboxX. reflexivity. }
    split.
    { rewrite Hin, HboxX. reflexivity. }
    split; [|split; assumption].
    destruct (parentCommentId c) as [m|] eqn:Hm.
    + destruct (up_resolves s Hfs c m Hcs Hm) as (P & HP & Hid & _).
      assert (HPcs : In P cs)
        by (eapply Permutation_in; [apply sort_perm|exact HP]).
      destruct (rendered_theComment now tid cs p q P Hf Hrb Hq HPcs)
        as (jP & rP & _ & _ & HboxP & HtheP).
      rewrite (Hchild m rP (Z.of_nat (depthOf s P) * 10)).
      * f_equal. f_equal.
        rewrite (depthOf_child s Hfs P c HP Hcs) by congruence. lia.
      * rewrite HboxX. unfold boxIn, boxOf, parentValue.
        cbn [data_parent_comment_id]. rewrite Hm. reflexivity.
      * apply theComment_isTheComment. rewrite <- Hid. exact HtheP.
      * apply (indentOf_box q (userId p) now s). exact HboxP.
    + rewrite Hroot.
      * assert (Hd : depthOf s c = 0%nat)
          by (apply (depthOf_root s Hfs c Hcs); exact Hm).
        rewrite Hd. reflexivity.
      * rewrite HboxX. unfold boxIn, boxOf, parentValue.
        cbn [data_parent_comment_id]. rewrite Hm. reflexivity.
Qed.

(** In the sample thread a click on the edit link of comment 2, the fourth
    box, opens the slot after it with its text, at its indent of 10
    pixels. *)
Lemma X3_edit_opens_slot_witness :
  exists q,
    onThreadCommentsClick (clickOn "edit" 3) samplePage = Done q
    /\ threadComments q = [1; 2; 3; 4; 0; 5; 6]%nat
    /\ data_editing (nodes q 0%nat) = Some "true"
    /\ data_comment_id (nodes q 0%nat) = Some "2"
    /\ data_parent_comment_id (nodes q 0%nat) = Some "1"
    /\ threadCommentInput q = "a reply"
    /\ style_display (nodes q 4%nat) = "none"
    /\ style_paddingLeft (nodes q 0%nat) = "10px".
Proof.
  destruct (X3_edit_opens_slot
              1000 "1" sampleComments (initialPage "false") samplePage
              (mkComment 2 (Some 1) 5 "a reply" 200 [7]))
    as (pre & post & X & Hsplit & HboxX & Hclick);
    [reflexivity|simpl; lia|reflexivity|discriminate|reflexivity
    |right; left; reflexivity|].
  change (threadComments samplePage) with [1; 2; 3; 4; 5; 6]%nat in Hsplit.
  assert (HX : X = 4%nat /\ pre = [1; 2; 3]%nat /\ post = [5; 6]%nat).
  { assert (Hin : In X [1; 2; 3; 4; 5; 6]%nat)
      by (rewrite Hsplit; apply in_or_app; right; left; reflexivity).
    destruct Hin as [<-|[<-|[<-|[<-|[<-|[<-|[]]]]]]];
      try (vm_compute in HboxX; discriminate).
    destruct pre as [|a [|b [|c0 [|d pre]]]]; cbn [app] in Hsplit;
      try (injection Hsplit; intros; subst; discriminate).
    - injection Hsplit as <- <- <- <-. auto.
    - exfalso. injection Hsplit as _ _ _ _ Hrest.
      destruct pre as [|e [|f pre]]; cbn [app] in Hrest;
        [injection Hrest; intros; discriminate
        |injection Hrest; intros; discriminate|].
      injection Hrest as _ _ Hrest. destruct pre; discriminate. }
  destruct HX as (-> & -> & ->).
  destruct (Hclick (clickOn "edit" 3) eq_refl eq_refl)
    as (q & Hq & Hcq & He & Hi & Hp & Hin & Hpad & Hd & _).
  exists q. split; [exact Hq|]. split; [exact Hcq|]. split; [exact He|].
  split; [exact Hi|]. split; [exact Hp|]. split; [exact Hin|].
  split; [exact Hd|]. refine (eq_trans Hpad _). vm_compute. reflexivity.
Defined.

(** ** Submitting the reply box *)

(** An id written as an attribute reads back as it was. *)
Lemma idOfAttr_String (v : Value) : idOfAttr (Some (String_ v)) = v.
Proof.
  destruct v as [|n|]; [reflexivity|apply idOfAttr_toString|reflexivity].
Qed.

(** Whether it returns or throws, [displayCommentReply] has written its
    arguments on the reply box. *)
Lemma displayCommentReply_attrs (parentId beforeId : Value) (content : string)
      (editing : bool) (p q : Page) :
  leaves (displayCommentReply parentId beforeId content editing p) q ->
  replyBox q = replyBox p
  /\ data_editing (nodes q (replyBox p))
     = Some (if editing then "true" else "false")
  /\ data_comment_id (nodes q (replyBox p)) = Some (String_ beforeId)
  /\ data_parent_comment_id (nodes q (replyBox p)) = Some (String_ parentId).
Proof.
  set (written := fun q : Page =>
         replyBox q = replyBox p
         /\ data_editing (nodes q (replyBox p))
            = Some (if editing then "true" else "false")
         /\ data_comment_id (nodes q (replyBox p)) = Some (String_ beforeId)
         /\ data_parent_comment_id (nodes q (replyBox p))
            = Some (String_ parentId)).
  change (leaves (displayCommentReply parentId beforeId content editing p) q
          -> written q).
  unfold displayCommentReply, leaves.
  set (p1 := update (replyBox p) (set_data_editing _) p).
  set (p2 := update (replyBox p) (set_data_comment_id _) p1).
  set (p3 := with_threadCommentInput content p2).
  set (p4 := update (replyBox p) (set_data_parent_comment_id _) p3).
  match goal with |- context [_ >>= ?k] => set (place := k) end.
  assert (H4 : written p4).
  { subst written p4 p3 p2 p1. split; [reflexivity|]. read_slot.
    repeat split. }
  assert (H5 : forall v l q0,
             let p5 := update (replyBox p) (set_style_paddingLeft v) p4 in
             q0 = p5 \/ q0 = with_threadComments l p5 -> written q0).
  { intros v l q0 p5 Hq0.
    assert (Hn : nodes q0 (replyBox p)
                 = set_style_paddingLeft v (nodes p4 (replyBox p))).
    { destruct Hq0 as [->| ->]; subst p5; unfold with_threadComments;
        cbn [nodes]; apply nodes_update_same. }
    assert (Hr : replyBox q0 = replyBox p)
      by (destruct Hq0 as [->| ->]; reflexivity).
    destruct H4 as (_ & E1 & E2 & E3). unfold written. rewrite Hn.
    cbn [set_style_paddingLeft data_editing data_comment_id
         data_parent_comment_id].
    auto. }
  assert (Hplace : forall v,
             place (update (replyBox p) (set_style_paddingLeft v) p4) = Done q
             \/ place (update (replyBox p) (set_style_paddingLeft v) p4)
                = Threw q ->
             written q).
  { intros v Hq. subst place. cbn beta in Hq.
    destruct beforeId as [|m|];
      repeat match type of Hq with
             | context [match ?x with _ => _ end] => destruct x
             end;
      destruct Hq as [Hq|Hq]; try discriminate; injection Hq as <-;
      first [apply (H5 v []); left; reflexivity
            | eapply (H5 v); right; reflexivity]. }
  destruct parentId as [|n|]; cbn [bind];
    try (destruct (findComment p4 _ (threadComments p4) None)
          as [parentComment|]; cbn [bind]);
    first [apply Hplace
          | intros [Hq|Hq]; [discriminate|]; injection Hq as <-; exact H4].
Qed.

(** The submit button reads back what [displayCommentReply] wrote. *)
Lemma submit_written (threadId : option string) (parentId beforeId : Value)
      (editing : bool) (q : Page) :
  data_editing (nodes q (replyBox q))
  = Some (if editing then "true" else "false") ->
  data_comment_id (nodes q (replyBox q)) = Some (String_ beforeId) ->
  data_parent_comment_id (nodes q (replyBox q)) = Some (String_ parentId) ->
  onThreadCommentButtonClick threadId q
  = Done (emit (ApiCall (submitRequest threadId parentId beforeId editing
                                       (threadCommentInput q))) q).
Proof.
  intros He Hi Hp. unfold onThreadCommentButtonClick, submitRequest.
  rewrite He, Hi, Hp, idOfAttr_String.
  destruct editing; cbn [attrIs String.eqb Ascii.eqb Bool.eqb]; [|reflexivity].
  destruct beforeId as [|m|]; cbn [String_ parseIntAttr];
    [reflexivity|rewrite parseInt_toString; reflexivity|reflexivity].
Qed.

Lemma submit_after (threadId : option string) (parentId beforeId : Value)
      (content text : string) (editing : bool) (p q : Page) :
  leaves (displayCommentReply parentId beforeId content editing p) q ->
  onThreadCommentButtonClick threadId (with_threadCommentInput text q)
  = Done (emit (ApiCall (submitRequest threadId parentId beforeId editing
                                       text))
               (with_threadCommentInput text q)).
Proof.
  intros Hq.
  destruct (displayCommentReply_attrs _ _ _ _ _ _ Hq) as (Hr & He & Hi & Hp).
  apply (submit_written threadId parentId beforeId editing
                        (with_threadCommentInput text q));
    unfold with_threadCommentInput; cbn [nodes replyBox]; rewrite Hr;
    assumption.
Qed.

(** X4: the submit button sends what the slot was opened for.  After a
    click on the main reply button it posts a top-level comment; after a
    click on the reply link of comment [n] it posts a reply to [n]; after a
    click on the edit link of comment [n] it puts the new text of [n]; in
    each case with the text found in the input. *)
Theorem X4_submit_sends_slot (threadId : option string) (text : string)
        (p : Page) :
  data_is_locked p <> Some "true" ->
  (forall q,
      leaves (onThreadMainReplyClick p) q ->
      onThreadCommentButtonClick threadId (with_threadCommentInput text q)
      = Done (emit (ApiCall (mkRequest "comment" "POST"
                                       (PostBody text (parseIntAttr threadId)
                                                 Null) None))
                   (with_threadCommentInput text q)))
  /\ (forall ev X n q,
         isAnchor ev = true ->
         contains "reply" (targetClasses ev) = true ->
         closest ev p = Some X ->
         data_comment_id (nodes p X) = Some (toString n) ->
         leaves (onThreadCommentsClick ev p) q ->
         onThreadCommentButtonClick threadId (with_threadCommentInput text q)
         = Done (emit (ApiCall (mkRequest "comment" "POST"
                                          (PostBody text
                                                    (parseIntAttr threadId)
                                                    (Num n)) None))
                      (with_threadCommentInput text q)))
  /\ (forall ev X n q,
         editClick ev p = true ->
         closest ev p = Some X ->
         data_comment_id (nodes p X) = Some (toString n) ->
         leaves (onThreadCommentsClick ev p) q ->
         onThreadCommentButtonClick threadId (with_threadCommentInput text q)
         = Done (emit (ApiCall (mkRequest "comment" "PUT"
                                          (EditBody (Some n) text) None))
                      (with_threadCommentInput text q))).
Proof.
  intros Hl.
  assert (Hlock : attrIs (data_is_locked p) "true" = false)
    by (apply not_true_iff_false; rewrite attrIs_true; exact Hl).
  destruct (unhideComments_keeps p)
    as (p1 & Hp1 & Hc1 & Hrb1 & _ & _ & _ & Hn1).
  assert (Hid : forall X n,
             data_comment_id (nodes p X) = Some (toString n) ->
             idOfAttr (data_comment_id (nodes p1 X)) = Num n).
  { intros X n H. rewrite Hn1.
    destruct (unhidden_class p (threadComments p) X) as (_ & _ & -> & _).
    rewrite H. apply idOfAttr_toString. }
  split; [|split].
  - intros q. unfold onThreadMainReplyClick. rewrite Hlock. intros Hq.
    apply (submit_after threadId Null Null "" text false _ q Hq).
  - intros ev X n q Ha Hreply HX Hn.
    unfold onThreadCommentsClick.
    rewrite Ha, Hlock, Hreply, closest_unhide, HX, Hp1, (Hid X n Hn).
    intros Hq.
    apply (submit_after threadId (Num n) (Num n) "" text false _ q Hq).
  - intros ev X n q He HX Hn.
    unfold editClick in He. rewrite !andb_true_iff, !negb_true_iff in He.
    destruct He as ((((Ha & _) & Hreply) & Hlike) & Hedit).
    unfold onThreadCommentsClick.
    rewrite Ha, Hlock, Hreply, Hlike, Hedit, closest_unhide, HX, Hp1,
      (Hid X n Hn).
    set (parentId := idOfAttr (data_parent_comment_id (nodes p1 X))).
    set (content := contentText (nodes p1 X)).
    intros Hq.
    destruct (displayCommentReply_frame parentId (Num n) content true p1)
      as (q0 & Hq0 & _).
    destruct (displayCommentReply_attrs _ _ _ _ _ _ Hq0)
      as (Hr & He & Hi & Hp).
    apply (submit_written threadId parentId (Num n) true
                          (with_threadCommentInput text q)).
    all: unfold with_threadCommentInput; cbn [nodes replyBox].
    all: destruct Hq0 as [Hq0|Hq0]; rewrite Hq0 in Hq; cbn [bind] in Hq;
      destruct Hq as [Hq|Hq]; try discriminate; injection Hq as <-.
    all: unfold update, with_nodes; cbn [nodes replyBox]; rewrite Hr.
    all: repeat match goal with
                | |- context [Nat.eqb ?a ?b] => destruct (Nat.eqb a b)
                end;
      assumption.
Qed.

(** In the sample thread: a new text for comment 2 after its edit link, a
    reply to comment 2 after its reply link. *)
Lemma X4_submit_sends_slot_witness :
  onThreadCommentButtonClick
    (Some "1")
    (with_threadCommentInput
       "changed" (pageOf (onThreadCommentsClick (clickOn "edit" 3) samplePage)))
  = Done (emit (ApiCall (mkRequest "comment" "PUT"
                                   (EditBody (Some 2) "changed") None))
               (with_threadCommentInput
                  "changed"
                  (pageOf (onThreadCommentsClick (clickOn "edit" 3)
                                                 samplePage))))
  /\ onThreadCommentButtonClick
       (Some "1")
       (with_threadCommentInput
          "me too"
          (pageOf (onThreadCommentsClick (clickOn "reply" 3) samplePage)))
     = Done (emit (ApiCall (mkRequest "comment" "POST"
                                      (PostBody "me too" (Some 1) (Num 2))
                                      None))
                  (with_threadCommentInput
                     "me too"
                     (pageOf (onThreadCommentsClick (clickOn "reply" 3)
                                                    samplePage)))).
Proof.
  split.
  - destruct (X4_submit_sends_slot (Some "1") "changed" samplePage)
      as (_ & _ & H); [vm_compute; discriminate|].
    apply (H (clickOn "edit" 3) 4%nat 2); try reflexivity.
    left. apply done_pageOf. vm_compute. reflexivity.
  - destruct (X4_submit_sends_slot (Some "1") "me too" samplePage)
      as (_ & H & _); [vm_compute; discriminate|].
    apply (H (clickOn "reply" 3) 4%nat 2); try reflexivity.
    left. apply done_pageOf. vm_compute. reflexivity.
Defined.

(** ** A render without comments *)

Lemma clearComments_trace (p : Page) :
  trace (clearComments p) = trace p ++ map DomRemove (threadComments p).
Proof.
  unfold clearComments.
  assert (H : forall l q,
             trace (fold_left
                      (fun q child =>
                         emit (DomRemove child)
                              (with_threadComments
                                 (Dom.remove child (threadComments q)) q))
                      l q)
             = trace q ++ map DomRemove l).
  { induction l as [|x l IH]; intros q; cbn [fold_left map].
    - rewrite app_nil_r. reflexivity.
    - rewrite IH. unfold emit, with_trace, with_threadComments. cbn [trace].
      rewrite <- app_assoc. reflexivity. }
  apply H.
Qed.

(** What [displayComments] has done when its request leaves. *)
Lemma requestComments_page (tid : string) (p : Page) :
  threadComments (requestComments tid p) = []
  /\ trace (requestComments tid p)
     = trace p ++ map DomRemove (threadComments p) ++ [ApiCall (commentsRequest tid)]
  /\ nodes (requestComments tid p) = nodes p
  /\ fresh (requestComments tid p) = fresh p
  /\ replyBox (requestComments tid p) = replyBox p
  /\ threadMainReply (requestComments tid p) = threadMainReply p
  /\ threadCommentInput (requestComments tid p) = threadCommentInput p
  /\ data_is_locked (requestComments tid p) = data_is_locked p
  /\ errorPopUp (requestComments tid p) = errorPopUp p.
Proof.
  unfold requestComments, emit, with_trace. cbn [threadComments trace nodes
    fresh replyBox threadMainReply threadCommentInput data_is_locked
    errorPopUp].
  rewrite clearComments_trace, <- app_assoc.
  destruct (clearComments_spec p) as (t & ->).
  repeat split.
Qed.


(** X6: when the request for the comments fails, the error is shown and
    the comment list stays empty: the nodes it held were taken out before
    the request left, no node is created, and the main reply button is
    left as it was. *)
Theorem X6_failed_comments_request (fuel : nat) (now : Z) (tid error : string)
        (p : Page) :
  exists q,
    displayComments fuel now tid (Rejected error) p = Done q
    /\ threadComments q = []
    /\ errorPopUp q = Some error
    /\ trace q
       = trace p ++ map DomRemove (threadComments p)
               ++ [ApiCall (commentsRequest tid)]
    /\ nodes q = nodes p
    /\ fresh q = fresh p
    /\ threadMainReply q = threadMainReply p.
Proof.
  destruct (requestComments_page tid p)
    as (Hc & Ht & Hn & Hf & _ & Hm & _).
  eexists. split; [reflexivity|].
  unfold showErrorPopUp, with_errorPopUp.
  cbn [threadComments errorPopUp trace nodes fresh threadMainReply].
  repeat split; assumption.
Qed.

(** ** Fetching all the threads *)

Lemma fetchAllThreads_paging (all : list Z) :
  forall (fuel : nat) (k : nat) (acc : list Z) (p : Page),
    (List.length all - k < 5 * fuel)%nat ->
    fetchAllThreads fuel (paging all) (Z.of_nat k) acc p
    = (Fulfilled (acc ++ skipn k all),
       with_trace (trace p
                     ++ map ApiCall
                          (pageRequests (S ((List.length all - k) / 5))
                                        (Z.of_nat k))) p).
Proof.
  induction fuel as [|fuel IH]; intros k acc p Hf; [lia|].
  cbn [fetchAllThreads]. unfold paging at 1.
  rewrite parseInt_toString, Nat2Z.id.
  set (page := firstn 5 (skipn k all)).
  assert (Hlen : List.length page = Nat.min 5 (List.length all - k))
    by (unfold page; rewrite length_firstn, length_skipn; reflexivity).
  destruct (Nat.ltb_spec (List.length page) 5) as [Hshort|Hfull].
  - assert (Hpage : page = skipn k all).
    { unfold page. apply firstn_all2. rewrite length_skipn. lia. }
    rewrite Hpage.
    assert (Hq : ((List.length all - k) / 5 = 0)%nat)
      by (apply Nat.div_small; lia).
    rewrite Hq. cbn [pageRequests map].
    unfold emit, with_trace. cbn [trace]. reflexivity.
  - replace (Z.of_nat k + 5) with (Z.of_nat (k + 5)) by lia.
    rewrite (IH (k + 5)%nat) by lia.
    f_equal.
    + f_equal. rewrite <- app_assoc. f_equal. unfold page.
      rewrite <- (firstn_skipn 5 (skipn k all)) at 2.
      f_equal. rewrite skipn_skipn. f_equal. lia.
    + assert (Hdiv : ((List.length all - k) / 5
                      = S ((List.length all - (k + 5)) / 5))%nat).
      { replace (List.length all - k)%nat
          with (1 * 5 + (List.length all - (k + 5)))%nat by lia.
        rewrite Nat.div_add_l by lia. reflexivity. }
      rewrite Hdiv. cbn [pageRequests map].
      replace (Z.of_nat k + 5) with (Z.of_nat (k + 5)) by lia.
      unfold emit, with_trace. cbn [trace nodes fresh threadComments replyBox
        threadCommentInput threadMainReply data_is_locked errorPopUp userId].
      rewrite <- app_assoc. reflexivity.
Qed.

(** X7: against a backend that serves a list of threads five at a time,
    [fetchAllThreads(0, [])] is fulfilled with the whole list, in order
    and without repetition.  It asks for the pages at 0, 5, 10, ... one
    after the other -- one page more than there are full pages, the short
    or empty page being the signal to stop -- and shows no error. *)
Theorem X7_fetchAllThreads_complete (all : list Z) (fuel : nat) (p : Page) :
  (List.length all < 5 * fuel)%nat ->
  exists q,
    fetchAllThreads fuel (paging all) 0 [] p = (Fulfilled all, q)
    /\ trace q
       = trace p
         ++ map ApiCall (pageRequests (S (List.length all / 5)) 0)
    /\ errorPopUp q = errorPopUp p
    /\ threadComments q = threadComments p.
Proof.
  intros Hf.
  pose proof (fetchAllThreads_paging all fuel 0 [] p) as H.
  rewrite Nat.sub_0_r in H. cbn [Z.of_nat skipn app] in H.
  rewrite H by lia. eexists. split; [reflexivity|]. repeat split.
Qed.

Lemma X7_fetchAllThreads_complete_witness :
  exists q,
    fetchAllThreads 3 (paging [11; 12; 13; 14; 15; 16; 17]) 0 [] samplePage
    = (Fulfilled [11; 12; 13; 14; 15; 16; 17], q)
    /\ trace q
       = trace samplePage
         ++ [ApiCall (threadsRequest "0"); ApiCall (threadsRequest "5")]
    /\ errorPopUp q = errorPopUp samplePage
    /\ threadComments q = threadComments samplePage.
Proof.
  apply (X7_fetchAllThreads_complete [11; 12; 13; 14; 15; 16; 17] 3 samplePage).
  simpl. lia.
Defined.

Lemma fetchAllThreads_failure (threads : string -> Reply (list Z))
      (error : string) :
  forall (k fuel : nat) (current : Z) (acc : list Z) (p : Page),
    (forall j, (j < k)%nat ->
               exists page,
                 threads (toString (current + 5 * Z.of_nat j)) = Replied page
                 /\ (5 <= List.length page)%nat) ->
    threads (toString (current + 5 * Z.of_nat k)) = Failed error ->
    (k < fuel)%nat ->
    fetchAllThreads fuel threads current acc p
    = (RejectedWith error,
       showErrorPopUp
         error
         (with_trace (trace p ++ map ApiCall (pageRequests (S k) current))
                     p)).
Proof.
  induction k as [|k IH]; intros fuel current acc p Hfull Hfail Hfuel;
    (destruct fuel as [|fuel]; [lia|]); cbn [fetchAllThreads].
  - replace (current + 5 * Z.of_nat 0) with current in Hfail by lia.
    rewrite Hfail. reflexivity.
  - destruct (Hfull 0%nat ltac:(lia)) as (page & Hpage & Hlen).
    replace (current + 5 * Z.of_nat 0) with current in Hpage by lia.
    rewrite Hpage.
    destruct (Nat.ltb_spec (List.length page) 5) as [Hshort|_]; [lia|].
    rewrite (IH fuel (current + 5)); [| | |lia].
    + unfold emit, showErrorPopUp, with_errorPopUp, with_trace.
      cbn [trace nodes fresh threadComments replyBox threadCommentInput
           threadMainReply data_is_locked errorPopUp userId pageRequests map].
      rewrite <- app_assoc. reflexivity.
    + intros j Hj. destruct (Hfull (S j) ltac:(lia)) as (pg & Hpg & Hl).
      exists pg. split; [|exact Hl].
      replace (current + 5 + 5 * Z.of_nat j)
        with (current + 5 * Z.of_nat (S j)) by lia.
      exact Hpg.
    + replace (current + 5 + 5 * Z.of_nat k)
        with (current + 5 * Z.of_nat (S k)) by lia.
      exact Hfail.
Qed.

(** X8: when the backend answers the first [k] pages in full and fails on
    the next one, [fetchAllThreads(0, [])] is rejected with that error and
    shows it; the threads gathered so far are dropped and no further page
    is asked for. *)
Theorem X8_fetchAllThreads_failure (threads : string -> Reply (list Z))
        (error : string) (k fuel : nat) (p : Page) :
  (forall j, (j < k)%nat ->
             exists page,
               threads (toString (5 * Z.of_nat j)) = Replied page
               /\ (5 <= List.length page)%nat) ->
  threads (toString (5 * Z.of_nat k)) = Failed error ->
  (k < fuel)%nat ->
  exists q,
    fetchAllThreads fuel threads 0 [] p = (RejectedWith error, q)
    /\ errorPopUp q = Some error
    /\ trace q = trace p ++ map ApiCall (pageRequests (S k) 0)
    /\ threadComments q = threadComments p.
Proof.
  intros Hfull Hfail Hfuel.
  rewrite (fetchAllThreads_failure threads error k fuel 0 [] p);
    [|exact Hfull|exact Hfail|exact Hfuel].
  eexists. split; [reflexivity|]. repeat split.
Qed.

(** Seven threads on the backend, whose second page fails. *)
Lemma X8_fetchAllThreads_failure_witness :
  exists q,
    fetchAllThreads
      4 (fun start => if String.eqb start "5" then Failed "down"
                      else paging [11; 12; 13; 14; 15; 16; 17] start)
      0 [] samplePage
    = (RejectedWith "down", q)
    /\ errorPopUp q = Some "down"
    /\ trace q
       = trace samplePage
         ++ [ApiCall (threadsRequest "0"); ApiCall (threadsRequest "5")]
    /\ threadComments q = threadComments samplePage.
Proof.
  apply (X8_fetchAllThreads_failure
           (fun start => if String.eqb start "5" then Failed "down"
                         else paging [11; 12; 13; 14; 15; 16; 17] start)
           "down" 1 4 samplePage).
  - intros j Hj. assert (j = 0%nat) by lia. subst j.
    exists [11; 12; 13; 14; 15]. split; [reflexivity|simpl; lia].
  - reflexivity.
  - lia.
Defined.

(** ** Polling the watched threads *)

Section Objects.

Lemma setKey_keys (k v : Z) (o : list (Z * Z)) (e : Z * Z) :
  In e (setKey k v o) -> e = (k, v) \/ In e o.
Proof.
  induction o as [|[k' v'] o IH]; cbn [setKey]; intros H.
  - destruct H as [<-|[]]. left. reflexivity.
  - destruct (k <? k'); [destruct H as [<-|H]; auto|].
    destruct (k =? k').
    + destruct H as [<-|H]; [auto|right; right; exact H].
    + destruct H as [<-|H]; [right; left; reflexivity|].
      destruct (IH H); [auto|right; right; assumption].
Qed.

Lemma setKey_ascending (k v : Z) (o : list (Z * Z)) :
  ascending o -> ascending (setKey k v o).
Proof.
  unfold ascending. induction o as [|[k' v'] o IH]; cbn [setKey]; intros H.
  - repeat constructor.
  - inversion H as [|? ? Ho Hall]; subst.
    destruct (Z.ltb_spec k k') as [Hlt|Hge].
    + constructor; [exact H|]. constructor; [exact Hlt|].
      eapply Forall_impl; [|exact Hall]. cbn [fst]. intros a Ha. lia.
    + destruct (Z.eqb_spec k k') as [->|Hne].
      * constructor; assumption.
      * constructor; [apply IH; exact Ho|].
        apply Forall_forall. intros e He. apply setKey_keys in He.
        destruct He as [->|He]; [cbn [fst]; lia|].
        rewrite Forall_forall in Hall. apply Hall. exact He.
Qed.

(** An object gives back the value it holds for a key. *)
Lemma getKey_In (o : list (Z * Z)) (k v : Z) :
  ascending o -> In (k, v) o -> getKey k o = Some v.
Proof.
  unfold ascending, getKey. induction o as [|[k' v'] o IH]; intros Ho Hin;
    [destruct Hin|].
  inversion Ho as [|? ? Ho' Hall]; subst. cbn [find fst].
  destruct Hin as [[= -> ->]|Hin]; [rewrite Z.eqb_refl; reflexivity|].
  destruct (Z.eqb_spec k' k) as [->|_]; [|apply IH; assumption].
  rewrite Forall_forall in Hall. specialize (Hall _ Hin). cbn [fst] in Hall.
  lia.
Qed.

End Objects.

Lemma emits_userId {A : Type} (f : A -> Event) (l : list A) (p : Page) :
  userId (fold_left (fun q x => emit (f x) q) l p) = userId p.
Proof.
  revert p. induction l as [|x l IH]; intros p; [reflexivity|].
  cbn [fold_left]. rewrite IH. reflexivity.
Qed.

(** What [fetchAllThreads] is settled with does not depend on the page. *)
Lemma fetchAllThreads_promise (threads : string -> Reply (list Z)) :
  forall fuel current acc p p',
    fst (fetchAllThreads fuel threads current acc p)
    = fst (fetchAllThreads fuel threads current acc p')
    /\ userId (snd (fetchAllThreads fuel threads current acc p)) = userId p.
Proof.
  induction fuel as [|fuel IH]; intros current acc p p'; [split; reflexivity|].
  cbn [fetchAllThreads].
  destruct (threads (toString current)) as [pg|error]; [|split; reflexivity].
  destruct (List.length pg <? 5)%nat; [split; reflexivity|].
  destruct (IH (current + 5) (acc ++ pg)
               (emit (ApiCall (threadsRequest (toString current))) p)
               (emit (ApiCall (threadsRequest (toString current))) p'))
    as [H1 H2].
  split; [exact H1|exact H2].
Qed.

Lemma gatherWatched_promise (backend : Backend) (uid : option Z)
      (allThreads : list Z) (p p' : Page) :
  fst (gatherWatched backend uid allThreads p)
  = fst (gatherWatched backend uid allThreads p')
  /\ userId (snd (gatherWatched backend uid allThreads p)) = userId p
  /\ forall o, fst (gatherWatched backend uid allThreads p) = Fulfilled o ->
               ascending o.
Proof.
  unfold gatherWatched.
  set (watched := filter _ allThreads).
  assert (Hasc : forall l o,
             ascending o ->
             ascending
               (fold_left
                  (fun o thread =>
                     match getComments backend (toString thread) with
                     | Replied comments =>
                         setKey thread (Z.of_nat (List.length comments)) o
                     | Failed _ => o
                     end) l o)).
  { induction l as [|x l IH]; intros o Ho; [exact Ho|].
    cbn [fold_left]. apply IH.
    destruct (getComments backend (toString x)); [|exact Ho].
    apply setKey_ascending. exact Ho. }
  destruct (firstFailure _ allThreads);
    [|destruct (firstFailure _ watched)];
    cbn [fst snd]; rewrite ?emits_userId;
    (split; [reflexivity|]); (split; [reflexivity|]);
    intros o Ho; try discriminate.
  injection Ho as <-. apply Hasc. constructor.
Qed.

(** The callback raises one notification for each watched thread whose
    number of comments is above the number stored for it. *)
Lemma watchedSettled_notifications (new : list (Z * Z)) (c : Client) :
  notifications (watchedSettled new c)
  = (notifications c + List.length (filter (grew (stored c)) new))%nat
  /\ token (watchedSettled new c) = token c
  /\ page (watchedSettled new c) = page c
  /\ watchedThreads (watchedSettled new c)
     = match token c with
       | Some _ => Some new
       | None => watchedThreads c
       end
  /\ intervalId (watchedSettled new c) = intervalId c
  /\ intervals (watchedSettled new c) = intervals c
  /\ nextInterval (watchedSettled new c) = nextInterval c.
Proof.
  unfold watchedSettled.
  set (previous := match watchedThreads c with Some o => o | None => [] end).
  set (step := fun (c0 : Client) (entry : Z * Z) =>
                 let '(thread, numComments) := entry in
                 match getKey thread previous with
                 | Some old =>
                     if old <? numComments then raiseNotification c0 else c0
                 | None => c0
                 end).
  assert (H : forall l c0,
             notifications (fold_left step l c0)
             = (notifications c0
                + List.length (filter (grew previous) l))%nat
             /\ token (fold_left step l c0) = token c0
             /\ page (fold_left step l c0) = page c0
             /\ watchedThreads (fold_left step l c0) = watchedThreads c0
             /\ intervalId (fold_left step l c0) = intervalId c0
             /\ intervals (fold_left step l c0) = intervals c0
             /\ nextInterval (fold_left step l c0) = nextInterval c0).
  { induction l as [|[k v] l IH]; intros c0.
    - cbn [fold_left filter List.length]. rewrite Nat.add_0_r.
      repeat split.
    - cbn [fold_left filter fst snd].
      destruct (IH (step c0 (k, v))) as (I1 & I2 & I3 & I4 & I5 & I6 & I7).
      rewrite I1, I2, I3, I4, I5, I6, I7. unfold step, grew. cbn [fst snd].
      destruct (getKey k previous) as [old|]; [|repeat split].
      destruct (old <? v); [|repeat split].
      cbn [raiseNotification with_notifications notifications token page
           watchedThreads intervalId intervals nextInterval List.length].
      repeat split. lia. }
  destruct (H new c) as (H1 & H2 & H3 & H4 & H5 & H6 & H7).
  fold step. rewrite H2.
  destruct (token c);
    cbn [with_watchedThreads notifications token page watchedThreads
         intervalId intervals nextInterval];
    repeat split; assumption.
Qed.

(** A poll either settles the counts [new] on the client, or changes the
    page alone; which of the two, and with which counts, is decided by the
    backend and the user id. *)
Lemma pollWatchedThreads_cases (fuel : nat) (backend : Backend) (c : Client) :
  (exists new,
      ascending new
      /\ forall c', userId (page c') = userId (page c) ->
                    exists p, pollWatchedThreads fuel backend c'
                              = watchedSettled new (with_page p c')
                              /\ userId p = userId (page c'))
  \/ (forall c', userId (page c') = userId (page c) ->
                 exists p, pollWatchedThreads fuel backend c' = with_page p c'
                           /\ userId p = userId (page c')).
Proof.
  destruct (fst (fetchAllThreads fuel (getThreads backend) 0 [] (page c)))
    as [all|error|] eqn:Efetch.
  - destruct (fst (gatherWatched
                     backend (parseIntAttr (userId (page c))) all (page c)))
      as [new|error|] eqn:Egather.
    + left. exists new. split.
      { destruct (gatherWatched_promise
                    backend (parseIntAttr (userId (page c))) all
                    (page c) (page c)) as (_ & _ & H).
        apply H. exact Egather. }
      intros c' Hu. unfold pollWatchedThreads.
      destruct (fetchAllThreads_promise (getThreads backend) fuel 0 []
                                        (page c') (page c)) as [H1 H2].
      destruct (fetchAllThreads fuel (getThreads backend) 0 [] (page c'))
        as [r p1]. cbn [fst snd] in H1, H2. rewrite Efetch in H1. subst r.
      destruct (gatherWatched_promise
                  backend (parseIntAttr (userId (page c'))) all p1 (page c))
        as (G1 & G2 & _).
      rewrite Hu in G1 at 2. rewrite Egather in G1.
      destruct (gatherWatched backend (parseIntAttr (userId (page c'))) all p1)
        as [r p2]. cbn [fst snd] in G1, G2. subst r.
      exists p2. split; [reflexivity|congruence].
    + right. intros c' Hu. unfold pollWatchedThreads.
      destruct (fetchAllThreads_promise (getThreads backend) fuel 0 []
                                        (page c') (page c)) as [H1 H2].
      destruct (fetchAllThreads fuel (getThreads backend) 0 [] (page c'))
        as [r p1]. cbn [fst snd] in H1, H2. rewrite Efetch in H1. subst r.
      destruct (gatherWatched_promise
                  backend (parseIntAttr (userId (page c'))) all p1 (page c))
        as (G1 & G2 & _).
      rewrite Hu in G1 at 2. rewrite Egather in G1.
      destruct (gatherWatched backend (parseIntAttr (userId (page c'))) all p1)
        as [r p2]. cbn [fst snd] in G1, G2. subst r.
      eexists. split; [reflexivity|]. cbn. congruence.
    + right. intros c' Hu. unfold pollWatchedThreads.
      destruct (fetchAllThreads_promise (getThreads backend) fuel 0 []
                                        (page c') (page c)) as [H1 H2].
      destruct (fetchAllThreads fuel (getThreads backend) 0 [] (page c'))
        as [r p1]. cbn [fst snd] in H1, H2. rewrite Efetch in H1. subst r.
      destruct (gatherWatched_promise
                  backend (parseIntAttr (userId (page c'))) all p1 (page c))
        as (G1 & G2 & _).
      rewrite Hu in G1 at 2. rewrite Egather in G1.
      destruct (gatherWatched backend (parseIntAttr (userId (page c'))) all p1)
        as [r p2]. cbn [fst snd] in G1, G2. subst r.
      eexists. split; [reflexivity|]. congruence.
  - right. intros c' Hu. unfold pollWatchedThreads.
    destruct (fetchAllThreads_promise (getThreads backend) fuel 0 []
                                      (page c') (page c)) as [H1 H2].
    destruct (fetchAllThreads fuel (getThreads backend) 0 [] (page c'))
      as [r p1]. cbn [fst snd] in H1, H2. rewrite Efetch in H1. subst r.
    eexists. split; [reflexivity|]. cbn. exact H2.
  - right. intros c' Hu. unfold pollWatchedThreads.
    destruct (fetchAllThreads_promise (getThreads backend) fuel 0 []
                                      (page c') (page c)) as [H1 H2].
    destruct (fetchAllThreads fuel (getThreads backend) 0 [] (page c'))
      as [r p1]. cbn [fst snd] in H1, H2. rewrite Efetch in H1. subst r.
    eexists. split; [reflexivity|]. exact H2.
Qed.

(** No entry of an object is above itself. *)
Lemma grew_self (o : list (Z * Z)) :
  ascending o -> filter (grew o) o = [].
Proof.
  intros Ho. apply filter_nothing. intros [k v] Hin. unfold grew.
  cbn [fst snd]. rewrite (getKey_In o k v Ho Hin). apply Z.ltb_irrefl.
Qed.

(** X9: while the user is logged in, a poll that finds the backend as the
    poll before it found it raises no notification and stores the same
    counts; and the first poll after a login, when nothing is stored yet,
    raises none either. *)
Theorem X9_poll_twice_silent (fuel : nat) (backend : Backend) (c : Client) :
  token c <> None ->
  notifications
    (pollWatchedThreads fuel backend (pollWatchedThreads fuel backend c))
  = notifications (pollWatchedThreads fuel backend c)
  /\ watchedThreads
       (pollWatchedThreads fuel backend (pollWatchedThreads fuel backend c))
     = watchedThreads (pollWatchedThreads fuel backend c)
  /\ (watchedThreads c = None ->
      notifications (pollWatchedThreads fuel backend c) = notifications c).
Proof.
  intros Htoken.
  destruct (pollWatchedThreads_cases fuel backend c) as [(new & Hasc & H)|H].
  - destruct (H c eq_refl) as (p1 & Hc1 & Hu1).
    set (c1 := pollWatchedThreads fuel backend c) in *.
    destruct (watchedSettled_notifications new (with_page p1 c))
      as (N1 & T1 & P1 & W1 & _).
    rewrite <- Hc1 in N1, T1, P1, W1.
    cbn [with_page token page watchedThreads notifications] in N1, T1, P1, W1.
    assert (Hw1 : watchedThreads c1 = Some new).
    { rewrite W1. destruct (token c); [reflexivity|congruence]. }
    destruct (H c1) as (p2 & Hc2 & Hu2); [rewrite P1; exact Hu1|].
    destruct (watchedSettled_notifications new (with_page p2 c1))
      as (N2 & T2 & _ & W2 & _).
    rewrite <- Hc2 in N2, T2, W2.
    cbn [with_page token page watchedThreads notifications] in N2, T2, W2.
    unfold stored in N2. cbn [with_page watchedThreads] in N2.
    rewrite Hw1, (grew_self new Hasc) in N2. cbn [List.length] in N2.
    split; [lia|]. split.
    + rewrite W2, T1, Hw1. destruct (token c); [reflexivity|congruence].
    + intros Hnone. rewrite N1. unfold stored.
      cbn [with_page watchedThreads]. rewrite Hnone.
      rewrite filter_nothing; [cbn [List.length]; lia|].
      intros e _. reflexivity.
  - destruct (H c eq_refl) as (p1 & Hc1 & Hu1).
    set (c1 := pollWatchedThreads fuel backend c) in *.
    destruct (H c1) as (p2 & Hc2 & Hu2); [rewrite Hc1; exact Hu1|].
    rewrite Hc2, Hc1. repeat split.
Qed.

Lemma X9_poll_twice_silent_witness :
  watchedThreads
    (pollWatchedThreads 2 (sampleBackend sampleComments) sampleClient)
  = Some [(11, 6)]
  /\ notifications
       (pollWatchedThreads
          2 (sampleBackend sampleComments)
          (pollWatchedThreads 2 (sampleBackend sampleComments) sampleClient))
     = 0%nat
  /\ watchedThreads
       (pollWatchedThreads
          2 (sampleBackend sampleComments)
          (pollWatchedThreads 2 (sampleBackend sampleComments) sampleClient))
     = Some [(11, 6)].
Proof.
  destruct (X9_poll_twice_silent 2 (sampleBackend sampleComments) sampleClient)
    as (H1 & H2 & H3); [discriminate|].
  assert (Hw : watchedThreads
                 (pollWatchedThreads 2 (sampleBackend sampleComments)
                                     sampleClient)
               = Some [(11, 6)]) by (vm_compute; reflexivity).
  split; [exact Hw|]. split.
  - rewrite H1. apply H3. reflexivity.
  - rewrite H2. exact Hw.
Defined.

(** X10: when the counts of the watched threads are in, one notification
    is raised for each thread whose count is above the count stored for
    it -- one, whatever the difference -- and none for a thread that has
    no stored count or whose count has not grown; the new counts replace
    the stored ones if a token is still there, and are dropped if not. *)
Theorem X10_notification_per_grown_thread (new : list (Z * Z)) (c : Client) :
  notifications (watchedSettled new c)
  = (notifications c + List.length (filter (grew (stored c)) new))%nat
  /\ (forall t n u,
         In (t, n) new -> getKey t (stored c) = Some u -> u < n ->
         (notifications c < notifications (watchedSettled new c))%nat)
  /\ ((forall t n u,
          In (t, n) new -> getKey t (stored c) = Some u -> n <= u) ->
      notifications (watchedSettled new c) = notifications c)
  /\ (token c <> None -> watchedThreads (watchedSettled new c) = Some new)
  /\ (token c = None ->
      watchedThreads (watchedSettled new c) = watchedThreads c).
Proof.
  destruct (watchedSettled_notifications new c) as (N & _ & _ & W & _).
  split; [exact N|]. split; [|split; [|split]].
  - intros t n u Hin Hu Hlt. rewrite N.
    assert (Hf : In (t, n) (filter (grew (stored c)) new)).
    { apply filter_In. split; [exact Hin|]. unfold grew. cbn [fst snd].
      rewrite Hu. apply Z.ltb_lt. exact Hlt. }
    destruct (filter (grew (stored c)) new); [destruct Hf|].
    cbn [List.length]. lia.
  - intros H. rewrite N, filter_nothing; [cbn [List.length]; lia|].
    intros [t n] Hin. unfold grew. cbn [fst snd].
    destruct (getKey t (stored c)) as [u|] eqn:E; [|reflexivity].
    apply Z.ltb_ge. apply (H t n u); assumption.
  - intros Ht. rewrite W. destruct (token c); [reflexivity|congruence].
  - intros Ht. rewrite W, Ht. reflexivity.
Qed.

(** ** The polling timer *)

(** A poll leaves the timers alone. *)
Lemma pollWatchedThreads_timers (fuel : nat) (backend : Backend) (c : Client) :
  intervalId (pollWatchedThreads fuel backend c) = intervalId c
  /\ intervals (pollWatchedThreads fuel backend c) = intervals c
  /\ nextInterval (pollWatchedThreads fuel backend c) = nextInterval c.
Proof.
  destruct (pollWatchedThreads_cases fuel backend c) as [(new & _ & H)|H];
    destruct (H c eq_refl) as (p & -> & _).
  - destruct (watchedSettled_notifications new (with_page p c))
      as (_ & _ & _ & _ & H1 & H2 & H3).
    rewrite H1, H2, H3. repeat split.
  - repeat split.
Qed.

Lemma startPolling_timers (fuel : nat) (backend : Backend) (c : Client) :
  intervalId (startPolling fuel backend c) = Some (nextInterval c)
  /\ intervals (startPolling fuel backend c) = nextInterval c :: intervals c
  /\ nextInterval (startPolling fuel backend c) = S (nextInterval c).
Proof.
  destruct (pollWatchedThreads_timers fuel backend c) as (_ & H2 & H3).
  unfold startPolling. cbn [intervalId intervals nextInterval].
  rewrite H2, H3. repeat split.
Qed.

Lemma pollStep_fresh (fuel : nat) (backend : Backend) (c : Client)
      (a : PollAction) :
  timersFresh c -> timersFresh (pollStep fuel backend c a).
Proof.
  intros Hf. pose proof Hf as [H1 H2]. destruct a; cbn [pollStep].
  - destruct (startPolling_timers fuel backend c) as (E1 & E2 & E3).
    unfold timersFresh. rewrite E1, E2, E3. split.
    + intros i [<-|Hi]; [lia|]. apply H1 in Hi. lia.
    + intros i [= <-]. lia.
  - unfold stopPolling. destruct (intervalId c) as [id|] eqn:E; [|exact Hf].
    unfold timersFresh. cbn [intervals intervalId nextInterval]. split.
    + intros i Hi. apply filter_In in Hi. apply H1. tauto.
    + intros i Hi. discriminate.
  - destruct (intervals c) eqn:E; [exact Hf|].
    destruct (pollWatchedThreads_timers fuel backend c) as (E1 & E2 & E3).
    unfold timersFresh. rewrite E1, E2, E3. exact Hf.
Qed.

(** X11: [stopPolling] clears the interval of the last [startPolling]
    only.  A start followed by a stop leaves the timers as they were; but
    an interval that is running when [startPolling] is called again is
    never cleared, whatever calls of the two functions follow. *)
Theorem X11_second_start_orphans_timer (fuel : nat) (backend : Backend)
        (c : Client) :
  timersFresh c ->
  (intervalId c = None ->
   intervalId (stopPolling (startPolling fuel backend c)) = None
   /\ intervals (stopPolling (startPolling fuel backend c)) = intervals c)
  /\ (forall i acts,
         intervalId c = Some i -> In i (intervals c) ->
         In i (intervals (fold_left (pollStep fuel backend) acts
                                    (startPolling fuel backend c)))).
Proof.
  intros Hfresh. pose proof Hfresh as [H1 H2].
  destruct (startPolling_timers fuel backend c) as (E1 & E2 & E3).
  split.
  - intros _. unfold stopPolling. rewrite E1.
    cbn [intervalId intervals]. split; [reflexivity|].
    rewrite E2. cbn [filter]. rewrite Nat.eqb_refl. cbn [negb].
    apply forallb_filter_id, forallb_forall. intros i Hi.
    apply negb_true_iff, Nat.eqb_neq. apply H1 in Hi. lia.
  - intros i acts Hid Hin.
    assert (Hinv : forall acts c0,
               timersFresh c0 -> In i (intervals c0) ->
               intervalId c0 <> Some i ->
               In i (intervals (fold_left (pollStep fuel backend) acts c0))).
    { clear. induction acts as [|a acts IH]; intros c0 Hf Hi Hne;
        [exact Hi|].
      cbn [fold_left]. apply IH; [apply pollStep_fresh; exact Hf| |].
      - destruct a; cbn [pollStep].
        + destruct (startPolling_timers fuel backend c0) as (_ & -> & _).
          right. exact Hi.
        + unfold stopPolling. destruct (intervalId c0) as [id|]; [|exact Hi].
          cbn [intervals]. apply filter_In. split; [exact Hi|].
          apply negb_true_iff, Nat.eqb_neq. congruence.
        + destruct (intervals c0) eqn:E; [destruct Hi|].
          destruct (pollWatchedThreads_timers fuel backend c0) as (_ & -> & _).
          rewrite E. exact Hi.
      - destruct a; cbn [pollStep].
        + destruct (startPolling_timers fuel backend c0) as (-> & _).
          destruct Hf as [Hf _]. apply Hf in Hi. intros [= E]. lia.
        + unfold stopPolling. destruct (intervalId c0) as [id|] eqn:E;
            [cbn [intervalId]; discriminate|congruence].
        + destruct (intervals c0) eqn:E; [exact Hne|].
          destruct (pollWatchedThreads_timers fuel backend c0) as (-> & _).
          exact Hne. }
    apply Hinv.
    + apply (pollStep_fresh fuel backend c StartPolling). exact Hfresh.
    + rewrite E2. right. exact Hin.
    + rewrite E1. apply H1 in Hin. intros [= E]. lia.
Qed.

(** Two logins in a row and then a logout: the interval of the first is
    still running. *)
Lemma X11_second_start_orphans_timer_witness :
  intervals
    (stopPolling (startPolling 2 (sampleBackend []) sampleClient)) = []
  /\ In 1%nat
        (intervals
           (stopPolling
              (stopPolling
                 (startPolling
                    2 (sampleBackend [])
                    (startPolling 2 (sampleBackend []) sampleClient))))).
Proof.
  split.
  - destruct (X11_second_start_orphans_timer
                2 (sampleBackend []) sampleClient) as [H _].
    + split; [intros i []|discriminate].
    + apply H. reflexivity.
  - destruct (X11_second_start_orphans_timer
                2 (sampleBackend [])
                (startPolling 2 (sampleBackend []) sampleClient)) as [_ H].
    + apply (pollStep_fresh 2 (sampleBackend []) sampleClient StartPolling).
      split; [intros i []|discriminate].
    + apply (H 1%nat [StopPolling; StopPolling]).
      * vm_compute. reflexivity.
      * vm_compute. left. reflexivity.
Defined.

(** ** The like button of a thread *)

Lemma addToText_toString (x n : Z) : addToText x (toString n) = toString (n + x).
Proof. unfold addToText. rewrite parseInt_toString. reflexivity. Qed.

(** One click on the heart of an unlocked thread. *)
Lemma heart_click (d : Board.t) :
  data_is_locked (Board.page d) <> Some "true" ->
  onHeartButtonClick d
  = Board.send
      (mkToggle "thread/like" (parseIntAttr (Board.data_thread_id d))
                (negb (Board.isHeartButtonClicked d)))
      (changeLikesThread
         (if Board.isHeartButtonClicked d then -1 else 1)
         (changeLikesThreadList
            (if Board.isHeartButtonClicked d then -1 else 1)
            (parseIntAttr (Board.data_thread_id d))
            (Board.with_heart (negb (Board.isHeartButtonClicked d))
                              (if Board.isHeartButtonClicked d
                               then "none" else "red") d))).
Proof.
  intros Hl. unfold onHeartButtonClick.
  assert (Hlock : attrIs (data_is_locked (Board.page d)) "true" = false)
    by (apply not_true_iff_false; rewrite attrIs_true; exact Hl).
  rewrite Hlock. destruct (Board.isHeartButtonClicked d); reflexivity.
Qed.

Lemma changeLikes_back (x : Z) (threadId : option Z) (l : list Cell) :
  (forall thread, In thread l -> showsThread threadId thread = true ->
                  exists m, likes_count thread = toString m) ->
  map (fun thread =>
         if attrIs (cell_data_thread_id thread) (String_ (ofParse threadId))
         then mkCell (cell_data_thread_id thread) (cell_data_user_id thread)
                     (threads_list_title thread) (threads_list_author thread)
                     (threads_list_post_date thread)
                     (addToText (- x) (likes_count thread))
                     (threads_list_heart_icon thread)
         else thread)
      (map (fun thread =>
              if attrIs (cell_data_thread_id thread)
                        (String_ (ofParse threadId))
              then mkCell (cell_data_thread_id thread)
                          (cell_data_user_id thread)
                          (threads_list_title thread)
                          (threads_list_author thread)
                          (threads_list_post_date thread)
                          (addToText x (likes_count thread))
                          (threads_list_heart_icon thread)
              else thread) l)
  = l.
Proof.
  intros H. rewrite map_map. rewrite <- (map_id l) at 2.
  apply map_ext_in. intros thread Hin. specialize (H thread Hin).
  unfold showsThread in H.
  destruct (attrIs (cell_data_thread_id thread) (String_ (ofParse threadId)))
    eqn:E; cbn [cell_data_thread_id]; rewrite E; [|reflexivity].
  destruct (H eq_refl) as (m & Hm). cbn [likes_count].
  rewrite Hm, !addToText_toString.
  replace (m + x + - x) with m by lia. rewrite <- Hm.
  destruct thread. reflexivity.
Qed.

(** X12: on a thread that is not locked, a click on the heart flips the
    module variable and the icon, moves the count of the thread by one --
    under the thread and in every cell of the list that shows it, each
    cell keeping its place and its other texts -- and sends the toggle; a
    second click brings the counts and the variable back and sends the
    opposite toggle.  The cells of other threads are never touched. *)
Theorem X12_heart_twice_restores (d : Board.t) (n : Z) :
  data_is_locked (Board.page d) <> Some "true" ->
  Board.thread_likes d = toString n ->
  (forall thread,
      In thread (Board.threadsListItems d) ->
      showsThread (parseIntAttr (Board.data_thread_id d)) thread = true ->
      exists m, likes_count thread = toString m) ->
  Board.thread_likes (onHeartButtonClick d)
  = toString (if Board.isHeartButtonClicked d then n - 1 else n + 1)
  /\ Board.isHeartButtonClicked (onHeartButtonClick d)
     = negb (Board.isHeartButtonClicked d)
  /\ Board.heart_fill (onHeartButtonClick d)
     = (if Board.isHeartButtonClicked d then "none" else "red")
  /\ Board.toggles (onHeartButtonClick d)
     = Board.toggles d
       ++ [mkToggle "thread/like" (parseIntAttr (Board.data_thread_id d))
                    (negb (Board.isHeartButtonClicked d))]
  /\ (forall i thread,
         nth_error (Board.threadsListItems d) i = Some thread ->
         showsThread (parseIntAttr (Board.data_thread_id d)) thread = false ->
         nth_error (Board.threadsListItems (onHeartButtonClick d)) i
         = Some thread)
  /\ (forall i thread m,
         nth_error (Board.threadsListItems d) i = Some thread ->
         showsThread (parseIntAttr (Board.data_thread_id d)) thread = true ->
         likes_count thread = toString m ->
         nth_error (Board.threadsListItems (onHeartButtonClick d)) i
         = Some (mkCell (cell_data_thread_id thread)
                        (cell_data_user_id thread)
                        (threads_list_title thread)
                        (threads_list_author thread)
                        (threads_list_post_date thread)
                        (toString (if Board.isHeartButtonClicked d
                                   then m - 1 else m + 1))
                        (threads_list_heart_icon thread)))
  /\ Board.thread_likes (onHeartButtonClick (onHeartButtonClick d))
     = toString n
  /\ Board.threadsListItems (onHeartButtonClick (onHeartButtonClick d))
     = Board.threadsListItems d
  /\ Board.isHeartButtonClicked (onHeartButtonClick (onHeartButtonClick d))
     = Board.isHeartButtonClicked d
  /\ Board.page (onHeartButtonClick (onHeartButtonClick d)) = Board.page d
  /\ Board.toggles (onHeartButtonClick (onHeartButtonClick d))
     = Board.toggles d
       ++ [mkToggle "thread/like" (parseIntAttr (Board.data_thread_id d))
                    (negb (Board.isHeartButtonClicked d));
           mkToggle "thread/like" (parseIntAttr (Board.data_thread_id d))
                    (Board.isHeartButtonClicked d)].
Proof.
  intros Hl Hn Hcells.
  pose proof (heart_click d Hl) as H1.
  set (d1 := onHeartButtonClick d) in *.
  assert (Hpage : Board.page d1 = Board.page d) by (rewrite H1; reflexivity).
  assert (Hid : Board.data_thread_id d1 = Board.data_thread_id d)
    by (rewrite H1; reflexivity).
  assert (Hflag : Board.isHeartButtonClicked d1
                  = negb (Board.isHeartButtonClicked d))
    by (rewrite H1; reflexivity).
  pose proof (heart_click d1) as H2. rewrite Hpage in H2. specialize (H2 Hl).
  rewrite Hid, Hflag, negb_involutive in H2.
  split; [|split; [|split; [|split; [|split; [|split; [|split; [|split;
    [|split; [|split]]]]]]]]].
  - rewrite H1. cbn. rewrite Hn, addToText_toString.
    destruct (Board.isHeartButtonClicked d); reflexivity.
  - exact Hflag.
  - rewrite H1. reflexivity.
  - rewrite H1. reflexivity.
  - intros i thread Hi Hs. rewrite H1. cbn.
    rewrite nth_error_map, Hi. cbn [option_map]. unfold showsThread in Hs.
    rewrite Hs. reflexivity.
  - intros i thread m Hi Hs Hm. rewrite H1. cbn.
    rewrite nth_error_map, Hi. cbn [option_map]. unfold showsThread in Hs.
    rewrite Hs, Hm, addToText_toString.
    destruct (Board.isHeartButtonClicked d); reflexivity.
  - rewrite H2. cbn. rewrite H1. cbn. rewrite Hn, !addToText_toString.
    f_equal. destruct (Board.isHeartButtonClicked d); cbn [negb]; lia.
  - rewrite H2. cbn. rewrite H1. cbn.
    destruct (Board.isHeartButtonClicked d); cbn [negb].
    + apply (changeLikes_back (-1)). exact Hcells.
    + apply (changeLikes_back 1). exact Hcells.
  - rewrite H2. reflexivity.
  - rewrite H2. cbn. exact Hpage.
  - rewrite H2. cbn. rewrite H1. cbn. rewrite <- app_assoc. reflexivity.
Qed.

(** Thread 12 of the sample dashboard, liked by the user: a click takes
    the like back, a second click gives it again. *)
Lemma X12_heart_twice_restores_witness :
  Board.thread_likes (onHeartButtonClick sampleBoard) = "0"
  /\ nth_error (Board.threadsListItems (onHeartButtonClick sampleBoard)) 1
     = Some (mkCell (Some "12") (Some "6") "twelve" "bob" "02/01/24" "0" "")
  /\ Board.toggles (onHeartButtonClick sampleBoard)
     = [mkToggle "thread/like" (Some 12) false]
  /\ Board.thread_likes (onHeartButtonClick (onHeartButtonClick sampleBoard))
     = "1"
  /\ Board.threadsListItems (onHeartButtonClick (onHeartButtonClick sampleBoard))
     = Board.threadsListItems sampleBoard
  /\ Board.toggles (onHeartButtonClick (onHeartButtonClick sampleBoard))
     = [mkToggle "thread/like" (Some 12) false;
        mkToggle "thread/like" (Some 12) true].
Proof.
  destruct (X12_heart_twice_restores sampleBoard 1)
    as (H1 & _ & _ & H4 & _ & H5 & H6 & H7 & _ & _ & H10).
  - vm_compute. discriminate.
  - reflexivity.
  - intros thread [<-|[<-|[]]] Hs.
    + vm_compute in Hs. discriminate.
    + exists 1. reflexivity.
  - split; [exact H1|]. split.
    { rewrite (H5 1%nat
                  (mkCell (Some "12") (Some "6") "twelve" "bob" "02/01/24"
                          "1" "") 1);
        [vm_compute|..]; reflexivity. }
    split; [exact H4|]. split; [exact H6|]. split; [exact H7|exact H10].
Defined.

(** ** A thread on display *)

Lemma requestComments_userId (tid : string) (p : Page) :
  userId (requestComments tid p) = userId p.
Proof.
  destruct (requestComments_spec tid p) as (t & ->). reflexivity.
Qed.

(** The thread view once the data of the thread is in. *)
Lemma displayThread_loaded (backend : Backend) (tid : string) (d : Board.t)
      (data : ThreadData.t) :
  getThread backend tid = Replied data ->
  Board.data_thread_id (displayThread backend tid d) = Some tid
  /\ Board.thread_likes (displayThread backend tid d)
     = toString (Z.of_nat (List.length (ThreadData.likes data)))
  /\ data_is_locked (Board.page (displayThread backend tid d))
     = Some (if ThreadData.lock data then "true" else "false")
  /\ Board.isHeartButtonClicked (displayThread backend tid d)
     = includes (ThreadData.likes data) (currentUser d)
  /\ Board.isWatchButtonClicked (displayThread backend tid d)
     = includes (ThreadData.watchees data) (currentUser d)
  /\ Board.toggles (displayThread backend tid d) = Board.toggles d
  /\ Board.threadsListItems (displayThread backend tid d)
     = Board.threadsListItems d
  /\ threadComments (Board.page (displayThread backend tid d)) = [].
Proof.
  intros Hget. unfold displayThread. rewrite Hget.
  set (d1 := Board.onPage (requestComments tid)
                          (Board.onPage (emit (ApiCall (threadRequest tid)))
                                        d)).
  assert (Hu : userId (Board.page d1) = userId (Board.page d)).
  { unfold d1. cbn [Board.page Board.onPage].
    rewrite requestComments_userId. reflexivity. }
  assert (Hc : threadComments (Board.page d1) = []).
  { unfold d1. cbn [Board.page Board.onPage].
    destruct (requestComments_spec tid (emit (ApiCall (threadRequest tid))
                                             (Board.page d))) as (t & ->).
    reflexivity. }
  assert (Ht : Board.toggles d1 = Board.toggles d) by reflexivity.
  assert (Hi : Board.threadsListItems d1 = Board.threadsListItems d)
    by reflexivity.
  unfold currentUser. rewrite <- Hu, <- Ht, <- Hi. clearbody d1.
  cbn [Board.page Board.onPage Board.with_threadText with_data_is_locked
       userId].
  set (uid := parseIntAttr (userId (Board.page d1))). clearbody uid.
  unfold canUserChangeThread.
  destruct (getUser backend (String_ (ofParse uid))) as [user|error];
    destruct (includes (ThreadData.likes data) uid);
    destruct (includes (ThreadData.watchees data) uid);
    destruct (ThreadData.lock data);
    destruct (match uid with
              | Some u => ThreadData.creatorId data =? u
              | None => false
              end);
    try destruct (UserData.admin user);
    cbn; rewrite ?Hc; repeat split.
Qed.

(** X13: once the data of a thread is in, the thread view follows it.  The
    heart is on exactly when the user is among the likes, and the count is
    their number.  On a locked thread the heart, every link of the comment
    list and the main reply button answer with the error alone; on an
    unlocked thread the first click on the heart sends the opposite of the
    user's like for the thread on display.  The watch button is not
    guarded by the lock. *)
Theorem X13_displayed_thread_follows_data (backend : Backend) (tid : string)
        (d : Board.t) (data : ThreadData.t) :
  getThread backend tid = Replied data ->
  Board.isHeartButtonClicked (displayThread backend tid d)
  = includes (ThreadData.likes data) (currentUser d)
  /\ Board.thread_likes (displayThread backend tid d)
     = toString (Z.of_nat (List.length (ThreadData.likes data)))
  /\ (ThreadData.lock data = true ->
      onHeartButtonClick (displayThread backend tid d)
      = Board.onPage (showErrorPopUp "thread is locked")
                     (displayThread backend tid d)
      /\ onThreadMainReplyClick (Board.page (displayThread backend tid d))
         = Done (showErrorPopUp "thread is locked"
                                (Board.page (displayThread backend tid d)))
      /\ forall ev,
          isAnchor ev = true ->
          onThreadCommentsClick ev (Board.page (displayThread backend tid d))
          = Done (showErrorPopUp "thread is locked"
                                 (Board.page (displayThread backend tid d))))
  /\ (ThreadData.lock data = false ->
      Board.toggles (onHeartButtonClick (displayThread backend tid d))
      = Board.toggles d
        ++ [mkToggle "thread/like" (parseInt tid)
                     (negb (includes (ThreadData.likes data)
                                     (currentUser d)))]
      /\ Board.thread_likes (onHeartButtonClick (displayThread backend tid d))
         = toString (Z.of_nat (List.length (ThreadData.likes data))
                     + (if includes (ThreadData.likes data) (currentUser d)
                        then -1 else 1)))
  /\ Board.toggles (onWatchButtonClick (displayThread backend tid d))
     = Board.toggles d
       ++ [mkToggle "thread/watch" (parseInt tid)
                    (negb (includes (ThreadData.watchees data)
                                    (currentUser d)))].
Proof.
  intros Hget.
  destruct (displayThread_loaded backend tid d data Hget)
    as (Hid & Hlikes & Hlock & Hheart & Hwatch & Htog & _ & _).
  set (d' := displayThread backend tid d) in *.
  split; [exact Hheart|]. split; [exact Hlikes|]. split; [|split].
  - intros Hl. rewrite Hl in Hlock.
    assert (Ha : attrIs (data_is_locked (Board.page d')) "true" = true)
      by (apply attrIs_true; exact Hlock).
    split; [|split].
    + unfold onHeartButtonClick. rewrite Ha. reflexivity.
    + unfold onThreadMainReplyClick. rewrite Ha. reflexivity.
    + intros ev Hev. unfold onThreadCommentsClick. rewrite Hev, Ha.
      reflexivity.
  - intros Hl. rewrite Hl in Hlock.
    assert (Hne : data_is_locked (Board.page d') <> Some "true")
      by (rewrite Hlock; discriminate).
    rewrite (heart_click d' Hne), Hid, Hheart. cbn.
    rewrite Htog, Hlikes, addToText_toString.
    destruct (includes (ThreadData.likes data) (currentUser d)); split;
      reflexivity.
  - unfold onWatchButtonClick. rewrite Hid, Hwatch.
    destruct (includes (ThreadData.watchees data) (currentUser d)); cbn;
      rewrite Htog; reflexivity.
Qed.

Lemma X13_displayed_thread_follows_data_witness :
  Board.isHeartButtonClicked sampleBoard = true
  /\ Board.thread_likes sampleBoard = "1"
  /\ Board.toggles (onHeartButtonClick sampleBoard)
     = [mkToggle "thread/like" (Some 12) false]
  /\ Board.thread_likes (onHeartButtonClick sampleBoard) = "0".
Proof.
  destruct (X13_displayed_thread_follows_data
              (sampleBackend sampleComments) "12" listedBoard
              (ThreadData.mk "twelve" "" [7] [] false true 6 ""))
    as (H1 & H2 & _ & H4 & _); [reflexivity|].
  destruct (H4 eq_refl) as [H5 H6].
  split; [exact H1|]. split; [exact H2|]. split; [exact H5|exact H6].
Defined.

(** X14: the edit and delete buttons of a thread on display.  When the
    lookup of the user succeeds, the delete button is shown exactly to the
    creator of the thread and to administrators, and the edit button to
    them as long as the thread is not locked.  When the lookup fails, the
    error is shown and both buttons stay as the thread shown before left
    them.  When the thread itself cannot be fetched, the error is shown,
    the texts and buttons stay, and the comment list has been emptied. *)
Theorem X14_thread_buttons (backend : Backend) (tid : string) (d : Board.t) :
  (forall data user,
      getThread backend tid = Replied data ->
      getUser backend (String_ (ofParse (currentUser d))) = Replied user ->
      Board.editButton (displayThread backend tid d)
      = (if mayChange data (currentUser d) user
            && negb (ThreadData.lock data)
         then "block" else "none")
      /\ Board.deleteButton (displayThread backend tid d)
         = (if mayChange data (currentUser d) user then "block" else "none")
      /\ errorPopUp (Board.page (displayThread backend tid d))
         = errorPopUp (Board.page d))
  /\ (forall data error,
         getThread backend tid = Replied data ->
         getUser backend (String_ (ofParse (currentUser d))) = Failed error ->
         Board.editButton (displayThread backend tid d) = Board.editButton d
         /\ Board.deleteButton (displayThread backend tid d)
            = Board.deleteButton d
         /\ errorPopUp (Board.page (displayThread backend tid d))
            = Some error)
  /\ (forall error,
         getThread backend tid = Failed error ->
         errorPopUp (Board.page (displayThread backend tid d)) = Some error
         /\ threadComments (Board.page (displayThread backend tid d)) = []
         /\ Board.h2 (displayThread backend tid d) = Board.h2 d
         /\ Board.data_thread_id (displayThread backend tid d)
            = Board.data_thread_id d
         /\ data_is_locked (Board.page (displayThread backend tid d))
            = data_is_locked (Board.page d)
         /\ Board.editButton (displayThread backend tid d)
            = Board.editButton d
         /\ Board.deleteButton (displayThread backend tid d)
            = Board.deleteButton d).
Proof.
  set (d1 := Board.onPage (requestComments tid)
                          (Board.onPage (emit (ApiCall (threadRequest tid)))
                                        d)).
  assert (Hu : userId (Board.page d1) = userId (Board.page d)).
  { unfold d1. cbn [Board.page Board.onPage].
    rewrite requestComments_userId. reflexivity. }
  assert (Hc : threadComments (Board.page d1) = []).
  { unfold d1. cbn [Board.page Board.onPage].
    destruct (requestComments_spec tid (emit (ApiCall (threadRequest tid))
                                             (Board.page d))) as (t & ->).
    reflexivity. }
  assert (Hp : errorPopUp (Board.page d1) = errorPopUp (Board.page d)).
  { unfold d1. cbn [Board.page Board.onPage].
    destruct (requestComments_page tid (emit (ApiCall (threadRequest tid))
                                             (Board.page d)))
      as (_ & _ & _ & _ & _ & _ & _ & _ & ->).
    reflexivity. }
  assert (Hl : data_is_locked (Board.page d1) = data_is_locked (Board.page d)).
  { unfold d1. cbn [Board.page Board.onPage].
    destruct (requestComments_page tid (emit (ApiCall (threadRequest tid))
                                             (Board.page d)))
      as (_ & _ & _ & _ & _ & _ & _ & -> & _).
    reflexivity. }
  assert (He : Board.editButton d1 = Board.editButton d) by reflexivity.
  assert (Hd : Board.deleteButton d1 = Board.deleteButton d) by reflexivity.
  assert (Hh : Board.h2 d1 = Board.h2 d) by reflexivity.
  assert (Hi : Board.data_thread_id d1 = Board.data_thread_id d)
    by reflexivity.
  unfold displayThread, currentUser. fold d1.
  rewrite <- Hu, <- Hp, <- He, <- Hd, <- Hh, <- Hi, <- Hl. clearbody d1.
  set (uid := parseIntAttr (userId (Board.page d1))).
  split; [|split].
  - intros data user Hget Huser. rewrite Hget.
    cbn [Board.page Board.onPage Board.with_threadText with_data_is_locked
         userId].
    fold uid. unfold canUserChangeThread, mayChange. rewrite Huser.
    clearbody uid.
    destruct (includes (ThreadData.likes data) uid);
      destruct (includes (ThreadData.watchees data) uid);
      destruct (ThreadData.lock data);
      destruct (match uid with
                | Some u => ThreadData.creatorId data =? u
                | None => false
                end);
      destruct (UserData.admin user);
      cbn; repeat split.
  - intros data error Hget Huser. rewrite Hget.
    cbn [Board.page Board.onPage Board.with_threadText with_data_is_locked
         userId].
    fold uid. unfold canUserChangeThread. rewrite Huser. clearbody uid.
    destruct (includes (ThreadData.likes data) uid);
      destruct (includes (ThreadData.watchees data) uid);
      cbn; repeat split.
  - intros error Hget. rewrite Hget. cbn. rewrite Hc. repeat split.
Qed.

(** Thread 12 of the sample backend belongs to user 6 and is not locked;
    user 7 is an administrator.  The backend has no thread 13. *)
Lemma X14_thread_buttons_witness :
  Board.editButton sampleBoard = "block"
  /\ Board.deleteButton sampleBoard = "block"
  /\ errorPopUp (Board.page sampleBoard) = None
  /\ errorPopUp
       (Board.page (displayThread (sampleBackend sampleComments) "13"
                                  listedBoard))
     = Some "no such thread".
Proof.
  destruct (X14_thread_buttons (sampleBackend sampleComments) "12" listedBoard)
    as (H1 & _ & _).
  destruct (H1 (ThreadData.mk "twelve" "" [7] [] false true 6 "")
               (UserData.mk "gil" "gil@example.com" true None)
               eq_refl eq_refl) as (E1 & E2 & E3).
  destruct (X14_thread_buttons (sampleBackend sampleComments) "13" listedBoard)
    as (_ & _ & H3).
  destruct (H3 "no such thread" eq_refl) as (E4 & _).
  split; [exact E1|]. split; [exact E2|]. split; [exact E3|exact E4].
Defined.

(** ** The list of threads *)

Lemma setNth_middle {A : Type} (a b : list A) (x y : A) :
  setNth (List.length a) x (a ++ y :: b) = a ++ x :: b.
Proof.
  induction a as [|z a IH]; [reflexivity|].
  cbn [List.length app setNth]. rewrite IH. reflexivity.
Qed.

Lemma appendThreadCells {A : Type} (l : list A) (d : Board.t) :
  fold_left (fun d _ => appendThreadCell d) l d
  = Board.with_threadsListItems
      (Board.threadsListItems d
         ++ repeat (mkCell (Some "") None "" "" "" "" "") (List.length l)) d.
Proof.
  revert d. induction l as [|x l IH]; intros d; cbn [fold_left].
  - cbn [List.length repeat]. rewrite app_nil_r. destruct d. reflexivity.
  - rewrite IH. unfold appendThreadCell.
    cbn [Board.threadsListItems Board.with_threadsListItems List.length
         repeat].
    rewrite <- app_assoc. reflexivity.
Qed.

Lemma emits_cells {A : Type} (f : A -> Event) (l : list A) (d : Board.t) :
  Board.threadsListItems
    (fold_left (fun d x => Board.onPage (emit (f x)) d) l d)
  = Board.threadsListItems d
  /\ Board.data_threads_count
       (fold_left (fun d x => Board.onPage (emit (f x)) d) l d)
     = Board.data_threads_count d.
Proof.
  revert d. induction l as [|x l IH]; intros d; [split; reflexivity|].
  cbn [fold_left]. destruct (IH (Board.onPage (emit (f x)) d)) as [-> ->].
  split; reflexivity.
Qed.

(** One thread's callbacks fill the cell appended for it. *)
Lemma fillCell_cells (formatDate : string -> string) (backend : Backend)
      (old done todo : list Cell) (i : nat) (thread : Z) (d : Board.t) :
  Board.threadsListItems d
  = old ++ done ++ mkCell (Some "") None "" "" "" "" "" :: todo ->
  List.length done = i ->
  Board.threadsListItems
    (fillCell formatDate backend
              (Some (Z.of_nat (List.length old))) i thread d)
  = old ++ (done ++ [cellOf formatDate backend thread]) ++ todo
  /\ Board.data_threads_count
       (fillCell formatDate backend
                 (Some (Z.of_nat (List.length old))) i thread d)
     = Board.data_threads_count d.
Proof.
  intros Hitems Hi. unfold fillCell, cellOf.
  assert (Hsame : old ++ done ++ mkCell (Some "") None "" "" "" "" "" :: todo
                  = old ++ (done ++ [mkCell (Some "") None "" "" "" "" ""])
                        ++ todo).
  { rewrite <- !app_assoc. reflexivity. }
  destruct (getThread backend (toString thread)) as [threadData|error];
    [|cbn [Board.onPage Board.threadsListItems Board.data_threads_count];
      rewrite Hitems, Hsame; split; reflexivity].
  destruct (getUser backend (toString (ThreadData.creatorId threadData)))
    as [userData|error];
    [|cbn [Board.onPage Board.threadsListItems Board.data_threads_count];
      rewrite Hitems, Hsame; split; reflexivity].
  unfold changeCell. cbn [option_map Board.onPage Board.threadsListItems].
  rewrite Hitems.
  assert (Hin : (0 <=? Z.of_nat i + Z.of_nat (List.length old))
                && (Z.of_nat i + Z.of_nat (List.length old)
                    <? Z.of_nat (List.length
                                   (old ++ done
                                        ++ mkCell (Some "") None "" "" "" "" ""
                                        :: todo))) = true).
  { apply andb_true_iff. split; [apply Z.leb_le; lia|].
    apply Z.ltb_lt. rewrite !length_app. cbn [List.length]. lia. }
  rewrite Hin.
  cbn [Board.with_threadsListItems Board.threadsListItems
       Board.data_threads_count].
  split; [|reflexivity].
  replace (Z.to_nat (Z.of_nat i + Z.of_nat (List.length old)))
    with (List.length (old ++ done))
    by (rewrite length_app; lia).
  rewrite (app_assoc old done), setNth_middle, <- !app_assoc. reflexivity.
Qed.

(** The cells after [displayThreads]. *)
Lemma displayThreads_cells (formatDate : string -> string)
        (backend : Backend) (threads : list Z) (d : Board.t) :
  counted_cells d ->
  Board.threadsListItems (displayThreads formatDate backend threads d)
  = Board.threadsListItems d ++ map (cellOf formatDate backend) threads
  /\ Board.data_threads_count (displayThreads formatDate backend threads d)
     = Board.data_threads_count d
  /\ List.length
       (Board.threadsListItems (displayThreads formatDate backend threads d))
     = (List.length (Board.threadsListItems d) + List.length threads)%nat.
Proof.
  intros Hcount. unfold displayThreads. unfold counted_cells in Hcount.
  rewrite Hcount. cbn [parseIntAttr]. rewrite parseInt_toString.
  rewrite appendThreadCells.
  set (old := Board.threadsListItems d).
  set (blank := mkCell (Some "") None "" "" "" "" "").
  match goal with
  | |- context [forEachIndexed _ 0 threads ?d0] => set (d1 := d0)
  end.
  assert (H1 : Board.threadsListItems d1
               = old ++ [] ++ repeat blank (List.length threads)
               /\ Board.data_threads_count d1 = Board.data_threads_count d).
  { unfold d1.
    match goal with
    | |- context [fold_left _ threads ?d0] =>
        destruct (emits_cells (fun thread =>
                                 ApiCall (threadRequest (toString thread)))
                              threads d0) as [-> ->]
    end.
    split; reflexivity. }
  clearbody d1.
  assert (Hgen : forall todo done i d0,
             Board.threadsListItems d0
             = old ++ done ++ repeat blank (List.length todo) ->
             List.length done = i ->
             Board.threadsListItems
               (forEachIndexed
                  (fillCell formatDate backend
                            (Some (Z.of_nat (List.length old)))) i todo d0)
             = old ++ done ++ map (cellOf formatDate backend) todo
             /\ Board.data_threads_count
                  (forEachIndexed
                     (fillCell formatDate backend
                               (Some (Z.of_nat (List.length old)))) i todo d0)
                = Board.data_threads_count d0).
  { induction todo as [|thread todo IH]; intros done i d0 Hitems Hi.
    - cbn [forEachIndexed map List.length repeat] in *.
      split; [exact Hitems|reflexivity].
    - cbn [forEachIndexed map List.length repeat] in *.
      destruct (fillCell_cells formatDate backend old done
                               (repeat blank (List.length todo)) i thread d0
                               Hitems Hi) as [F1 F2].
      destruct (IH (done ++ [cellOf formatDate backend thread]) (S i) _ F1)
        as [G1 G2].
      + rewrite length_app. cbn [List.length]. lia.
      + rewrite G1, G2, F2, <- !app_assoc. split; reflexivity. }
  destruct H1 as [H1 H2].
  destruct (Hgen threads [] 0%nat d1 H1 eq_refl) as [G1 G2].
  rewrite G1, G2, H2. split; [reflexivity|]. split; [exact Hcount|].
  cbn [app]. rewrite length_app, length_map. reflexivity.
Qed.


(** X15: [displayThreads] adds one cell per thread to the end of the list,
    in the order of the threads: the cell of a thread whose data and
    creator the backend returns shows its id, title, author, date and
    number of likes; the cell of a thread for which a lookup fails stays
    empty.  The cells that were there are not changed, provided the
    attribute [data-threads-count] holds their number. *)
Theorem X15_displayThreads_cells (formatDate : string -> string)
        (backend : Backend) (threads : list Z) (d : Board.t) :
  counted_cells d ->
  Board.threadsListItems (displayThreads formatDate backend threads d)
  = Board.threadsListItems d ++ map (cellOf formatDate backend) threads
  /\ Board.data_threads_count (displayThreads formatDate backend threads d)
     = Board.data_threads_count d.
Proof.
  intros Hcount.
  destruct (displayThreads_cells formatDate backend threads d Hcount)
    as (H1 & H2 & _).
  split; assumption.
Qed.

(** Thread 11 of the sample backend, by user 7, and a thread 13 it does
    not have. *)
Lemma X15_displayThreads_cells_witness :
  Board.threadsListItems
    (displayThreads (fun _ => "01/01/24") (sampleBackend []) [11; 13]
                    listedBoard)
  = Board.threadsListItems listedBoard
    ++ [mkCell (Some "11") (Some "7") "eleven" "gil" "01/01/24" "0" "&#9829; ";
        mkCell (Some "") None "" "" "" "" ""].
Proof.
  destruct (X15_displayThreads_cells
              (fun _ => "01/01/24") (sampleBackend []) [11; 13] listedBoard)
    as [H _]; [reflexivity|].
  rewrite H. reflexivity.
Defined.

Lemma firstn_plus {A : Type} (n m : nat) (l : list A) :
  firstn (n + m) l = firstn n l ++ firstn m (skipn n l).
Proof.
  revert l. induction n as [|n IH]; intros l; [reflexivity|].
  destruct l as [|x l]; cbn [Nat.add firstn skipn app].
  - rewrite firstn_nil. reflexivity.
  - rewrite IH. reflexivity.
Qed.

Lemma loadMore_paging (clientHeight : Z) (formatDate : string -> string)
      (backend : Backend) (all : list Z) :
  (forall start, getThreads backend start = paging all start) ->
  forall (fuel : nat) (d : Board.t),
    counted_cells d ->
    (1 <= fuel)%nat ->
    clientHeight + 5
    <= 75 * Z.of_nat (List.length (Board.threadsListItems d))
       + 375 * (Z.of_nat fuel - 1) ->
    exists d' m,
      loadMoreThreadsIfNeeded fuel clientHeight formatDate backend d = Some d'
      /\ Board.threadsListItems d'
         = Board.threadsListItems d
           ++ map (cellOf formatDate backend)
                (firstn m (skipn (List.length (Board.threadsListItems d)) all))
      /\ counted_cells d'
      /\ (clientHeight + 5
          <= 75 * Z.of_nat (List.length (Board.threadsListItems d'))
          \/ (List.length all
              <= List.length (Board.threadsListItems d) + m)%nat).
Proof.
  intros Hback. induction fuel as [|fuel IH]; intros d Hcount Hfuel Hh; [lia|].
  set (c := List.length (Board.threadsListItems d)) in *.
  cbn [loadMoreThreadsIfNeeded]. pose proof Hcount as Hattr.
  unfold counted_cells in Hattr. fold c in Hattr. rewrite Hattr.
  cbn [parseIntAttr]. rewrite parseInt_toString.
  cbn [option_map lt ofParse String_].
  destruct (Z.ltb_spec (Z.of_nat c * 75) (clientHeight + 5)) as [Hneed|Hfull].
  - rewrite Hback. unfold paging. rewrite parseInt_toString, Nat2Z.id.
    set (pg := firstn 5 (skipn c all)).
    set (d1 := Board.onPage (emit (ApiCall (threadsRequest
                                              (toString (Z.of_nat c))))) d).
    assert (Hc1 : counted_cells d1) by exact Hcount.
    destruct (displayThreads_cells formatDate backend pg d1 Hc1)
      as (Hitems & _ & Hlen).
    change (Board.threadsListItems d1) with (Board.threadsListItems d)
      in Hitems, Hlen.
    fold c in Hlen.
    set (d2 := displayThreads formatDate backend pg d1) in *.
    set (d3 := Board.with_data_threads_count
                 (Some (toString (Z.of_nat c + Z.of_nat (List.length pg))))
                 d2).
    assert (Hc3 : counted_cells d3).
    { unfold counted_cells, d3.
      cbn [Board.with_data_threads_count Board.data_threads_count
           Board.threadsListItems].
      rewrite Hlen. do 2 f_equal. lia. }
    assert (Hi3 : Board.threadsListItems d3
                  = Board.threadsListItems d
                    ++ map (cellOf formatDate backend) pg) by exact Hitems.
    assert (Hpg : List.length pg = Nat.min 5 (List.length all - c))
      by (unfold pg; rewrite length_firstn, length_skipn; reflexivity).
    destruct (Nat.eqb_spec (List.length pg) 5) as [Hfive|Hshort].
    + destruct (IH d3 Hc3) as (d' & m & Hd' & Hi' & Hc' & Hor).
      * lia.
      * rewrite Hi3, length_app, length_map. fold c. lia.
      * exists d', (5 + m)%nat. split; [exact Hd'|].
        split; [|split; [exact Hc'|]].
        -- rewrite Hi', Hi3, length_app, length_map, Hfive. fold c.
           rewrite <- app_assoc, <- map_app. do 2 f_equal.
           rewrite firstn_plus, skipn_skipn. fold pg.
           replace (5 + c)%nat with (c + 5)%nat by lia. reflexivity.
        -- destruct Hor as [Hor|Hor]; [left; exact Hor|right].
           rewrite Hi3, length_app, length_map, Hfive in Hor. fold c in Hor.
           lia.
    + exists d3, 5%nat. split; [reflexivity|]. split; [exact Hi3|].
      split; [exact Hc3|]. right. lia.
  - exists d, 0%nat. split; [reflexivity|].
    cbn [firstn map]. rewrite app_nil_r. split; [reflexivity|].
    split; [exact Hcount|]. left. fold c. lia.
Qed.

(** X16: [loadMoreThreadsIfNeeded] against a backend that serves its
    threads five at a time, on a list whose attribute holds the number of
    its cells.  It returns after at most one request per 375 pixels of
    height; the cells it adds show the threads that follow those already
    listed, in the order of the backend, without a gap and without
    repetition; the attribute holds the new number of cells; and it stops
    only when the cells fill the height of the list or the backend has no
    thread left. *)
Theorem X16_loadMore_fills_the_list (fuel : nat) (clientHeight : Z)
        (formatDate : string -> string) (backend : Backend) (all : list Z)
        (d : Board.t) :
  (forall start, getThreads backend start = paging all start) ->
  counted_cells d ->
  (1 <= fuel)%nat ->
  clientHeight + 5 <= 375 * (Z.of_nat fuel - 1) ->
  exists d' m,
    loadMoreThreadsIfNeeded fuel clientHeight formatDate backend d = Some d'
    /\ Board.threadsListItems d'
       = Board.threadsListItems d
         ++ map (cellOf formatDate backend)
              (firstn m (skipn (List.length (Board.threadsListItems d)) all))
    /\ counted_cells d'
    /\ (clientHeight + 5
        <= 75 * Z.of_nat (List.length (Board.threadsListItems d'))
        \/ (List.length all
            <= List.length (Board.threadsListItems d) + m)%nat).
Proof.
  intros Hback Hcount Hfuel Hh.
  apply (loadMore_paging clientHeight formatDate backend all Hback fuel d);
    try assumption.
  lia.
Qed.

(** A list 100 pixels high and the two threads of the sample backend: one
    request, two cells, of which the second stays empty because the
    creator of thread 12 is not found. *)
Lemma X16_loadMore_fills_the_list_witness :
  exists d',
    loadMoreThreadsIfNeeded 2 100 (fun _ => "01/01/24") (sampleBackend [])
                            emptyBoard = Some d'
    /\ map cell_data_thread_id (Board.threadsListItems d')
       = [Some "11"; Some ""]
    /\ Board.data_threads_count d' = Some "2".
Proof.
  destruct (X16_loadMore_fills_the_list
              2 100 (fun _ => "01/01/24") (sampleBackend []) [11; 12]
              emptyBoard)
    as (d' & m & Hd' & Hitems & Hcount & _);
    [reflexivity|reflexivity|lia|lia|].
  exists d'. split; [exact Hd'|].
  assert (E : Some d' = loadMoreThreadsIfNeeded
                          2 100 (fun _ => "01/01/24") (sampleBackend [])
                          emptyBoard) by (symmetry; exact Hd').
  vm_compute in E. injection E as ->. split; reflexivity.
Defined.

(** ** The threads of a user on the profile screen *)



(** ** The requests of a render *)

Lemma displayCommentDOM_asked (base : list Event) (c : Comment)
      (parent : Value) (now level : Z) (p : Page) :
  asked base p ->
  asked base (displayCommentDOM (id c) parent (creatorId c)
                                (Z.of_nat (List.length (likes c)))
                                (includes (likes c) (parseIntAttr (userId p)))
                                (dateString (now - createdAt c)) (content c)
                                level p).
Proof.
  intros (Ha & Ht).
  pose proof (displayCommentDOM_appended c parent now level p Ha) as H.
  split; [eapply appended_allocated; eassumption|].
  destruct H as (Hc & _ & Hn & Hm & _).
  unfold domView. rewrite Hc, map_app, Hm, map_app, app_assoc.
  replace (map (nodes _) (threadComments p)) with (domView p).
  - rewrite <- Ht. reflexivity.
  - unfold domView. apply map_ext_in. intros r Hr. symmetry. apply Hn.
    unfold allocated in Ha. rewrite Forall_forall in Ha. apply Ha, Hr.
Qed.

Lemma forEach_asked (base : list Event) (f : Comment -> nat -> Page -> Result) :
  (forall x i p q, asked base p -> leaves (f x i p) q -> asked base q) ->
  forall l i p q,
    asked base p -> leaves (forEach f l i p) q -> asked base q.
Proof.
  intros Hf. induction l as [|x l IH]; intros i p q Hp Hq.
  - destruct Hq as [Hq|Hq]; [injection Hq as <-; exact Hp|discriminate].
  - cbn [forEach] in Hq. destruct (f x i p) as [p1|p1|] eqn:E; cbn [bind] in Hq.
    + apply (IH (S i) p1 q); [|exact Hq].
      apply (Hf x i p p1 Hp). left. exact E.
    + destruct Hq as [Hq|Hq]; [discriminate|]. injection Hq as <-.
      apply (Hf x i p p1 Hp). right. exact E.
    + destruct Hq; discriminate.
Qed.

Lemma displayCommentRecursive_asked (base : list Event) (now : Z)
      (comments : list Comment) :
  forall fuel level index parent p q,
    asked base p ->
    leaves (displayCommentRecursive fuel now level comments index parent p) q ->
    asked base q.
Proof.
  induction fuel as [|fuel IH]; intros level index parent p q Hp Hq.
  - destruct Hq; discriminate.
  - cbn [displayCommentRecursive] in Hq.
    destruct (nth_error comments index) as [c|].
    + revert Hq. apply forEach_asked.
      * intros x i p1 q1 Hp1 Hq1.
        destruct (parentCommentId x) as [parent0|].
        -- destruct (parent0 =? id c).
           ++ eapply IH; eassumption.
           ++ destruct Hq1 as [Hq1|Hq1]; [injection Hq1 as <-|discriminate].
              exact Hp1.
        -- destruct Hq1 as [Hq1|Hq1]; [injection Hq1 as <-|discriminate].
           exact Hp1.
      * apply displayCommentDOM_asked. exact Hp.
    + destruct Hq as [Hq|Hq]; [discriminate|injection Hq as <-; exact Hp].
Qed.

Lemma showReplyControl_trace (p q : Page) :
  showReplyControl p = Done q -> trace q = trace p.
Proof.
  unfold showReplyControl.
  destruct ((List.length (threadComments p) =? 0)%nat
            && attrIs (data_is_locked p) "false").
  - cbn. intros H. injection H as <-. reflexivity.
  - destruct ((List.length (threadComments p) =? 0)%nat
              && attrIs (data_is_locked p) "true");
      intros H; injection H as <-; reflexivity.
Qed.

(** X18: a render of a forest sends, after the request for the comments,
    one request for a user per comment it draws, in drawing order -- the
    author of n comments is asked for n times -- and no other request;
    before them it takes every former child out of the container. *)
Theorem X18_render_requests (now : Z) (tid : string) (cs : list Comment)
        (p q : Page) :
  forest cs = true ->
  displayComments (S (List.length cs)) now tid (Resolved cs) p = Done q ->
  trace q
  = trace p ++ map DomRemove (threadComments p)
    ++ ApiCall (commentsRequest tid)
       :: map (fun c => ApiCall (userRequest (toString (creatorId c))))
              (preorder (sort byRecency cs)).
Proof.
  intros Hf Hq.
  destruct (requestComments_page tid p) as (Hc & Ht & _).
  destruct cs as [|c0 cs0].
  - rewrite displayComments_empty in Hq.
    apply showReplyControl_trace in Hq. rewrite Hq, Ht.
    cbn [sort fold_right preorder filter flat_map map]. reflexivity.
  - set (cs := c0 :: cs0) in *.
    assert (Hne : cs <> []) by discriminate.
    destruct (displayComments_forest_page now tid cs p q Hf Hne Hq)
      as (_ & Hv & _).
    unfold displayComments, commentsSettled, commentsFetched in Hq.
    set (sorted := sort byRecency cs) in *.
    set (p1 := requestComments tid p) in *.
    assert (Hlen : (List.length sorted =? 0)%nat = false).
    { apply Nat.eqb_neq. unfold sorted. rewrite sort_length. discriminate. }
    rewrite Hlen in Hq. cbn [andb] in Hq.
    assert (H1 : asked (trace p1) p1).
    { split.
      - unfold allocated. rewrite Hc. constructor.
      - unfold domView. rewrite Hc. cbn [map]. rewrite app_nil_r.
        reflexivity. }
    match type of Hq with
    | context [forEach ?f sorted 0%nat p1] =>
        pose proof (forEach_asked (trace p1) f) as Hfe;
        destruct (forEach f sorted 0%nat p1) as [q0|q0|] eqn:E
    end; cbn [bind] in Hq; [| |discriminate];
      (assert (Hroots : forall x i p2 q2,
                  asked (trace p1) p2 ->
                  leaves (match parentCommentId x with
                          | Some _ => Done p2
                          | None => displayCommentRecursive
                                      (S (List.length cs)) now 0 sorted i
                                      Null p2
                          end) q2 ->
                  asked (trace p1) q2)
        by (intros x i p2 q2 Hp2 Hq2;
            destruct (parentCommentId x);
            [destruct Hq2 as [Hq2|Hq2];
             [injection Hq2 as <-; exact Hp2|discriminate]
            |eapply displayCommentRecursive_asked; eassumption])).
    + injection Hq as <-.
      assert (H0 : asked (trace p1) q0).
      { apply (Hfe Hroots sorted 0%nat p1 q0 H1).
        left. exact E. }
      destruct H0 as (_ & H0).
      change (trace (with_threadMainReply "inline-block" q0)) with (trace q0).
      change (domView (with_threadMainReply "inline-block" q0))
        with (domView q0) in Hv.
      rewrite H0, Hv, Ht, map_map, <- !app_assoc. reflexivity.
    + injection Hq as <-.
      assert (H0 : asked (trace p1) q0).
      { apply (Hfe Hroots sorted 0%nat p1 q0 H1).
        right. exact E. }
      destruct H0 as (_ & H0).
      change (trace (showErrorPopUp "TypeError" q0)) with (trace q0).
      change (domView (showErrorPopUp "TypeError" q0)) with (domView q0) in Hv.
      rewrite H0, Hv, Ht, map_map, <- !app_assoc. reflexivity.
Qed.

Lemma X18_render_requests_witness :
  apiCalls (trace samplePage)
  = [commentsRequest "1"; userRequest "6"; userRequest "5"; userRequest "6";
     userRequest "5"; userRequest "6"; userRequest "7"].
Proof.
  rewrite (X18_render_requests 1000 "1" sampleComments (initialPage "false")
                               samplePage);
    reflexivity.
Defined.

(** ** Scrolling the list of threads *)

Lemma firstn_page {A : Type} (c : nat) (all : list A) :
  firstn (c + List.length (firstn 5 (skipn c all))) all
  = firstn c all ++ firstn 5 (skipn c all).
Proof.
  rewrite firstn_plus. f_equal.
  rewrite length_firstn.
  destruct (Nat.le_ge_cases 5 (List.length (skipn c all))) as [H|H].
  - rewrite Nat.min_l by exact H. reflexivity.
  - rewrite Nat.min_r by exact H.
    rewrite firstn_all. symmetry. apply firstn_all2. exact H.
Qed.

(** A page of the backend, asked for at the number of cells and appended
    by [displayThreads], keeps the list a prefix of the threads. *)
Lemma page_listed (formatDate : string -> string) (backend : Backend)
      (all : list Z) (d d1 : Board.t) :
  listed formatDate backend all d ->
  Board.threadsListItems d1 = Board.threadsListItems d ->
  Board.data_threads_count d1 = Board.data_threads_count d ->
  let c := List.length (Board.threadsListItems d) in
  let pg := firstn 5 (skipn c all) in
  let d3 := Board.with_data_threads_count
              (Some (toString (Z.of_nat c + Z.of_nat (List.length pg))))
              (displayThreads formatDate backend pg d1) in
  listed formatDate backend all d3
  /\ (c <= List.length (Board.threadsListItems d3))%nat.
Proof.
  intros (Hcount & Hitems) Hi1 Hc1 c pg d3.
  assert (Hcount1 : counted_cells d1)
    by (unfold counted_cells; rewrite Hc1, Hi1; exact Hcount).
  destruct (displayThreads_cells formatDate backend pg d1 Hcount1)
    as (Hit & _ & Hlen).
  rewrite Hi1 in Hit, Hlen. fold c in Hlen.
  assert (Hi3 : Board.threadsListItems d3
                = Board.threadsListItems d
                  ++ map (cellOf formatDate backend) pg) by exact Hit.
  assert (Hl3 : List.length (Board.threadsListItems d3)
                = (c + List.length pg)%nat) by exact Hlen.
  split; [split|].
  - unfold counted_cells. rewrite Hl3.
    unfold d3. cbn [Board.with_data_threads_count Board.data_threads_count].
    do 2 f_equal. lia.
  - rewrite Hl3. unfold pg. rewrite firstn_page, map_app.
    fold pg. rewrite Hi3. f_equal. exact Hitems.
  - rewrite Hl3. lia.
Qed.

Lemma scrollAndLoad_listed (formatDate : string -> string) (backend : Backend)
      (all : list Z) (ev : Scroll.t) (d : Board.t) :
  (forall start, getThreads backend start = paging all start) ->
  listed formatDate backend all d ->
  listed formatDate backend all (scrollAndLoad formatDate backend ev d)
  /\ (List.length (Board.threadsListItems d)
      <= List.length (Board.threadsListItems
                        (scrollAndLoad formatDate backend ev d)))%nat.
Proof.
  intros Hback Hl. unfold scrollAndLoad, onThreadsListScroll.
  destruct (scrolledToBottom ev); [|split; [exact Hl|lia]].
  pose proof Hl as (Hcount & _). unfold counted_cells in Hcount.
  rewrite Hcount. cbn [parseIntAttr]. rewrite parseInt_toString.
  cbn [ofParse String_]. rewrite Hback. unfold paging.
  rewrite parseInt_toString, Nat2Z.id.
  unfold threadsLoaded. cbn [option_map ofParse String_].
  apply (page_listed formatDate backend all d); [exact Hl| |]; reflexivity.
Qed.

Lemma loadMore_listed (clientHeight : Z) (formatDate : string -> string)
      (backend : Backend) (all : list Z) :
  (forall start, getThreads backend start = paging all start) ->
  forall (fuel : nat) (d d' : Board.t),
    listed formatDate backend all d ->
    loadMoreThreadsIfNeeded fuel clientHeight formatDate backend d = Some d' ->
    listed formatDate backend all d'
    /\ (List.length (Board.threadsListItems d)
        <= List.length (Board.threadsListItems d'))%nat.
Proof.
  intros Hback. induction fuel as [|fuel IH]; intros d d' Hl Hd';
    [discriminate|].
  cbn [loadMoreThreadsIfNeeded] in Hd'.
  pose proof Hl as (Hcount & _). unfold counted_cells in Hcount.
  rewrite Hcount in Hd'. cbn [parseIntAttr] in Hd'.
  rewrite parseInt_toString in Hd'.
  cbn [option_map lt ofParse String_] in Hd'.
  destruct (Z.of_nat (List.length (Board.threadsListItems d)) * 75
            <? clientHeight + 5);
    [|injection Hd' as <-; split; [exact Hl|lia]].
  rewrite Hback in Hd'. unfold paging in Hd'.
  rewrite parseInt_toString, Nat2Z.id in Hd'.
  match type of Hd' with
  | context [displayThreads formatDate backend ?pg ?d1] =>
      destruct (page_listed formatDate backend all d d1 Hl eq_refl eq_refl)
        as (H3 & Hle)
  end.
  cbv zeta in H3, Hle.
  destruct (List.length (firstn 5 _) =? 5)%nat.
  - destruct (IH _ d' H3 Hd') as (H4 & Hle').
    split; [exact H4|]. lia.
  - injection Hd' as <-. split; [exact H3|exact Hle].
Qed.

(** X19: on a dashboard whose list shows the first threads of the backend
    and counts them in [data-threads-count], scroll events and runs of
    [loadMoreThreadsIfNeeded], each settled before the next begins, keep
    it so: the list never shrinks, and it always shows a prefix of the
    threads of the backend in their order, one cell per thread, with the
    attribute equal to the number of cells. *)
Theorem X19_list_stays_a_prefix (formatDate : string -> string)
        (backend : Backend) (all : list Z) (actions : list ListAction)
        (d d' : Board.t) :
  (forall start, getThreads backend start = paging all start) ->
  listed formatDate backend all d ->
  listRun formatDate backend actions d = Some d' ->
  listed formatDate backend all d'
  /\ (List.length (Board.threadsListItems d)
      <= List.length (Board.threadsListItems d'))%nat.
Proof.
  intros Hback. revert d.
  induction actions as [|a actions IH]; intros d Hl Hrun.
  - injection Hrun as <-. split; [exact Hl|lia].
  - cbn [listRun] in Hrun.
    destruct (listStep formatDate backend a d) as [d1|] eqn:E;
      [|discriminate].
    assert (H1 : listed formatDate backend all d1
                 /\ (List.length (Board.threadsListItems d)
                     <= List.length (Board.threadsListItems d1))%nat).
    { destruct a as [ev|fuel clientHeight]; cbn [listStep] in E.
      - injection E as <-. apply scrollAndLoad_listed; assumption.
      - eapply loadMore_listed; eassumption. }
    destruct H1 as (H1 & Hle).
    destruct (IH d1 H1 Hrun) as (H2 & Hle').
    split; [exact H2|lia].
Qed.

(** The first event lists the two threads of the sample backend; the list
    is then higher than the 100 pixels, and the second event finds no
    further thread. *)
Lemma X19_list_stays_a_prefix_witness :
  exists d',
    listRun (fun _ => "01/01/24") (sampleBackend [])
            [ScrollTo atBottom; FillHeight 2 100; ScrollTo atBottom]
            emptyBoard = Some d'
    /\ listed (fun _ => "01/01/24") (sampleBackend []) [11; 12] d'
    /\ List.length (Board.threadsListItems d') = 2%nat.
Proof.
  destruct (listRun (fun _ => "01/01/24") (sampleBackend [])
                    [ScrollTo atBottom; FillHeight 2 100; ScrollTo atBottom]
                    emptyBoard) as [d'|] eqn:E; [|vm_compute in E; discriminate].
  exists d'. split; [reflexivity|].
  destruct (X19_list_stays_a_prefix
              (fun _ => "01/01/24") (sampleBackend []) [11; 12]
              [ScrollTo atBottom; FillHeight 2 100; ScrollTo atBottom]
              emptyBoard d') as (Hl & _);
    [reflexivity|split; reflexivity|exact E|].
  split; [exact Hl|].
  vm_compute in E. injection E as <-. reflexivity.
Defined.

(** X20: two scroll events at the bottom of the list before the page of
    the first has arrived ask for the same page, and both callbacks add
    it: with the first page settled before the second arrives, the
    threads of the page stand twice at the end of the list, and the
    attribute, set by both callbacks from the count read before the
    requests, falls short of the number of cells by the length of the
    page. *)
Theorem X20_overlapping_scrolls (formatDate : string -> string)
        (backend : Backend) (ev1 ev2 : Scroll.t) (d : Board.t)
        (threads : list Z) :
  counted_cells d ->
  scrolledToBottom ev1 = true -> scrolledToBottom ev2 = true ->
  getThreads backend
             (toString (Z.of_nat (List.length (Board.threadsListItems d))))
  = Replied threads ->
  exists (count : option Z) (d1 d2 : Board.t),
    onThreadsListScroll ev1 d = (Some count, d1)
    /\ onThreadsListScroll ev2 d1 = (Some count, d2)
    /\ apiCalls (trace (Board.page d2))
       = apiCalls (trace (Board.page d))
         ++ [threadsRequest (String_ (ofParse count));
             threadsRequest (String_ (ofParse count))]
    /\ getThreads backend (String_ (ofParse count)) = Replied threads
    /\ (let d4 :=
          threadsLoaded formatDate backend count (Replied threads)
            (threadsLoaded formatDate backend count (Replied threads) d2) in
        Board.threadsListItems d4
        = Board.threadsListItems d
          ++ map (cellOf formatDate backend) threads
          ++ map (cellOf formatDate backend) threads
        /\ Board.data_threads_count d4
           = Some (toString
                     (Z.of_nat (List.length (Board.threadsListItems d)
                                + List.length threads)))
        /\ (threads <> [] -> ~ counted_cells d4)).
Proof.
  intros Hcount Hev1 Hev2 Hreply.
  set (c := List.length (Board.threadsListItems d)) in *.
  pose proof Hcount as Hattr. unfold counted_cells in Hattr. fold c in Hattr.
  set (request := threadsRequest (toString (Z.of_nat c))).
  set (d1 := Board.onPage (emit (ApiCall request)) d).
  set (d2 := Board.onPage (emit (ApiCall request)) d1).
  assert (E1 : onThreadsListScroll ev1 d = (Some (Some (Z.of_nat c)), d1)).
  { unfold onThreadsListScroll. rewrite Hev1, Hattr.
    cbn [parseIntAttr]. rewrite parseInt_toString. reflexivity. }
  assert (E2 : onThreadsListScroll ev2 d1 = (Some (Some (Z.of_nat c)), d2)).
  { unfold onThreadsListScroll. rewrite Hev2.
    change (Board.data_threads_count d1) with (Board.data_threads_count d).
    rewrite Hattr. cbn [parseIntAttr]. rewrite parseInt_toString.
    reflexivity. }
  exists (Some (Z.of_nat c)), d1, d2.
  split; [exact E1|]. split; [exact E2|].
  cbn [ofParse String_].
  split.
  { unfold d2, d1. cbn [Board.page Board.onPage emit with_trace trace].
    rewrite !apiCalls_app, <- app_assoc. reflexivity. }
  split; [exact Hreply|].
  assert (Hc2 : counted_cells d2) by exact Hcount.
  unfold threadsLoaded. cbn [option_map ofParse String_].
  destruct (displayThreads_cells formatDate backend threads d2 Hc2)
    as (Hi3 & _ & Hl3).
  change (Board.threadsListItems d2) with (Board.threadsListItems d)
    in Hi3, Hl3.
  fold c in Hl3.
  set (d3 := Board.with_data_threads_count
               (Some (toString (Z.of_nat c + Z.of_nat (List.length threads))))
               (displayThreads formatDate backend threads d2)) in *.
  assert (Hc3 : counted_cells d3).
  { unfold counted_cells.
    change (Board.threadsListItems d3)
      with (Board.threadsListItems
              (displayThreads formatDate backend threads d2)).
    rewrite Hl3. unfold d3.
    cbn [Board.with_data_threads_count Board.data_threads_count].
    do 2 f_equal. lia. }
  destruct (displayThreads_cells formatDate backend threads d3 Hc3)
    as (Hi4 & _ & Hl4).
  change (Board.threadsListItems d3)
    with (Board.threadsListItems
            (displayThreads formatDate backend threads d2)) in Hi4, Hl4.
  rewrite Hi3 in Hi4. rewrite Hl3 in Hl4.
  cbv zeta.
  cbn [Board.with_data_threads_count Board.data_threads_count
       Board.threadsListItems].
  split; [rewrite Hi4, <- app_assoc; reflexivity|].
  split; [do 2 f_equal; lia|].
  intros Hne Hc4. unfold counted_cells in Hc4.
  cbn [Board.with_data_threads_count Board.data_threads_count
       Board.threadsListItems] in Hc4.
  rewrite Hl4 in Hc4. injection Hc4 as Hc4. apply toString_inj in Hc4.
  destruct threads; [congruence|]. cbn [List.length] in Hc4. lia.
Qed.

(** Two events on the empty dashboard against the sample backend: threads
    11 and 12 are listed twice, and the attribute reads 2. *)
Lemma X20_overlapping_scrolls_witness :
  exists (count : option Z) (d1 d2 : Board.t),
    onThreadsListScroll atBottom emptyBoard = (Some count, d1)
    /\ onThreadsListScroll atBottom d1 = (Some count, d2)
    /\ (let d4 :=
          threadsLoaded (fun _ => "01/01/24") (sampleBackend []) count
                        (Replied [11; 12])
            (threadsLoaded (fun _ => "01/01/24") (sampleBackend []) count
                           (Replied [11; 12]) d2) in
        List.length (Board.threadsListItems d4) = 4%nat
        /\ Board.data_threads_count d4 = Some "2").
Proof.
  destruct (X20_overlapping_scrolls
              (fun _ => "01/01/24") (sampleBackend []) atBottom atBottom
              emptyBoard [11; 12])
    as (count & d1 & d2 & H1 & H2 & _ & _ & H4 & H5 & _);
    [reflexivity|reflexivity|reflexivity|reflexivity|].
  exists count, d1, d2. split; [exact H1|]. split; [exact H2|].
  cbv zeta. split.
  - rewrite H4. reflexivity.
  - rewrite H5. reflexivity.
Defined.

(** ** A thread after a delete *)








Section Pruned.

Variable s : list Comment.
Hypothesis Hforest : forest s = true.
Variable c : Comment.
Hypothesis Hc : In c s.















End Pruned.




(** ** The shape of a rendered list *)

Lemma takeWhile_run {A : Type} (f : A -> bool) (l after : list A) :
  Forall (fun x => f x = true) l ->
  match after with
  | [] => True
  | a :: _ => f a = false
  end ->
  takeWhile f (l ++ after) = l.
Proof.
  intros Hl Ha. induction Hl as [|x l Hx Hl IH]; cbn [app takeWhile].
  - destruct after as [|a after]; [reflexivity|].
    cbn [takeWhile]. rewrite Ha. reflexivity.
  - rewrite Hx, IH. reflexivity.
Qed.

Lemma deeper_weaken (m m' : Z) (e : Element) :
  m' <= m -> deeper m e = true -> deeper m' e = true.
Proof.
  unfold deeper, lt. destruct (marginOf e) as [x|]; [|discriminate].
  rewrite !Z.ltb_lt. lia.
Qed.

Lemma stopsAt_weaken (m m' : Z) (after : list Element) :
  m <= m' -> stopsAt m after -> stopsAt m' after.
Proof.
  intros Hm. destruct after as [|a after]; [trivial|]. cbn [stopsAt].
  unfold deeper, lt. destruct (marginOf a) as [x|]; [|trivial].
  rewrite !Z.ltb_ge. lia.
Qed.

Lemma deeper_not_at (m : Z) (l : list Element) :
  Forall (fun e => deeper m e = true) l -> filter (atMargin m) l = [].
Proof.
  intros H. apply filter_nothing. intros e He.
  rewrite Forall_forall in H. specialize (H e He).
  unfold deeper, lt, atMargin in *. destruct (marginOf e) as [x|];
    [|reflexivity].
  apply Z.ltb_lt in H. apply Z.eqb_neq. lia.
Qed.

Section Shape.

Variables (uid : option string) (now : Z) (cs : list Comment).

Lemma marginOf_box (c : Comment) (parent : Value) (L : Z) :
  marginOf (boxOf uid now c parent L) = Some (L * 10).
Proof. unfold marginOf, boxOf. cbn [style_marginLeft]. apply parseInt_slice_px. Qed.

(** A tree at level [L]: the box of [c], then boxes further in, every box
    followed by its children. *)
Let tree (L : Z) (c : Comment) (parent : Value) (t : list Element) : Prop :=
  exists rest,
    t = boxOf uid now c parent L :: rest
    /\ Forall (fun e => deeper (L * 10) e = true) rest
    /\ forall after,
        stopsAt (L * 10) after ->
        forall n e,
          nth_error t n = Some e ->
          parentOfItsChildren uid now cs e (skipn (S n) t ++ after).

(** The trees of the comments [ks], one after the other. *)
Let trees (L : Z) (parent : Value) (ks : list Comment) (els : list Element)
  : Prop :=
  Forall (fun e => deeper (L * 10 - 1) e = true) els
  /\ filter (atMargin (L * 10)) els
     = map (fun k => boxOf uid now k parent L) ks
  /\ forall after,
      stopsAt (L * 10) after ->
      stopsAt (L * 10) (els ++ after)
      /\ forall n e,
          nth_error els n = Some e ->
          parentOfItsChildren uid now cs e (skipn (S n) els ++ after).

Lemma collect_trees (L : Z) (parent : Value) (sel : Comment -> bool)
      (T : Comment -> option (list Element)) :
  forall l els,
    (forall k t, In k l -> sel k = true -> T k = Some t -> tree L k parent t) ->
    collect (fun k => if sel k then T k else Some []) l = Some els ->
    trees L parent (filter sel l) els.
Proof.
  induction l as [|k l IH]; intros els Htree Hc; cbn [collect filter] in *.
  - injection Hc as <-. split; [constructor|]. split; [reflexivity|].
    intros after Ha. split; [exact Ha|]. intros n e Hn.
    destruct n; discriminate.
  - assert (Htree' : forall k0 t, In k0 l -> sel k0 = true ->
                                  T k0 = Some t -> tree L k0 parent t)
      by (intros k0 t Hk0; apply Htree; right; exact Hk0).
    destruct (sel k) eqn:Hsel.
    + destruct (T k) as [t|] eqn:Ht; [|discriminate].
      destruct (collect _ l) as [els'|] eqn:El; [|discriminate].
      cbn [option_map] in Hc. injection Hc as <-.
      destruct (IH els' Htree' eq_refl) as (F1 & F2 & F3).
      destruct (Htree k t (or_introl eq_refl) Hsel Ht)
        as (rest & -> & Hrest & Hgood).
      split; [|split].
      * cbn [app]. constructor.
        -- unfold deeper, lt. rewrite marginOf_box. apply Z.ltb_lt. lia.
        -- apply Forall_app. split; [|exact F1].
           eapply Forall_impl; [|exact Hrest]. cbv beta. intros e.
           apply deeper_weaken. lia.
      * cbn [app filter map]. unfold atMargin at 1. rewrite marginOf_box.
        rewrite Z.eqb_refl, filter_app, (deeper_not_at _ _ Hrest), F2.
        reflexivity.
      * intros after Ha. destruct (F3 after Ha) as [Hstop Hels'].
        split.
        -- cbn [app stopsAt]. unfold deeper, lt. rewrite marginOf_box.
           apply Z.ltb_irrefl.
        -- intros n e Hn.
           set (t := boxOf uid now k parent L :: rest) in *.
           destruct (Nat.lt_ge_cases n (List.length t)) as [Hlt|Hge].
           ++ rewrite nth_error_app1 in Hn by exact Hlt.
              rewrite skipn_app, <- app_assoc.
              replace (S n - List.length t)%nat with 0%nat by lia.
              cbn [skipn]. apply Hgood; [exact Hstop|exact Hn].
           ++ rewrite nth_error_app2 in Hn by exact Hge.
              rewrite skipn_app.
              rewrite (skipn_all2 t) by lia. cbn [app].
              replace (S n - List.length t)%nat
                with (S (n - List.length t)) by lia.
              apply Hels'. exact Hn.
    + destruct (collect _ l) as [els'|] eqn:El; [|discriminate].
      cbn [option_map app] in Hc. injection Hc as <-.
      apply (IH els' Htree' eq_refl).
Qed.

Lemma isChildOf_parentValue (c k : Comment) :
  isChildOf c k = true -> parentValue k = Num (id c).
Proof.
  unfold isChildOf, parentValue. destruct (parentCommentId k) as [i|];
    [|discriminate].
  intros H. apply Z.eqb_eq in H. congruence.
Qed.

Lemma renderTree_tree :
  forall fuel L c parent t,
    In c cs -> parent = parentValue c ->
    renderTree fuel uid now cs L c parent = Some t ->
    tree L c parent t.
Proof.
  induction fuel as [|fuel IH]; intros L c parent t Hc Hp Ht; [discriminate|].
  cbn [renderTree] in Ht.
  destruct (collect _ cs) as [rest|] eqn:Er; [|discriminate].
  cbn [option_map] in Ht. injection Ht as <-.
  assert (Hall : forall l, incl l cs -> forall els,
               collect
                 (fun k =>
                    if isChildOf c k
                    then renderTree fuel uid now cs (L + 1) k (Num (id c))
                    else Some []) l = Some els ->
               trees (L + 1) (Num (id c)) (filter (isChildOf c) l) els).
  { intros l Hl els. apply collect_trees. intros k t Hk Hsel Hk'.
    apply IH; [apply Hl, Hk| |exact Hk'].
    symmetry. apply isChildOf_parentValue, Hsel. }
  destruct (Hall cs (incl_refl cs) rest Er) as (F1 & F2 & F3).
  exists rest. split; [reflexivity|]. split.
  { eapply Forall_impl; [|exact F1]. cbv beta. intros e.
    apply deeper_weaken. lia. }
  intros after Ha n e Hn.
  assert (Ha' : stopsAt ((L + 1) * 10) after)
    by (apply (stopsAt_weaken (L * 10)); [lia|exact Ha]).
  destruct (F3 after Ha') as [_ Hgood].
  destruct n as [|n]; cbn [nth_error skipn] in *.
  - injection Hn as <-. exists c, L. split; [exact Hc|].
    split; [rewrite Hp; reflexivity|].
    unfold childBoxes, boxesBelow. rewrite takeWhile_run.
    + replace (L * 10 + 10) with ((L + 1) * 10) by lia. exact F2.
    + eapply Forall_impl; [|exact F1]. cbv beta. intros e.
      apply deeper_weaken. lia.
    + exact Ha.
  - apply Hgood. exact Hn.
Qed.

(** The boxes of a render: the boxes at top level are those of the roots,
    in the order of the list, and every box is followed by the boxes of
    the children of its comment, in the order of the list. *)
Lemma renderRoots_shape (fuel : nat) (els : list Element) :
  renderRoots fuel uid now cs = Some els ->
  topBoxes els = map (fun k => boxOf uid now k Null 0) (filter isRoot cs)
  /\ forall n e,
      nth_error els n = Some e ->
      parentOfItsChildren uid now cs e (skipn (S n) els).
Proof.
  unfold renderRoots. intros H.
  assert (Hall : forall l, incl l cs -> forall els,
               collect
                 (fun k =>
                    if isRoot k then renderTree fuel uid now cs 0 k Null
                    else Some []) l = Some els ->
               trees 0 Null (filter isRoot l) els).
  { intros l Hl els0. apply collect_trees. intros k t Hk Hsel Hk'.
    apply (renderTree_tree fuel); [apply Hl, Hk| |exact Hk'].
    unfold isRoot, parentValue in *. destruct (parentCommentId k);
      [discriminate|reflexivity]. }
  destruct (Hall cs (incl_refl cs) els H) as (_ & F2 & F3).
  split; [exact F2|].
  intros n e Hn. destruct (F3 [] I) as [_ Hgood].
  rewrite <- (app_nil_r (skipn (S n) els)). apply Hgood. exact Hn.
Qed.

End Shape.

(** The comment boxes a render leaves, whatever the list: those of
    [renderRoots] on the sorted list. *)
Lemma displayComments_rendered (fuel : nat) (now : Z) (tid : string)
      (cs : list Comment) (p q : Page) :
  (replyBox p < fresh p)%nat ->
  displayComments fuel now tid (Resolved cs) p = Done q ->
  renderRoots fuel (userId p) now (sort byRecency cs)
  = Some (renderedComments q)
  \/ (cs = [] /\ renderedComments q = []).
Proof.
  intros Hrb Hq. destruct cs as [|c0 cs0].
  - right. split; [reflexivity|].
    destruct (displayComments_empty_view fuel now tid p)
      as (q' & Hq' & Hr & _ & Hc & _).
    rewrite Hq' in Hq. injection Hq as <-.
    unfold renderedComments. rewrite Hc, Hr.
    destruct (attrIs (data_is_locked p) "false"); simpl;
      rewrite ?Nat.eqb_refl; reflexivity.
  - left. set (cs := c0 :: cs0) in *.
    pose proof (displayComments_nonempty fuel now tid cs p) as H.
    destruct (renderRoots fuel (userId p) now (sort byRecency cs)) as [els|].
    + destruct H as (q' & Hq' & Hc & _ & _ & Hv & Hr & _); [discriminate|].
      rewrite Hq' in Hq. injection Hq as <-. f_equal. rewrite <- Hv.
      unfold renderedComments, domView. f_equal.
      rewrite Hc, Hr. symmetry. apply forallb_filter_id, forallb_forall.
      intros r Hin. apply in_seq in Hin. apply negb_true_iff, Nat.eqb_neq.
      lia.
    + rewrite H in Hq by discriminate. discriminate.
Qed.

(** C3: for every flat list of comments, the render works on the list
    sorted most recent first, comments created at the same time keeping
    the order of the input.  The boxes at top level are the boxes of the
    comments without parent, in the order of the sorted list -- most
    recent first, ties in input order -- and every box is the box of a
    comment and is followed by the boxes of the children of that comment
    in the order in which they stand in the sorted list, one level
    further in.  Nothing is asked of the list: a parent that is not in
    the list, or an id that occurs twice, changes nothing to it. *)
Theorem C3_render_order (now : Z) (tid : string) (cs : list Comment)
        (p : Page) :
  (replyBox p < fresh p)%nat ->
  let sorted := sort byRecency cs in
  Permutation sorted cs
  /\ StronglySorted newerFirst sorted
  /\ (forall t, filter (createdAtIs t) sorted = filter (createdAtIs t) cs)
  /\ StronglySorted newerFirst (filter isRoot sorted)
  /\ (forall t, filter (createdAtIs t) (filter isRoot sorted)
                = filter (createdAtIs t) (filter isRoot cs))
  /\ (distinctIds (map id cs) = true ->
      exists q,
        displayComments (S (List.length cs)) now tid (Resolved cs) p
        = Done q)
  /\ forall fuel q,
      displayComments fuel now tid (Resolved cs) p = Done q ->
      topBoxes (renderedComments q)
      = map (fun c => boxOf (userId p) now c Null 0) (filter isRoot sorted)
      /\ forall n e,
          nth_error (renderedComments q) n = Some e ->
          exists c L,
            In c sorted
            /\ e = boxOf (userId p) now c (parentValue c) L
            /\ childBoxes (L * 10) (skipn (S n) (renderedComments q))
               = map (fun k => boxOf (userId p) now k (Num (id c)) (L + 1))
                     (filter (isChildOf c) sorted).
Proof.
  intros Hrb sorted. unfold sorted.
  split; [apply sort_perm|]. split; [apply sort_sorted|].
  split; [intros t; apply sort_stable|].
  split; [apply StronglySorted_filter, sort_sorted|].
  split; [intros t; rewrite filter_swap, sort_stable, filter_swap;
          reflexivity|].
  split; [intros Hd; apply displayComments_returns; [exact Hd|lia]|].
  intros fuel q Hq.
  destruct (displayComments_rendered fuel now tid cs p q Hrb Hq)
    as [Hr|[-> Hr]].
  - apply (renderRoots_shape (userId p) now (sort byRecency cs) fuel).
    exact Hr.
  - rewrite Hr. split; [reflexivity|]. intros n e Hn.
    destruct n; discriminate.
Qed.

(** The sample thread: the roots 3, 1 and 6 by descending date; the box at
    position 1 is that of comment 1, and its children are 5 and 2 in that
    order, the later reply first. *)
Lemma C3_render_order_witness :
  exists q,
    displayComments 7 1000 "1" (Resolved sampleComments) (initialPage "false")
    = Done q
    /\ map data_comment_id (topBoxes (renderedComments q))
       = [Some "3"; Some "1"; Some "6"]
    /\ data_comment_id (nth 1 (renderedComments q) blank) = Some "1"
    /\ map data_comment_id (childBoxes 0 (skipn 2 (renderedComments q)))
       = [Some "5"; Some "2"].
Proof.
  destruct (C3_render_order 1000 "1" sampleComments (initialPage "false"))
    as (_ & _ & _ & _ & _ & Hret & Hshape); [simpl; lia|].
  destruct (Hret eq_refl) as (q & Hq).
  destruct (Hshape _ q Hq) as [Htop Hkids].
  exists q. split; [exact Hq|].
  split; [rewrite Htop; vm_compute; reflexivity|].
  assert (E : Done q = Done samplePage) by (rewrite <- Hq; reflexivity).
  injection E as E.
  split; [rewrite E; vm_compute; reflexivity|].
  destruct (Hkids 1%nat (nth 1 (renderedComments q) blank))
    as (c & L & Hin & He & Hch);
    [rewrite E; vm_compute; reflexivity|].
  assert (M : marginOf (nth 1 (renderedComments samplePage) blank) = Some 0)
    by (vm_compute; reflexivity).
  assert (D : data_comment_id (nth 1 (renderedComments samplePage) blank)
              = Some (toString 1)) by (vm_compute; reflexivity).
  assert (HL : L * 10 = 0).
  { apply (f_equal marginOf) in He. rewrite marginOf_box, E, M in He.
    congruence. }
  assert (Hid : id c = 1).
  { apply (f_equal data_comment_id) in He. rewrite E, D in He.
    cbn [boxOf data_comment_id] in He. injection He as He.
    symmetry. apply toString_inj. exact He. }
  rewrite HL in Hch. rewrite Hch, map_map. cbn [boxOf data_comment_id].
  rewrite (filter_ext (isChildOf c) (fun k => match parentCommentId k with
                                              | Some i => i =? 1
                                              | None => false
                                              end))
    by (intros k; unfold isChildOf; rewrite Hid; reflexivity).
  vm_compute. reflexivity.
Defined.
